(** * MCPTestClient: a JSON-RPC 2.0 test client over a child's standard streams

    Shallow embedding of [examples/mcp-testing/test-mcp.py].  The script
    spawns a server, writes one JSON document per line to its standard
    input, reads one line per request from its standard output and prints
    diagnostics.  The embedding keeps

    - Python values as an inductive type [pyval], with the truth test,
      [str()]/[repr()] formatting, [len], slicing, [in], subscripting and
      [dict.get] the script applies to them;
    - the [json] module as an interface ([json.codec]) with a reference
      implementation that runs;
    - the child process as the way it answers each operation on its pipes:
      a write or a flush succeeds or raises, a read returns a line, returns
      the empty string at end of stream, raises, or never returns;
    - the client object as a record ([process], [request_id]) together with
      the chronological trace of every effect performed so far;
    - the methods as programs of a small state-and-exception monad, in the
      order of the source statements.

    Two things are taken for granted: the console accepts whatever is
    printed, and the child has been started ([__init__] describes the
    object a successful start leaves behind). *)

From Stdlib Require Import String Ascii List ZArith Lia Bool Arith DecimalString.
From Stdlib Require Import Sorted.
Import ListNotations.
Local Open Scope list_scope.
Local Open Scope string_scope.

(** ** Characters and strings

    A Python [str] is modelled by a Rocq [string], one [ascii] per
    character (code points below 256).  The pictographs of the console
    banners lie outside that range; they are kept as their UTF-8 bytes,
    since nothing ever inspects a banner. *)

Definition dquote : ascii := "034"%char.
Definition squote : ascii := "039"%char.
Definition backslash : ascii := "092"%char.
Definition newline : ascii := "010"%char.

Definition chr (c : ascii) : string := String c EmptyString.

Definition utf8 (bytes : list nat) : string :=
  string_of_list_ascii (map ascii_of_nat bytes).

Fixpoint repeat_string (s : string) (n : nat) : string :=
  match n with
  | O => ""
  | S n' => s ++ repeat_string s n'
  end.

(** [s[:n]] on a string. *)
Definition str_prefix (n : nat) (s : string) : string := substring 0 n s.

(** [needle in haystack] on strings. *)
Definition str_contains (needle haystack : string) : bool :=
  match index 0 needle haystack with
  | Some _ => true
  | None => false
  end.

Definition nonempty (s : string) : bool :=
  match s with
  | EmptyString => false
  | String _ _ => true
  end.

Definition decimal (z : Z) : string := NilZero.string_of_int (Z.to_int z).

Definition hex_digit (n : nat) : ascii :=
  nth n (list_ascii_of_string "0123456789abcdef") "0"%char.

Definition hex2 (c : ascii) : string :=
  let n := nat_of_ascii c in
  String (hex_digit (n / 16)) (chr (hex_digit (n mod 16))).

Fixpoint newline_free (s : string) : bool :=
  match s with
  | EmptyString => true
  | String c s' => negb (Ascii.eqb c newline) && newline_free s'
  end.

(** ** Python values

    The values the script handles: what it builds itself, what a caller may
    pass as [params] or [arguments], and what the decoder returns.  Numbers
    are Python's unbounded integers; floating-point numbers are left out,
    the script never computes with a number it receives. *)

Set Warnings "-register-all".

Inductive pyval : Type :=
| PNone
| PBool (b : bool)
| PInt (z : Z)
| PStr (s : string)
| PList (items : list pyval)
| PDict (entries : list (string * pyval))
    (* insertion-ordered, string keys, pairwise distinct *)
| PObj (repr : string) (truth : bool).
    (* any other object (a set, bytes, a class instance): its repr and its
       truth value are all the script can observe of it *)

Section PyvalInduction.
Variable P : pyval -> Prop.
Hypothesis HNone : P PNone.
Hypothesis HBool : forall b, P (PBool b).
Hypothesis HInt : forall z, P (PInt z).
Hypothesis HStr : forall s, P (PStr s).
Hypothesis HList : forall l, Forall P l -> P (PList l).
Hypothesis HDict : forall d, Forall (fun kv => P (snd kv)) d -> P (PDict d).
Hypothesis HObj : forall r t, P (PObj r t).

Fixpoint pyval_nested_ind (v : pyval) : P v :=
  match v with
  | PNone => HNone
  | PBool b => HBool b
  | PInt z => HInt z
  | PStr s => HStr s
  | PList l =>
      HList l ((fix go (l : list pyval) : Forall P l :=
                  match l with
                  | [] => Forall_nil _
                  | x :: l' => Forall_cons _ (pyval_nested_ind x) (go l')
                  end) l)
  | PDict d =>
      HDict d ((fix go (d : list (string * pyval))
                  : Forall (fun kv => P (snd kv)) d :=
                  match d with
                  | [] => Forall_nil _
                  | (k, x) :: d' =>
                      Forall_cons (k, x) (pyval_nested_ind x) (go d')
                  end) d)
  | PObj r t => HObj r t
  end.
End PyvalInduction.

Definition empty_dict : pyval := PDict [].

(** [bool(v)]: the truth test behind [or], [if] and [and]. *)
Definition truthy (v : pyval) : bool :=
  match v with
  | PNone => false
  | PBool b => b
  | PInt z => negb (Z.eqb z 0)
  | PStr s => nonempty s
  | PList [] => false
  | PList (_ :: _) => true
  | PDict [] => false
  | PDict (_ :: _) => true
  | PObj _ t => t
  end.

(** [a or b]. *)
Definition py_or (a b : pyval) : pyval := if truthy a then a else b.

(** The values of JSON's data model: no foreign object at any depth. *)
Fixpoint plain (v : pyval) : bool :=
  match v with
  | PList l => forallb plain l
  | PDict d => forallb (fun '(_, x) => plain x) d
  | PObj _ _ => false
  | _ => true
  end.

Fixpoint dict_lookup (k : string) (d : list (string * pyval)) : option pyval :=
  match d with
  | [] => None
  | (k', x) :: d' => if String.eqb k k' then Some x else dict_lookup k d'
  end.

(** [d[k] = x] on a dict: an existing key keeps its position. *)
Fixpoint dict_set (k : string) (x : pyval) (d : list (string * pyval))
  : list (string * pyval) :=
  match d with
  | [] => [(k, x)]
  | (k', y) :: d' =>
      if String.eqb k k' then (k', x) :: d' else (k', y) :: dict_set k x d'
  end.

(** *** [repr()] and [str()] *)

Definition printable (c : ascii) : bool :=
  let n := nat_of_ascii c in
  (Nat.leb 32 n && Nat.leb n 126) || (Nat.leb 161 n && negb (Nat.eqb n 173)).

Definition repr_char (quote c : ascii) : string :=
  if Ascii.eqb c backslash then String backslash (chr backslash)
  else if Ascii.eqb c quote then String backslash (chr quote)
  else if Ascii.eqb c "009" then String backslash "t"
  else if Ascii.eqb c newline then String backslash "n"
  else if Ascii.eqb c "013" then String backslash "r"
  else if printable c then chr c
  else String backslash ("x" ++ hex2 c).

Definition repr_str (s : string) : string :=
  let cs := list_ascii_of_string s in
  let quote :=
    if existsb (Ascii.eqb squote) cs && negb (existsb (Ascii.eqb dquote) cs)
    then dquote else squote in
  chr quote ++ String.concat "" (map (repr_char quote) cs) ++ chr quote.

Fixpoint py_repr (v : pyval) : string :=
  match v with
  | PNone => "None"
  | PBool true => "True"
  | PBool false => "False"
  | PInt z => decimal z
  | PStr s => repr_str s
  | PList l => "[" ++ String.concat ", " (map py_repr l) ++ "]"
  | PDict d =>
      "{" ++ String.concat ", "
               (map (fun '(k, x) => repr_str k ++ ": " ++ py_repr x) d) ++ "}"
  | PObj r _ => r
  end.

(** [str(v)], which is what an f-string field [{v}] inserts. *)
Definition py_str (v : pyval) : string :=
  match v with
  | PStr s => s
  | _ => py_repr v
  end.

(** ** Exceptions and results *)

Inductive exn : Type :=
| TypeError
| AttributeError
| KeyError
| JSONDecodeError
| OSError (errno : Z).   (* BrokenPipeError is [OSError 32] *)

Inductive res (A : Type) : Type :=
| Val (a : A)
| Exc (e : exn).
Arguments Val {A} a.
Arguments Exc {A} e.

(** *** The built-ins [run_tests] applies to a response *)

(** ["key" in c]. *)
Definition py_in (key : string) (c : pyval) : res bool :=
  match c with
  | PDict d => Val (match dict_lookup key d with Some _ => true | None => false end)
  | PList l =>
      Val (existsb (fun x => match x with
                             | PStr s => String.eqb key s
                             | _ => false
                             end) l)
  | PStr s => Val (str_contains key s)
  | _ => Exc TypeError
  end.

(** [c["key"]]. *)
Definition py_getitem (c : pyval) (key : string) : res pyval :=
  match c with
  | PDict d => match dict_lookup key d with
               | Some x => Val x
               | None => Exc KeyError
               end
  | _ => Exc TypeError
  end.

(** [c.get("key", default)]: only a dict has the method. *)
Definition py_get (c : pyval) (key : string) (default : pyval) : res pyval :=
  match c with
  | PDict d => Val (match dict_lookup key d with
                    | Some x => x
                    | None => default
                    end)
  | _ => Exc AttributeError
  end.

(** [len(c)]. *)
Definition py_len (c : pyval) : res Z :=
  match c with
  | PList l => Val (Z.of_nat (List.length l))
  | PDict d => Val (Z.of_nat (List.length d))
  | PStr s => Val (Z.of_nat (String.length s))
  | _ => Exc TypeError
  end.

(** [c[:n]]: sequences slice; a scalar does not, and neither does a dict
    (which raises [TypeError] up to Python 3.11 and [KeyError] since). *)
Definition py_slice (n : nat) (c : pyval) : res pyval :=
  match c with
  | PList l => Val (PList (firstn n l))
  | PStr s => Val (PStr (str_prefix n s))
  | _ => Exc TypeError
  end.

(** The items a [for] loop draws from [c]. *)
Definition py_iter (c : pyval) : res (list pyval) :=
  match c with
  | PList l => Val l
  | PStr s => Val (map (fun ch => PStr (chr ch)) (list_ascii_of_string s))
  | PDict d => Val (map (fun '(k, _) => PStr k) d)
  | _ => Exc TypeError
  end.

(** ** The [json] module

    [json.dumps] and [json.loads] belong to Python's library, not to the
    script.  The client is written against the interface [json.codec]:
    the two functions and three facts about them the client relies on.
    [reference_codec], further down, implements the interface for the
    values of the model with [json.reference_dumps] and
    [json.reference_loads], so that every program below runs. *)

Module json.

Class codec : Type := {
  (* [json.dumps(obj, indent=indent)] *)
  dumps : option nat -> pyval -> res string;
  (* [json.loads(s)] *)
  loads : string -> res pyval;
  (* a decoded document holds dicts, lists, strings, numbers, booleans and
     [None], nothing else *)
  loads_plain : forall s v, loads s = Val v -> plain v = true;
  (* such values always encode *)
  dumps_plain : forall indent v, plain v = true -> exists t, dumps indent v = Val t;
  (* without [indent] the encoder emits no line break *)
  dumps_one_line : forall v t, dumps None v = Val t -> newline_free t = true
}.

(** *** Reference encoder: the default [ensure_ascii] output *)

Definition json_char (c : ascii) : string :=
  let n := nat_of_ascii c in
  if Ascii.eqb c dquote then String backslash (chr dquote)
  else if Ascii.eqb c backslash then String backslash (chr backslash)
  else if Ascii.eqb c newline then String backslash "n"
  else if Ascii.eqb c "013" then String backslash "r"
  else if Ascii.eqb c "009" then String backslash "t"
  else if Ascii.eqb c "012" then String backslash "f"
  else if Ascii.eqb c "008" then String backslash "b"
  else if Nat.leb 32 n && Nat.leb n 126 then chr c
  else String backslash ("u00" ++ hex2 c).

Definition json_string (s : string) : string :=
  chr dquote ++ String.concat "" (map json_char (list_ascii_of_string s))
    ++ chr dquote.

(** Line break and indentation in front of an item at nesting [level]. *)
Definition break (indent : option nat) (level : nat) : string :=
  match indent with
  | None => ""
  | Some n => String newline (repeat_string " " (n * level))
  end.

Definition item_separator (indent : option nat) (level : nat) : string :=
  match indent with
  | None => ", "
  | Some _ => "," ++ break indent level
  end.

Fixpoint render (indent : option nat) (level : nat) (v : pyval) : string :=
  match v with
  | PNone => "null"
  | PBool true => "true"
  | PBool false => "false"
  | PInt z => decimal z
  | PStr s => json_string s
  | PList [] => "[]"
  | PList l =>
      "[" ++ break indent (S level)
        ++ String.concat (item_separator indent (S level))
             (map (render indent (S level)) l)
        ++ break indent level ++ "]"
  | PDict [] => "{}"
  | PDict d =>
      "{" ++ break indent (S level)
        ++ String.concat (item_separator indent (S level))
             (map (fun '(k, x) =>
                     json_string k ++ ": " ++ render indent (S level) x) d)
        ++ break indent level ++ "}"
  | PObj _ _ => ""
  end.

(** A foreign object anywhere in [v] makes the encoder raise [TypeError]
    before any text is returned. *)
Definition reference_dumps (indent : option nat) (v : pyval) : res string :=
  if plain v then Val (render indent 0 v) else Exc TypeError.

(** *** Reference decoder

    A recursive-descent reader for the documents the examples exchange:
    objects, arrays, strings with their escapes, integers, [true], [false]
    and [null].  A number with a fraction or an exponent, the constants
    [NaN] and [Infinity], and an escape [\uXXXX] above 00ff are outside the
    values of the model and are refused. *)

Definition is_ws (c : ascii) : bool :=
  Ascii.eqb c " " || Ascii.eqb c "009" || Ascii.eqb c newline
  || Ascii.eqb c "013".

Fixpoint skip_ws (s : list ascii) : list ascii :=
  match s with
  | c :: r => if is_ws c then skip_ws r else s
  | [] => []
  end.

(** [strip lit s]: what follows [lit] at the head of [s]. *)
Fixpoint strip (lit s : list ascii) : option (list ascii) :=
  match lit, s with
  | [], _ => Some s
  | a :: lit', b :: s' => if Ascii.eqb a b then strip lit' s' else None
  | _ :: _, [] => None
  end.

Definition is_digit (c : ascii) : bool :=
  let n := nat_of_ascii c in Nat.leb 48 n && Nat.leb n 57.

Fixpoint digits (acc : Z) (s : list ascii) : Z * list ascii :=
  match s with
  | c :: r =>
      if is_digit c
      then digits (10 * acc + Z.of_nat (nat_of_ascii c - 48)) r
      else (acc, s)
  | [] => (acc, [])
  end.

Definition starts_fraction (r : list ascii) : bool :=
  match r with
  | c :: _ => Ascii.eqb c "." || Ascii.eqb c "e" || Ascii.eqb c "E"
  | [] => false
  end.

Definition parse_int (s : list ascii) : option (Z * list ascii) :=
  let '(negative, s1) :=
    match s with
    | c :: r => if Ascii.eqb c "-" then (true, r) else (false, s)
    | [] => (false, s)
    end in
  match s1 with
  | c :: r =>
      let '(n, rest) :=
        if Ascii.eqb c "0" then (0%Z, r) else digits 0 s1 in
      if is_digit c && negb (starts_fraction rest)
      then Some (if negative then Z.opp n else n, rest)
      else None
  | [] => None
  end.

Definition hex_value (c : ascii) : option nat :=
  let n := nat_of_ascii c in
  if Nat.leb 48 n && Nat.leb n 57 then Some (n - 48)
  else if Nat.leb 97 n && Nat.leb n 102 then Some (n - 87)
  else if Nat.leb 65 n && Nat.leb n 70 then Some (n - 55)
  else None.

Definition hex4 (a b c d : ascii) : option ascii :=
  match hex_value a, hex_value b, hex_value c, hex_value d with
  | Some x, Some y, Some z, Some w =>
      let n := ((x * 16 + y) * 16 + z) * 16 + w in
      if Nat.ltb n 256 then Some (ascii_of_nat n) else None
  | _, _, _, _ => None
  end.

Definition simple_escape (e : ascii) : option ascii :=
  if Ascii.eqb e dquote then Some dquote
  else if Ascii.eqb e backslash then Some backslash
  else if Ascii.eqb e "/" then Some "/"%char
  else if Ascii.eqb e "b" then Some "008"%char
  else if Ascii.eqb e "f" then Some "012"%char
  else if Ascii.eqb e "n" then Some newline
  else if Ascii.eqb e "r" then Some "013"%char
  else if Ascii.eqb e "t" then Some "009"%char
  else None.

Definition push (c : ascii) (p : option (string * list ascii))
  : option (string * list ascii) :=
  match p with
  | Some (s, r) => Some (String c s, r)
  | None => None
  end.

(** The characters of a string, read after its opening quote. *)
Fixpoint parse_chars (s : list ascii) : option (string * list ascii) :=
  match s with
  | [] => None
  | c :: r =>
      if Ascii.eqb c dquote then Some ("", r)
      else if Ascii.eqb c backslash then
        match r with
        | e :: r1 =>
            if Ascii.eqb e "u" then
              match r1 with
              | a :: b :: c' :: d :: r2 =>
                  match hex4 a b c' d with
                  | Some ch => push ch (parse_chars r2)
                  | None => None
                  end
              | _ => None
              end
            else
              match simple_escape e with
              | Some ch => push ch (parse_chars r1)
              | None => None
              end
        | [] => None
        end
      else if Nat.ltb (nat_of_ascii c) 32 then None
      else push c (parse_chars r)
  end.

Definition literal (name : string) (v : pyval) (s : list ascii)
  : option (pyval * list ascii) :=
  match strip (list_ascii_of_string name) s with
  | Some r => Some (v, r)
  | None => None
  end.

(** A repeated key keeps its first position and its last value. *)
Definition dict_of_pairs (m : list (string * pyval)) : list (string * pyval) :=
  fold_left (fun d '(k, x) => dict_set k x d) m [].

Fixpoint parse_value (fuel : nat) (s : list ascii)
  : option (pyval * list ascii) :=
  match fuel with
  | O => None
  | S fuel' =>
      match skip_ws s with
      | [] => None
      | c :: r =>
          if Ascii.eqb c dquote then
            match parse_chars r with
            | Some (str, r') => Some (PStr str, r')
            | None => None
            end
          else if Ascii.eqb c "[" then
            match skip_ws r with
            | c' :: r' =>
                if Ascii.eqb c' "]" then Some (PList [], r')
                else match parse_elements fuel' r with
                     | Some (l, r'') => Some (PList l, r'')
                     | None => None
                     end
            | [] => None
            end
          else if Ascii.eqb c "{" then
            match skip_ws r with
            | c' :: r' =>
                if Ascii.eqb c' "}" then Some (PDict [], r')
                else match parse_members fuel' r with
                     | Some (m, r'') => Some (PDict (dict_of_pairs m), r'')
                     | None => None
                     end
            | [] => None
            end
          else if Ascii.eqb c "n" then literal "null" PNone (c :: r)
          else if Ascii.eqb c "t" then literal "true" (PBool true) (c :: r)
          else if Ascii.eqb c "f" then literal "false" (PBool false) (c :: r)
          else match parse_int (c :: r) with
               | Some (z, r') => Some (PInt z, r')
               | None => None
               end
      end
  end
with parse_elements (fuel : nat) (s : list ascii)
  : option (list pyval * list ascii) :=
  match fuel with
  | O => None
  | S fuel' =>
      match parse_value fuel' s with
      | Some (v, r) =>
          match skip_ws r with
          | c :: r' =>
              if Ascii.eqb c "," then
                match parse_elements fuel' r' with
                | Some (vs, r'') => Some (v :: vs, r'')
                | None => None
                end
              else if Ascii.eqb c "]" then Some ([v], r')
              else None
          | [] => None
          end
      | None => None
      end
  end
with parse_members (fuel : nat) (s : list ascii)
  : option (list (string * pyval) * list ascii) :=
  match fuel with
  | O => None
  | S fuel' =>
      match skip_ws s with
      | q :: r0 =>
          if Ascii.eqb q dquote then
            match parse_chars r0 with
            | Some (k, r1) =>
                match skip_ws r1 with
                | c :: r2 =>
                    if Ascii.eqb c ":" then
                      match parse_value fuel' r2 with
                      | Some (v, r3) =>
                          match skip_ws r3 with
                          | c' :: r4 =>
                              if Ascii.eqb c' "," then
                                match parse_members fuel' r4 with
                                | Some (m, r5) => Some ((k, v) :: m, r5)
                                | None => None
                                end
                              else if Ascii.eqb c' "}" then Some ([(k, v)], r4)
                              else None
                          | [] => None
                          end
                      | None => None
                      end
                    else None
                | [] => None
                end
            | None => None
            end
          else None
      | [] => None
      end
  end.

Definition reference_loads (s : string) : res pyval :=
  let cs := list_ascii_of_string s in
  match parse_value (2 * List.length cs + 2) cs with
  | Some (v, r) =>
      match skip_ws r with
      | [] => Val v
      | _ :: _ => Exc JSONDecodeError
      end
  | None => Exc JSONDecodeError
  end.

End json.

(** Sequencing of library calls: the first exception wins. *)
Definition and_then {A B : Type} (r : res A) (k : A -> res B) : res B :=
  match r with
  | Val a => k a
  | Exc e => Exc e
  end.

(** The f-string
    [f"   - {tool.get('name')}: {tool.get('description', '')[:60]}..."],
    fields evaluated left to right. *)
Definition tool_line (tool : pyval) : res string :=
  and_then (py_get tool "name" PNone) (fun name =>
  and_then (py_get tool "description" (PStr "")) (fun description =>
  and_then (py_slice 60 description) (fun summary =>
  Val ("   - " ++ py_str name ++ ": " ++ py_str summary ++ "...")))).

(** ** Effects

    Everything the client does to the outside world, in program order:
    assignments to [self.request_id], console output, and the operations on
    the child's pipes.  A read records what it returned. *)

Inductive read_reply : Type :=
| Got (line : string)   (* a line, or the empty string at end of stream *)
| Blocked               (* the child never answers: the read never returns *)
| Broken (e : exn).     (* the read itself raises *)

Inductive event : Type :=
| ESpawn (argv : list string)
| ESleep (seconds : Z)
| ESetId (n : Z)
| EPrint (text : string)
| EInput
| EWrite (data : string)
| EFlush
| EReadline (reply : read_reply)
| ETerminate.

Definition on_pipe (e : event) : bool :=
  match e with
  | EWrite _ | EFlush | EReadline _ | ETerminate => true
  | _ => false
  end.

(** The part of a trace the child can observe. *)
Definition pipe (tr : list event) : list event := filter on_pipe tr.

(** The documents written to the child's input, oldest first. *)
Fixpoint writes (tr : list event) : list string :=
  match tr with
  | [] => []
  | EWrite data :: tr' => data :: writes tr'
  | _ :: tr' => writes tr'
  end.

(** What the reads returned, oldest first. *)
Fixpoint reads (tr : list event) : list read_reply :=
  match tr with
  | [] => []
  | EReadline r :: tr' => r :: reads tr'
  | _ :: tr' => reads tr'
  end.

(** The console, one entry per [print]. *)
Fixpoint console (tr : list event) : list string :=
  match tr with
  | [] => []
  | EPrint text :: tr' => text :: console tr'
  | _ :: tr' => console tr'
  end.

(** The child process, seen from the client: how it answers each operation
    on its pipes, given what happened on them so far. *)
Record Popen : Type := {
  write_reply : list event -> string -> option exn;
  flush_reply : list event -> option exn;
  readline_reply : list event -> read_reply
}.

(** ** The client object *)

Record MCPTestClient : Type := {
  process : Popen;
  request_id : Z;
  trace : list event
}.

Definition log (e : event) (self : MCPTestClient) : MCPTestClient :=
  {| process := process self;
     request_id := request_id self;
     trace := (trace self ++ [e])%list |}.

(** ** Programs: state, exceptions and blocking *)

Inductive outcome (A : Type) : Type :=
| Ret (a : A)
| Raise (e : exn)
| Hang.
Arguments Ret {A} a.
Arguments Raise {A} e.
Arguments Hang {A}.

Definition M (A : Type) : Type := MCPTestClient -> outcome A * MCPTestClient.

Definition ret {A : Type} (a : A) : M A := fun self => (Ret a, self).

Definition bind {A B : Type} (c : M A) (k : A -> M B) : M B :=
  fun self =>
    match c self with
    | (Ret a, self') => k a self'
    | (Raise e, self') => (Raise e, self')
    | (Hang, self') => (Hang, self')
    end.

Declare Scope py_scope.
Delimit Scope py_scope with py.
Notation "x <- c ;; k" := (bind c (fun x => k))
  (at level 61, c at next level, right associativity) : py_scope.
Notation "c ;; k" := (bind c (fun _ => k))
  (at level 61, right associativity) : py_scope.
Local Open Scope py_scope.

(** A library call: its exception, if any, propagates. *)
Definition lift {A : Type} (r : res A) : M A :=
  fun self =>
    match r with
    | Val a => (Ret a, self)
    | Exc e => (Raise e, self)
    end.

Definition print (text : string) : M unit :=
  fun self => (Ret tt, log (EPrint text) self).

Definition get_request_id : M Z :=
  fun self => (Ret (request_id self), self).

Definition set_request_id (n : Z) : M unit :=
  fun self =>
    (Ret tt, {| process := process self;
                request_id := n;
                trace := (trace self ++ [ESetId n])%list |}).

(** [self.process.stdin.write(data)] *)
Definition process_stdin_write (data : string) : M unit :=
  fun self =>
    match write_reply (process self) (pipe (trace self)) data with
    | None => (Ret tt, log (EWrite data) self)
    | Some e => (Raise e, log (EWrite data) self)
    end.

(** [self.process.stdin.flush()] *)
Definition process_stdin_flush : M unit :=
  fun self =>
    match flush_reply (process self) (pipe (trace self)) with
    | None => (Ret tt, log EFlush self)
    | Some e => (Raise e, log EFlush self)
    end.

(** [self.process.stdout.readline()] *)
Definition process_stdout_readline : M string :=
  fun self =>
    let reply := readline_reply (process self) (pipe (trace self)) in
    match reply with
    | Got line => (Ret line, log (EReadline reply) self)
    | Blocked => (Hang, log (EReadline reply) self)
    | Broken e => (Raise e, log (EReadline reply) self)
    end.

(** [self.process.terminate()] *)
Definition process_terminate : M unit :=
  fun self => (Ret tt, log ETerminate self).

(** [for x in items: body(x)] *)
Fixpoint for_each {A : Type} (items : list A) (body : A -> M unit) : M unit :=
  match items with
  | [] => ret tt
  | x :: items' => body x ;; for_each items' body
  end.

(** [try: body finally: handler] *)
Definition try_finally {A : Type} (body : M A) (handler : M unit) : M A :=
  fun self =>
    match body self with
    | (Hang, self') => (Hang, self')
    | (o, self') =>
        match handler self' with
        | (Ret _, self'') => (o, self'')
        | (Raise e, self'') => (Raise e, self'')
        | (Hang, self'') => (Hang, self'')
        end
    end.

(** ** The methods of [MCPTestClient] *)

Definition rocket : string := utf8 [240; 159; 154; 128].
Definition outbox : string := utf8 [240; 159; 147; 164].
Definition inbox : string := utf8 [240; 159; 147; 165].
Definition check_mark : string := utf8 [226; 156; 133].
Definition warning_sign : string := utf8 [226; 154; 160; 239; 184; 143].
Definition keycap (digit : string) : string :=
  digit ++ utf8 [239; 184; 143; 226; 131; 163].

(** [__init__]: the object a successful start leaves behind. *)
Definition __init__ (child : Popen) : MCPTestClient :=
  {| process := child;
     request_id := 1;
     trace := [EPrint (rocket ++ " Starting UI-Probe MCP Server...");
               ESpawn ["npx"; "mcp-ui-probe@latest"; "start"];
               ESleep 3;
               ESetId 1] |}.

(** The dict bound to [request] in [send_request]. *)
Definition request (method : string) (params : pyval) (id : Z) : pyval :=
  PDict [("jsonrpc", PStr "2.0");
         ("method", PStr method);
         ("params", py_or params empty_dict);
         ("id", PInt id)].

(** The argument [params] when the caller leaves it out. *)
Definition params_default : pyval := PNone.

Section Methods.
Context {J : json.codec}.

Definition send_request (method : string) (params : pyval) : M pyval :=
  id <- get_request_id ;;
  let request := request method params id in
  set_request_id (id + 1) ;;
  print (chr newline ++ outbox ++ " Sending: " ++ method) ;;
  shown <- lift (json.dumps (Some 2) params) ;;
  print ("   Params: " ++ shown) ;;
  document <- lift (json.dumps None request) ;;
  let request_str := document ++ chr newline in
  process_stdin_write request_str ;;
  process_stdin_flush ;;
  response_line <- process_stdout_readline ;;
  if nonempty response_line then
    response <- lift (json.loads response_line) ;;
    shown <- lift (json.dumps (Some 2) response) ;;
    print (inbox ++ " Response: " ++ str_prefix 500 shown ++ "...") ;;
    ret response
  else ret empty_dict.

Definition call_tool (tool_name : string) (arguments : pyval) : M pyval :=
  send_request "tools/call"
    (PDict [("name", PStr tool_name); ("arguments", arguments)]).

(** The body of [for tool in tools[:5]]: the line is formatted, then
    printed. *)
Definition show_tool (tool : pyval) : M unit :=
  line <- lift (tool_line tool) ;;
  print line.

Definition run_tests : M unit :=
  print (chr newline ++ repeat_string "=" 50) ;;
  print "UI-PROBE MCP PROTOCOL TEST SUITE" ;;
  print (repeat_string "=" 50) ;;
  (* Test 1: Initialize *)
  print (chr newline ++ keycap "1" ++ "  INITIALIZE CONNECTION") ;;
  send_request "initialize"
    (PDict [("protocolVersion", PStr "0.1.0"); ("capabilities", PDict [])]) ;;
  (* Test 2: List tools *)
  print (chr newline ++ keycap "2" ++ "  LIST AVAILABLE TOOLS") ;;
  response <- send_request "tools/list" (PDict []) ;;
  has_result <- lift (py_in "result" response) ;;
  (if has_result : bool then
     result <- lift (py_getitem response "result") ;;
     tools <- lift (py_get result "tools" (PList [])) ;;
     count <- lift (py_len tools) ;;
     print ("   Found " ++ py_str (PInt count) ++ " tools:") ;;
     first_five <- lift (py_slice 5 tools) ;;
     items <- lift (py_iter first_five) ;;
     for_each items show_tool
   else ret tt) ;;
  (* Test 3: Navigate to test page *)
  print (chr newline ++ keycap "3" ++ "  NAVIGATE TO TEST PAGE") ;;
  call_tool "navigate" (PDict [("url", PStr "http://localhost:8081/test")]) ;;
  (* Test 4: Analyze UI *)
  print (chr newline ++ keycap "4" ++ "  ANALYZE PAGE UI") ;;
  call_tool "analyze_ui" (PDict []) ;;
  (* Test 5: Verify page *)
  print (chr newline ++ keycap "5" ++ "  VERIFY PAGE CONTENT") ;;
  call_tool "verify_page"
    (PDict [("expectedContent", PList [PStr "Test"; PStr "Form"]);
            ("unexpectedContent", PList [PStr "404"; PStr "Error"])]) ;;
  (* Test 6: Click button *)
  print (chr newline ++ keycap "6" ++ "  CLICK BUTTON TEST") ;;
  call_tool "click_button" (PDict [("text", PStr "Submit")]) ;;
  (* Test 7: Run a flow *)
  print (chr newline ++ keycap "7" ++ "  RUN NATURAL LANGUAGE FLOW") ;;
  call_tool "run_flow"
    (PDict [("goal", PStr "Fill out the test form with sample data");
            ("url", PStr "http://localhost:8081/test/forms")]) ;;
  print (chr newline ++ check_mark ++ " All tests completed!").

Definition cleanup : M unit :=
  print (chr newline ++ "Stopping server...") ;;
  process_terminate.

(** The script's entry point, once the child has started. *)
Definition main (child : Popen) : outcome unit * MCPTestClient :=
  let banner :=
    [EPrint (warning_sign ++ "  Make sure you have the test server running:");
     EPrint "   npx mcp-ui-probe@latest test-server";
     EPrint (chr newline ++ "Press Enter to continue...");
     EInput] in
  let client := __init__ child in
  try_finally run_tests cleanup
    {| process := process client;
       request_id := request_id client;
       trace := (banner ++ trace client)%list |}.

End Methods.

(** ** Callers and children used to exercise the client *)

Section Callers.
Context {J : json.codec}.

(** What [send_request] puts on the wire for a request, when it encodes. *)
Definition wire (r : pyval) : option string :=
  match json.dumps None r with
  | Val document => Some (document ++ chr newline)
  | Exc _ => None
  end.

(** A caller that issues the calls in turn and survives their exceptions
    ([try: client.send_request(m, p) except Exception: pass]); a call that
    blocks ends the session. *)
Fixpoint session (calls : list (string * pyval)) : M unit :=
  match calls with
  | [] => ret tt
  | (method, params) :: rest =>
      fun self =>
        match send_request method params self with
        | (Hang, self') => (Hang, self')
        | (_, self') => session rest self'
        end
  end.

End Callers.

(** A child that accepts every write and whose output is already at end of
    stream. *)
Definition closed_child : Popen :=
  {| write_reply := fun _ _ => None;
     flush_reply := fun _ => None;
     readline_reply := fun _ => Got "" |}.

(** A child that answers the k-th read with the k-th line of [lines], and
    with end of stream afterwards. *)
Definition scripted_child (lines : list string) : Popen :=
  {| write_reply := fun _ _ => None;
     flush_reply := fun _ => None;
     readline_reply := fun h =>
       nth (List.length (reads h)) (map Got lines) (Got "") |}.

(** A child whose input pipe is broken. *)
Definition deaf_child : Popen :=
  {| write_reply := fun _ _ => Some (OSError 32);
     flush_reply := fun _ => None;
     readline_reply := fun _ => Got "" |}.

(** A child that reads requests and never answers. *)
Definition mute_child : Popen :=
  {| write_reply := fun _ _ => None;
     flush_reply := fun _ => None;
     readline_reply := fun _ => Blocked |}.

(** JSON text is written with a backquote for each double quote. *)
Definition json_text (s : string) : string :=
  string_of_list_ascii
    (map (fun c => if Ascii.eqb c "`" then dquote else c)
       (list_ascii_of_string s)).

Definition echo_line : string :=
  json_text "{`jsonrpc`:`2.0`,`id`:1,`result`:{`tools`:[{`name`:`navigate`,`description`:`Navigate to a URL`}]}}"
  ++ chr newline.

Definition ack_line : string :=
  json_text "{`jsonrpc`:`2.0`,`id`:1,`result`:{}}" ++ chr newline.

Fixpoint last_write (h : list event) : option string :=
  match h with
  | [] => None
  | EWrite data :: h' =>
      match last_write h' with
      | Some later => Some later
      | None => Some data
      end
  | _ :: h' => last_write h'
  end.

(** A server that answers a [tools/list] call with [echo_line] and any
    other call with [ack_line]. *)
Definition echo_server : Popen :=
  {| write_reply := fun _ _ => None;
     flush_reply := fun _ => None;
     readline_reply := fun h =>
       match last_write h with
       | Some data =>
           match json.reference_loads data with
           | Val r =>
               match py_get r "method" PNone with
               | Val (PStr "tools/list") => Got echo_line
               | _ => Got ack_line
               end
           | Exc _ => Got ""
           end
       | None => Got ""
       end |}.

(** ** The paths through [send_request]

    [exchange child h id method params evs o]: a call made when the pipes
    have seen [h] and the counter holds [id] performs the effects [evs] and
    ends in [o].  One constructor per way through the method body. *)

Definition ev_sending (method : string) : event :=
  EPrint (chr newline ++ outbox ++ " Sending: " ++ method).

Definition ev_params (shown : string) : event :=
  EPrint ("   Params: " ++ shown).

Definition ev_response (shown : string) : event :=
  EPrint (inbox ++ " Response: " ++ str_prefix 500 shown ++ "...").

Definition end_of_stream : event := EReadline (Got "").

(** How the call ends once the read has returned [reply].  A decoded
    response always encodes again ([json.loads_plain], [json.dumps_plain]),
    so the diagnostic dump of the response has no failing path. *)
Inductive answer {J : json.codec} : read_reply -> list event -> outcome pyval -> Prop :=
| answer_blocked : answer Blocked [] Hang
| answer_broken e : answer (Broken e) [] (Raise e)
| answer_end_of_stream : answer (Got "") [] (Ret empty_dict)
| answer_not_json line e :
    nonempty line = true ->
    json.loads line = Exc e ->
    answer (Got line) [] (Raise e)
| answer_response line response shown :
    nonempty line = true ->
    json.loads line = Val response ->
    json.dumps (Some 2) response = Val shown ->
    answer (Got line) [ev_response shown] (Ret response).

Inductive exchange {J : json.codec} (child : Popen) (h : list event) (id : Z)
  (method : string) (params : pyval) : list event -> outcome pyval -> Prop :=
| exchange_params_rejected e :
    json.dumps (Some 2) params = Exc e ->
    exchange child h id method params
      [ESetId (id + 1); ev_sending method] (Raise e)
| exchange_request_rejected shown e :
    json.dumps (Some 2) params = Val shown ->
    json.dumps None (request method params id) = Exc e ->
    exchange child h id method params
      [ESetId (id + 1); ev_sending method; ev_params shown] (Raise e)
| exchange_write_failed shown document e :
    json.dumps (Some 2) params = Val shown ->
    json.dumps None (request method params id) = Val document ->
    write_reply child h (document ++ chr newline) = Some e ->
    exchange child h id method params
      [ESetId (id + 1); ev_sending method; ev_params shown;
       EWrite (document ++ chr newline)] (Raise e)
| exchange_flush_failed shown document e :
    json.dumps (Some 2) params = Val shown ->
    json.dumps None (request method params id) = Val document ->
    write_reply child h (document ++ chr newline) = None ->
    flush_reply child (h ++ [EWrite (document ++ chr newline)])%list = Some e ->
    exchange child h id method params
      [ESetId (id + 1); ev_sending method; ev_params shown;
       EWrite (document ++ chr newline); EFlush] (Raise e)
| exchange_read reply shown document :
    json.dumps (Some 2) params = Val shown ->
    json.dumps None (request method params id) = Val document ->
    write_reply child h (document ++ chr newline) = None ->
    flush_reply child (h ++ [EWrite (document ++ chr newline)])%list = None ->
    readline_reply child
      (h ++ [EWrite (document ++ chr newline); EFlush])%list = reply ->
    forall tail o,
    answer reply tail o ->
    exchange child h id method params
      ([ESetId (id + 1); ev_sending method; ev_params shown;
        EWrite (document ++ chr newline); EFlush; EReadline reply] ++ tail)%list
      o.

(** The client after a call that performed [evs]. *)
Definition after_call (self : MCPTestClient) (evs : list event)
  : MCPTestClient :=
  {| process := process self;
     request_id := request_id self + 1;
     trace := (trace self ++ evs)%list |}.

(** What a program does and how it ends, from a given client state. *)
Definition events_by {A : Type} (c : M A) (self : MCPTestClient)
  : list event :=
  skipn (List.length (trace self)) (trace (snd (c self))).

Definition outcome_of {A : Type} (c : M A) (self : MCPTestClient)
  : outcome A :=
  fst (c self).

Definition is_set_id (e : event) : bool :=
  match e with
  | ESetId _ => true
  | _ => false
  end.

(** ** [run_tests] as a list of steps

    Each of the seven tests prints a banner, sends one request and looks at
    the response (only the second test looks).  [run_steps] runs such a
    list; [run_tests_as_steps] below shows that [run_tests] is
    [header ;; run_steps test_steps footer]. *)

Record step : Type := {
  banner : string;
  step_method : string;
  step_params : pyval;
  inspect : pyval -> M unit
}.

Definition tool_call (tool_name : string) (arguments : pyval) : pyval :=
  PDict [("name", PStr tool_name); ("arguments", arguments)].

Section Steps.
Context {J : json.codec}.

Fixpoint run_steps (steps : list step) (finish : M unit) : M unit :=
  match steps with
  | [] => finish
  | st :: rest =>
      print (banner st) ;;
      response <- send_request (step_method st) (step_params st) ;;
      inspect st response ;;
      run_steps rest finish
  end.

(** What [run_tests] does with the response of [tools/list]. *)
Definition list_tools (response : pyval) : M unit :=
  has_result <- lift (py_in "result" response) ;;
  if has_result : bool then
    result <- lift (py_getitem response "result") ;;
    tools <- lift (py_get result "tools" (PList [])) ;;
    count <- lift (py_len tools) ;;
    print ("   Found " ++ py_str (PInt count) ++ " tools:") ;;
    first_five <- lift (py_slice 5 tools) ;;
    items <- lift (py_iter first_five) ;;
    for_each items show_tool
  else ret tt.

Definition ignore (response : pyval) : M unit := ret tt.

Definition test_steps : list step :=
  [ {| banner := chr newline ++ keycap "1" ++ "  INITIALIZE CONNECTION";
       step_method := "initialize";
       step_params := PDict [("protocolVersion", PStr "0.1.0");
                             ("capabilities", PDict [])];
       inspect := ignore |};
    {| banner := chr newline ++ keycap "2" ++ "  LIST AVAILABLE TOOLS";
       step_method := "tools/list";
       step_params := PDict [];
       inspect := list_tools |};
    {| banner := chr newline ++ keycap "3" ++ "  NAVIGATE TO TEST PAGE";
       step_method := "tools/call";
       step_params :=
         tool_call "navigate"
           (PDict [("url", PStr "http://localhost:8081/test")]);
       inspect := ignore |};
    {| banner := chr newline ++ keycap "4" ++ "  ANALYZE PAGE UI";
       step_method := "tools/call";
       step_params := tool_call "analyze_ui" (PDict []);
       inspect := ignore |};
    {| banner := chr newline ++ keycap "5" ++ "  VERIFY PAGE CONTENT";
       step_method := "tools/call";
       step_params :=
         tool_call "verify_page"
           (PDict [("expectedContent", PList [PStr "Test"; PStr "Form"]);
                   ("unexpectedContent", PList [PStr "404"; PStr "Error"])]);
       inspect := ignore |};
    {| banner := chr newline ++ keycap "6" ++ "  CLICK BUTTON TEST";
       step_method := "tools/call";
       step_params := tool_call "click_button" (PDict [("text", PStr "Submit")]);
       inspect := ignore |};
    {| banner := chr newline ++ keycap "7" ++ "  RUN NATURAL LANGUAGE FLOW";
       step_method := "tools/call";
       step_params :=
         tool_call "run_flow"
           (PDict [("goal", PStr "Fill out the test form with sample data");
                   ("url", PStr "http://localhost:8081/test/forms")]);
       inspect := ignore |} ].

Definition header : M unit :=
  print (chr newline ++ repeat_string "=" 50) ;;
  print "UI-PROBE MCP PROTOCOL TEST SUITE" ;;
  print (repeat_string "=" 50).

Definition footer : M unit :=
  print (chr newline ++ check_mark ++ " All tests completed!").

End Steps.

(** The requests a list of steps sends, numbered from [id]. *)
Fixpoint step_requests (steps : list step) (id : Z) : list pyval :=
  match steps with
  | [] => []
  | st :: rest =>
      request (step_method st) (step_params st) id
        :: step_requests rest (id + 1)
  end.

(** The seven requests of [run_tests], numbered from [id]. *)
Definition test_requests (id : Z) : list pyval :=
  [ request "initialize"
      (PDict [("protocolVersion", PStr "0.1.0"); ("capabilities", PDict [])])
      id;
    request "tools/list" (PDict []) (id + 1);
    request "tools/call"
      (tool_call "navigate"
         (PDict [("url", PStr "http://localhost:8081/test")]))
      (id + 2);
    request "tools/call" (tool_call "analyze_ui" (PDict [])) (id + 3);
    request "tools/call"
      (tool_call "verify_page"
         (PDict [("expectedContent", PList [PStr "Test"; PStr "Form"]);
                 ("unexpectedContent", PList [PStr "404"; PStr "Error"])]))
      (id + 4);
    request "tools/call"
      (tool_call "click_button" (PDict [("text", PStr "Submit")]))
      (id + 5);
    request "tools/call"
      (tool_call "run_flow"
         (PDict [("goal", PStr "Fill out the test form with sample data");
                 ("url", PStr "http://localhost:8081/test/forms")]))
      (id + 6) ].

(** The requests a list of calls builds, numbered from [id]. *)
Fixpoint call_requests (calls : list (string * pyval)) (id : Z) : list pyval :=
  match calls with
  | [] => []
  | (method, params) :: rest =>
      request method params id :: call_requests rest (id + 1)
  end.

(** The client after printing [texts]. *)
Definition with_prints (self : MCPTestClient) (texts : list string)
  : MCPTestClient :=
  {| process := process self;
     request_id := request_id self;
     trace := (trace self ++ map EPrint texts)%list |}.

(** A program that only prints, and ends by returning or raising. *)
Definition console_only {A : Type} (c : M A) : Prop :=
  forall self, exists texts,
    snd (c self) = with_prints self texts /\ outcome_of c self <> Hang.

(** A read that met the end of the stream. *)
Definition is_eof (e : event) : bool :=
  match e with
  | EReadline (Got line) => negb (nonempty line)
  | _ => false
  end.

(** The steps whose inspection only prints. *)
Definition quiet (steps : list step) : Prop :=
  Forall (fun st => forall response, console_only (inspect st response)) steps.

(** The steps that take the empty mapping in silence: their inspection
    of it prints nothing and returns. *)
Definition accepting (steps : list step) : Prop :=
  Forall (fun st => forall self,
            inspect st empty_dict self = (Ret tt, self)) steps.

(** A tool entry the listing can show: a mapping whose description, when
    it has one, is a string. *)
Definition listable (tool : pyval) : bool :=
  match tool with
  | PDict d =>
      match dict_lookup "description" d with
      | None | Some (PStr _) => true
      | Some _ => false
      end
  | _ => false
  end.

(** The line shown for a listable entry: its name (or [None]) and the
    first sixty characters of its description. *)
Definition listing (tool : pyval) : string :=
  match tool with
  | PDict d =>
      let name := match dict_lookup "name" d with
                  | Some x => x
                  | None => PNone
                  end in
      let description := match dict_lookup "description" d with
                         | Some (PStr s) => s
                         | _ => ""
                         end in
      "   - " ++ py_str name ++ ": " ++ str_prefix 60 description ++ "..."
  | _ => ""
  end.

(** A program that only adds to the trace. *)
Definition extends {A : Type} (c : M A) : Prop :=
  forall self, exists evs, trace (snd (c self)) = (trace self ++ evs)%list.

(** A tools/list response whose only tool has a null description. *)
Definition null_description_line : string :=
  json_text "{`jsonrpc`:`2.0`,`id`:2,`result`:{`tools`:[{`name`:`navigate`,`description`:null}]}}"
  ++ chr newline.

(** The object [echo_line] decodes to. *)
Definition echo_fields : list (string * pyval) :=
  [("jsonrpc", PStr "2.0");
   ("id", PInt 1);
   ("result",
    PDict [("tools",
            PList [PDict [("name", PStr "navigate");
                          ("description", PStr "Navigate to a URL")]])])].

(** ** The run of a list of steps, as a relation

    [ran steps self evs o self']: run from [self], the steps followed by
    the closing line perform [evs], end in [o] and leave the client
    [self'].  A step that fails ends the run; [ran_next] is the only way
    on. *)

Definition footer_text : string :=
  chr newline ++ check_mark ++ " All tests completed!".

Definition header_texts : list string :=
  [chr newline ++ repeat_string "=" 50;
   "UI-PROBE MCP PROTOCOL TEST SUITE";
   repeat_string "=" 50].

Inductive ran {J : json.codec}
  : list step -> MCPTestClient -> list event -> outcome unit
    -> MCPTestClient -> Prop :=
| ran_footer self :
    ran [] self [EPrint footer_text] (Ret tt) (log (EPrint footer_text) self)
| ran_call_raised st rest self evs e :
    exchange (process self) (pipe (trace self)) (request_id self)
      (step_method st) (step_params st) evs (Raise e) ->
    ran (st :: rest) self (EPrint (banner st) :: evs) (Raise e)
      (after_call (log (EPrint (banner st)) self) evs)
| ran_call_blocked st rest self evs :
    exchange (process self) (pipe (trace self)) (request_id self)
      (step_method st) (step_params st) evs Hang ->
    ran (st :: rest) self (EPrint (banner st) :: evs) Hang
      (after_call (log (EPrint (banner st)) self) evs)
| ran_inspect_raised st rest self evs response texts e :
    exchange (process self) (pipe (trace self)) (request_id self)
      (step_method st) (step_params st) evs (Ret response) ->
    inspect st response (after_call (log (EPrint (banner st)) self) evs)
    = (Raise e,
       with_prints (after_call (log (EPrint (banner st)) self) evs) texts) ->
    ran (st :: rest) self
      (EPrint (banner st) :: evs ++ map EPrint texts)%list (Raise e)
      (with_prints (after_call (log (EPrint (banner st)) self) evs) texts)
| ran_next st rest self evs response texts evs' o self' :
    exchange (process self) (pipe (trace self)) (request_id self)
      (step_method st) (step_params st) evs (Ret response) ->
    inspect st response (after_call (log (EPrint (banner st)) self) evs)
    = (Ret tt,
       with_prints (after_call (log (EPrint (banner st)) self) evs) texts) ->
    ran rest
      (with_prints (after_call (log (EPrint (banner st)) self) evs) texts)
      evs' o self' ->
    ran (st :: rest) self
      (EPrint (banner st) :: evs ++ map EPrint texts ++ evs')%list o self'.

(** Request and response in lockstep: on the pipes a write, then a flush,
    then a read, and so on; [phase] is what is due next (0 a write, 1 a
    flush, 2 a read). *)
Fixpoint lockstep (phase : nat) (ops : list event) : bool :=
  match ops with
  | [] => true
  | op :: ops' =>
      match phase, op with
      | 0%nat, EWrite _ => lockstep 1 ops'
      | 1%nat, EFlush => lockstep 2 ops'
      | 2%nat, EReadline _ => lockstep 0 ops'
      | _, _ => false
      end
  end.

(** The flushes of a trace.  [send_request] flushes after a write that
    returned and at no other time, so these count the requests that were
    handed to the pipe; [writes] counts the attempts, failed ones
    included. *)
Definition is_flush (e : event) : bool :=
  match e with
  | EFlush => true
  | _ => false
  end.

Definition flushes (evs : list event) : list event := filter is_flush evs.

(** The client [main] hands to [run_tests]: the object [__init__] built,
    after the three lines and the keypress of the entry point. *)
Definition at_start (child : Popen) : MCPTestClient :=
  {| process := child;
     request_id := 1;
     trace :=
       ([EPrint (warning_sign
                 ++ "  Make sure you have the test server running:");
         EPrint "   npx mcp-ui-probe@latest test-server";
         EPrint (chr newline ++ "Press Enter to continue...");
         EInput] ++ trace (__init__ child))%list |}.

(** [None], a boolean or a number: a value that is no container. *)
Definition is_scalar (v : pyval) : bool :=
  match v with
  | PNone | PBool _ | PInt _ => true
  | _ => false
  end.

(** Steps whose parameters are JSON values. *)
Definition serialisable (steps : list step) : Prop :=
  Forall (fun st => plain (step_params st) = true) steps.

(** A value with a [get] method. *)
Definition is_mapping (v : pyval) : bool :=
  match v with
  | PDict _ => true
  | _ => false
  end.

(** Responses of a server used to exercise the listing. *)
Definition error_line : string :=
  json_text "{`jsonrpc`:`2.0`,`id`:2,`error`:{`code`:-32601,`message`:`Method not found`}}"
  ++ chr newline.

Definition error_fields : list (string * pyval) :=
  [("jsonrpc", PStr "2.0");
   ("id", PInt 2);
   ("error", PDict [("code", PInt (-32601));
                    ("message", PStr "Method not found")])].

Definition ack_fields : list (string * pyval) :=
  [("jsonrpc", PStr "2.0"); ("id", PInt 1); ("result", PDict [])].

Definition null_line : string := "null" ++ chr newline.

Definition list_result_line : string :=
  json_text "{`jsonrpc`:`2.0`,`id`:2,`result`:[]}" ++ chr newline.

Definition list_result_fields : list (string * pyval) :=
  [("jsonrpc", PStr "2.0"); ("id", PInt 2); ("result", PList [])].

(** The closing line, as an effect. *)
Definition is_footer (e : event) : bool :=
  match e with
  | EPrint text => String.eqb text footer_text
  | _ => false
  end.

(** Steps that cannot be mistaken for the end of the run: neither their
    banner nor anything their inspection prints is the closing line. *)
Definition discreet (steps : list step) : Prop :=
  Forall (fun st =>
            is_footer (EPrint (banner st)) = false
            /\ forall response self,
                 existsb is_footer (events_by (inspect st response) self)
                 = false) steps.

(** A printed line that begins with a space. *)
Definition indented (text : string) : Prop :=
  exists rest, text = String " " rest.

(** ** The reference codec satisfies the interface *)

Import json.
Lemma newline_free_app (a b : string) :
  newline_free (a ++ b) = newline_free a && newline_free b.
Proof.
  induction a as [|c a IH]; simpl; [reflexivity|].
  rewrite IH. now rewrite andb_assoc.
Qed.

Lemma newline_free_concat (sep : string) (l : list string) :
  newline_free sep = true ->
  Forall (fun s => newline_free s = true) l ->
  newline_free (String.concat sep l) = true.
Proof.
  intros Hsep Hl. induction Hl as [|s l Hs Hl IH]; [reflexivity|].
  simpl. destruct l as [|s' l']; [exact Hs|].
  rewrite !newline_free_app, Hs, Hsep. exact IH.
Qed.

Lemma newline_free_decimal (z : Z) : newline_free (decimal z) = true.
Proof.
  assert (U : forall d, newline_free (NilEmpty.string_of_uint d) = true)
    by (induction d; simpl; auto).
  assert (N : forall d, newline_free (NilZero.string_of_uint d) = true)
    by (destruct d; simpl; auto; apply U).
  unfold decimal. destruct (Z.to_int z); simpl; auto.
Qed.

Lemma newline_free_json_char (c : ascii) : newline_free (json_char c) = true.
Proof.
  destruct c as [[] [] [] [] [] [] [] []]; reflexivity.
Qed.

Lemma newline_free_json_string (s : string) :
  newline_free (json_string s) = true.
Proof.
  unfold json_string. rewrite !newline_free_app. simpl.
  rewrite andb_true_r. apply newline_free_concat; [reflexivity|].
  apply Forall_map, Forall_forall. intros c _. apply newline_free_json_char.
Qed.

Lemma newline_free_bracketed (l r : ascii) (body : string) :
  Ascii.eqb l newline = false -> Ascii.eqb r newline = false ->
  newline_free body = true ->
  newline_free (String l (body ++ chr r)) = true.
Proof.
  intros Hl Hr Hb. simpl. rewrite Hl, newline_free_app, Hb. simpl.
  now rewrite Hr.
Qed.

Lemma render_one_line (v : pyval) :
  forall level, newline_free (render None level v) = true.
Proof.
  induction v as [ | b | z | s | l IH | d IH | r t ] using pyval_nested_ind;
    intro level.
  - reflexivity.
  - now destruct b.
  - apply newline_free_decimal.
  - apply newline_free_json_string.
  - destruct l as [|x l']; [reflexivity|].
    change (render None level (PList (x :: l')))
      with (String "[" (String.concat ", "
                          (map (render None (S level)) (x :: l')) ++ chr "]")).
    apply newline_free_bracketed; try reflexivity.
    apply newline_free_concat; [reflexivity|].
    apply Forall_map. revert IH. apply Forall_impl. intros a Ha. apply Ha.
  - destruct d as [|kx d']; [reflexivity|].
    change (render None level (PDict (kx :: d')))
      with (String "{" (String.concat ", "
                          (map (fun '(k, x) =>
                                  json_string k ++ ": "
                                    ++ render None (S level) x) (kx :: d'))
                          ++ chr "}")).
    apply newline_free_bracketed; try reflexivity.
    apply newline_free_concat; [reflexivity|].
    apply Forall_map. revert IH. apply Forall_impl. intros [k x] Hx.
    rewrite !newline_free_app, newline_free_json_string. simpl. apply Hx.
  - reflexivity.
Qed.

Lemma dict_set_plain (k : string) (x : pyval) (d : list (string * pyval)) :
  plain x = true ->
  forallb (fun '(_, y) => plain y) d = true ->
  forallb (fun '(_, y) => plain y) (dict_set k x d) = true.
Proof.
  intros Hx. induction d as [|[k' y] d IH]; simpl.
  - intros _. now rewrite Hx.
  - intros H. apply andb_true_iff in H as [Hy Hd].
    destruct (String.eqb k k'); simpl.
    + now rewrite Hx, Hd.
    + now rewrite Hy, IH.
Qed.

Lemma dict_of_pairs_plain (m : list (string * pyval)) :
  forallb (fun '(_, y) => plain y) m = true ->
  forallb (fun '(_, y) => plain y) (dict_of_pairs m) = true.
Proof.
  unfold dict_of_pairs.
  assert (G : forall d, forallb (fun '(_, y) => plain y) d = true ->
              forallb (fun '(_, y) => plain y) m = true ->
              forallb (fun '(_, y) => plain y)
                (fold_left (fun d '(k, x) => dict_set k x d) m d) = true).
  { induction m as [|[k x] m IH]; simpl; intros d Hd Hm; [exact Hd|].
    apply andb_true_iff in Hm as [Hx Hm].
    apply IH; [now apply dict_set_plain | exact Hm]. }
  apply G. reflexivity.
Qed.

Ltac parse_cases :=
  repeat match goal with
    | H : Some _ = Some _ |- _ => injection H as <- <-
    | H : None = Some _ |- _ => discriminate H
    | H : literal _ _ _ = Some _ |- _ =>
        unfold literal in H
    | H : context [match ?x with _ => _ end] |- _ =>
        destruct x eqn:?
    | p : (_ * _)%type |- _ => destruct p
    end.

Lemma parse_plain (fuel : nat) :
  (forall s v r, parse_value fuel s = Some (v, r) -> plain v = true)
  /\ (forall s l r, parse_elements fuel s = Some (l, r) ->
        forallb plain l = true)
  /\ (forall s m r, parse_members fuel s = Some (m, r) ->
        forallb (fun '(_, y) => plain y) m = true).
Proof.
  induction fuel as [|fuel (IHv & IHe & IHm)].
  - repeat split; intros; discriminate.
  - repeat split.
    + intros s v r H. simpl in H. parse_cases; simpl; eauto.
      apply dict_of_pairs_plain. eauto.
    + intros s l r H. simpl in H. parse_cases; simpl.
      * erewrite IHv, IHe; eauto.
      * erewrite IHv; eauto.
    + intros s m r H. simpl in H. parse_cases; simpl.
      * erewrite IHv, IHm; eauto.
      * erewrite IHv; eauto.
Qed.

Lemma reference_loads_plain (s : string) (v : pyval) :
  reference_loads s = Val v -> plain v = true.
Proof.
  unfold reference_loads.
  destruct (parse_value _ _) as [[v' r]|] eqn:E; [|discriminate].
  destruct (skip_ws r); [|discriminate].
  intros [= <-]. eapply parse_plain, E.
Qed.

Lemma reference_dumps_plain (indent : option nat) (v : pyval) :
  plain v = true -> exists t, reference_dumps indent v = Val t.
Proof.
  intros H. unfold reference_dumps. rewrite H. eauto.
Qed.

Lemma reference_dumps_one_line (v : pyval) (t : string) :
  reference_dumps None v = Val t -> newline_free t = true.
Proof.
  unfold reference_dumps. destruct (plain v); [|discriminate].
  intros [= <-]. apply render_one_line.
Qed.

#[global] Instance reference_codec : codec := {|
  dumps := reference_dumps;
  loads := reference_loads;
  loads_plain := reference_loads_plain;
  dumps_plain := reference_dumps_plain;
  dumps_one_line := reference_dumps_one_line
|}.



(** ** Traces *)

Lemma pipe_app (a b : list event) : pipe (a ++ b) = (pipe a ++ pipe b)%list.
Proof. apply filter_app. Qed.

Lemma writes_app (a b : list event) :
  writes (a ++ b) = (writes a ++ writes b)%list.
Proof.
  induction a as [|e a IH]; [reflexivity|].
  destruct e; simpl; rewrite IH; reflexivity.
Qed.

Lemma reads_app (a b : list event) :
  reads (a ++ b) = (reads a ++ reads b)%list.
Proof.
  induction a as [|e a IH]; [reflexivity|].
  destruct e; simpl; rewrite IH; reflexivity.
Qed.

Lemma console_app (a b : list event) :
  console (a ++ b) = (console a ++ console b)%list.
Proof.
  induction a as [|e a IH]; [reflexivity|].
  destruct e; simpl; rewrite IH; reflexivity.
Qed.

(** ** One call *)

Section OneCall.
Context {J : json.codec}.

#[local] Arguments String.append : simpl never.

Ltac tidy :=
  simpl;
  repeat (rewrite pipe_app; simpl (pipe (_ :: _)));
  rewrite ?app_nil_r, <- ?app_assoc; simpl.

(** [send_request] follows exactly one of the paths of [exchange]; it
    leaves the process handle alone and moves the counter by one. *)
Lemma send_request_exchange (self : MCPTestClient) (method : string)
  (params : pyval) :
  exists evs o,
    send_request method params self = (o, after_call self evs)
    /\ exchange (process self) (pipe (trace self)) (request_id self)
         method params evs o.
Proof.
  destruct self as [child id tr].
  unfold send_request, bind, get_request_id, set_request_id, print, lift,
    process_stdin_write, process_stdin_flush, process_stdout_readline, log,
    after_call, ret.
  simpl.
  destruct (json.dumps (Some 2) params) as [shown|e] eqn:Hshown; tidy.
  2: { do 2 eexists; split; [reflexivity|].
       now apply exchange_params_rejected. }
  destruct (json.dumps None (request method params id))
    as [document|e] eqn:Hdoc; tidy.
  2: { do 2 eexists; split; [reflexivity|].
       now apply exchange_request_rejected. }
  destruct (write_reply child (pipe tr) (document ++ chr newline))
    as [e|] eqn:Hwrite; tidy.
  1: { do 2 eexists; split; [reflexivity|].
       now apply exchange_write_failed. }
  destruct (flush_reply child _) as [e|] eqn:Hflush; tidy.
  1: { do 2 eexists; split; [reflexivity|].
       now apply exchange_flush_failed. }
  destruct (readline_reply child _) as [line| |e] eqn:Hread; tidy.
  - destruct (nonempty line) eqn:Hline.
    + destruct (json.loads line) as [response|e] eqn:Hloads.
      * destruct (json.dumps_plain (Some 2) response
                    (json.loads_plain _ _ Hloads)) as [shown' Hshown'].
        rewrite Hshown'. tidy.
        do 2 eexists; split; [reflexivity|].
        eapply exchange_read with (tail := [ev_response shown']); eauto.
        now apply answer_response.
      * do 2 eexists; split; [reflexivity|].
        eapply exchange_read with (tail := []); eauto.
        now apply answer_not_json.
    + destruct line; [|discriminate].
      do 2 eexists; split; [reflexivity|].
      eapply exchange_read with (tail := []); eauto.
      apply answer_end_of_stream.
  - do 2 eexists; split; [reflexivity|].
    eapply exchange_read with (tail := []); eauto.
    apply answer_blocked.
  - do 2 eexists; split; [reflexivity|].
    eapply exchange_read with (tail := []); eauto.
    apply answer_broken.
Qed.

End OneCall.

Section OneCallFacts.
Context {J : json.codec}.

Lemma skipn_length_app {A : Type} (a b : list A) :
  skipn (List.length a) (a ++ b) = b.
Proof. induction a; simpl; auto. Qed.

(** The effects and the outcome of a call are those of its path. *)
Lemma send_request_path (self : MCPTestClient) (method : string)
  (params : pyval) :
  send_request method params self
  = (outcome_of (send_request method params) self,
     after_call self (events_by (send_request method params) self))
  /\ exchange (process self) (pipe (trace self)) (request_id self)
       method params
       (events_by (send_request method params) self)
       (outcome_of (send_request method params) self).
Proof.
  destruct (send_request_exchange self method params) as (evs & o & E & X).
  unfold events_by, outcome_of. rewrite E. simpl.
  rewrite skipn_length_app. auto.
Qed.

Lemma exchange_starts_with_set_id child h id method params evs o :
  exchange child h id method params evs o ->
  exists rest, evs = ESetId (id + 1) :: rest
               /\ existsb is_set_id rest = false.
Proof.
  intros X. destruct X as [ | | | | ? ? ? ? ? ? ? ? ? ? A ];
    try (eexists; split; reflexivity).
  destruct A; eexists; split; reflexivity.
Qed.

Lemma exchange_returns child h id method params evs response :
  exchange child h id method params evs (Ret response) ->
  exists document reply,
    json.dumps None (request method params id) = Val document
    /\ pipe evs = [EWrite (document ++ chr newline); EFlush; EReadline reply]
    /\ writes evs = [document ++ chr newline]
    /\ reads evs = [reply].
Proof.
  intros X. inversion X as [ | | | | r s d H1 H2 H3 H4 H5 t o A ]; subst.
  exists d, (readline_reply child (h ++ [EWrite (d ++ chr newline); EFlush])).
  inversion A; subst; repeat split; auto.
Qed.

Lemma exchange_writes child h id method params evs o :
  exchange child h id method params evs o ->
  writes evs = []
  \/ exists document,
       json.dumps None (request method params id) = Val document
       /\ writes evs = [document ++ chr newline].
Proof.
  intros X. destruct X as [ e H1 | s e H1 H2 | s d e H1 H2 H3
                          | s d e H1 H2 H3 H4 | r s d H1 H2 H3 H4 H5 t o A ];
    try (left; reflexivity);
    try (right; exists d; split; [assumption|reflexivity]).
  right. exists d. split; [assumption|]. destruct A; reflexivity.
Qed.

(** What the one read of a call returned decides how the call ends. *)
Lemma exchange_reads child h id method params evs o :
  exchange child h id method params evs o ->
  reads evs = []
  \/ exists reply tail, reads evs = [reply] /\ answer reply tail o.
Proof.
  intros X. destruct X as [ | | | | r s d H1 H2 H3 H4 H5 t o A ];
    try (left; reflexivity).
  right. exists r, t. split; [|assumption]. destruct A; reflexivity.
Qed.

End OneCallFacts.

Lemma in_reads (r : read_reply) (evs : list event) :
  In (EReadline r) evs <-> In r (reads evs).
Proof.
  induction evs as [|e evs IH]; simpl; [tauto|].
  destruct e; simpl; rewrite <- IH; split; intros H;
    try (destruct H as [H|H]; [discriminate H|exact H]);
    try (right; exact H).
  - destruct H as [H|H]; [left; now injection H|now right].
  - destruct H as [H|H]; [left; now f_equal|now right].
Qed.

Section CallClaims.
Context {J : json.codec}.

(** How a call ends, given the line its read returned. *)
Lemma call_answer (self : MCPTestClient) (method : string) (params : pyval)
  (reply : read_reply) :
  In (EReadline reply) (events_by (send_request method params) self) ->
  exists tail,
    answer reply tail (outcome_of (send_request method params) self).
Proof.
  intros Hin. apply in_reads in Hin.
  destruct (send_request_path self method params) as [_ X].
  destruct (exchange_reads _ _ _ _ _ _ _ X) as [E|(r & tail & E & A)];
    rewrite E in Hin; simpl in Hin; [contradiction|].
  destruct Hin as [<-|[]]. eauto.
Qed.

Lemma session_counter (calls : list (string * pyval)) :
  forall self,
    (request_id self <= request_id (snd (session calls self)))%Z.
Proof.
  induction calls as [|[method params] calls IH]; intros self; simpl.
  - lia.
  - destruct (send_request_path self method params) as [E _].
    rewrite E.
    destruct (outcome_of (send_request method params) self);
      try (etransitivity; [|apply IH]); simpl; lia.
Qed.

(** C10.  Every call to [send_request] moves the counter by exactly one,
    whatever its outcome (a value, an exception from the encoder, the
    pipes or the decoder, or a read that never returns).  The assignment is
    the first effect of the call, so it precedes every operation on the
    child's pipes, and it is the only assignment of the call.  The
    identifier so consumed is never handed out again: later calls of the
    session find the counter above it. *)
Theorem identifier_consumed_before_io (self : MCPTestClient)
  (method : string) (params : pyval) :
  let call := send_request method params in
  request_id (snd (call self)) = (request_id self + 1)%Z
  /\ (exists rest,
        events_by call self = ESetId (request_id self + 1) :: rest
        /\ existsb is_set_id rest = false)
  /\ (forall calls,
        (request_id self < request_id (snd (session calls (snd (call self)))))%Z).
Proof.
  intros call. subst call.
  destruct (send_request_path self method params) as [E X].
  repeat split.
  - rewrite E. reflexivity.
  - eapply exchange_starts_with_set_id, X.
  - intros calls.
    pose proof (session_counter calls (snd (send_request method params self))).
    rewrite E in H at 1. simpl in H. lia.
Qed.

(** C4.  A call that returns has performed, on the child's pipes, exactly:
    one write of the request's JSON document followed by one newline (the
    document itself holds no line break), then one flush, then one line
    read.  No call, returning or not, writes or reads more than once. *)
Theorem one_line_written_one_line_read (self : MCPTestClient)
  (method : string) (params : pyval) :
  let evs := events_by (send_request method params) self in
  (List.length (writes evs) <= 1)%nat
  /\ (List.length (reads evs) <= 1)%nat
  /\ forall response,
       outcome_of (send_request method params) self = Ret response ->
       exists document reply,
         json.dumps None (request method params (request_id self))
         = Val document
         /\ newline_free document = true
         /\ pipe evs
            = [EWrite (document ++ chr newline); EFlush; EReadline reply].
Proof.
  intros evs. subst evs.
  destruct (send_request_path self method params) as [_ X].
  repeat split.
  - destruct (exchange_writes _ _ _ _ _ _ _ X) as [E|(d & _ & E)];
      rewrite E; simpl; lia.
  - destruct (exchange_reads _ _ _ _ _ _ _ X) as [E|(r & t & E & _)];
      rewrite E; simpl; lia.
  - intros response Hret. rewrite Hret in X.
    destruct (exchange_returns _ _ _ _ _ _ _ X) as (d & r & Hd & Hp & _).
    exists d, r. repeat split; auto.
    eapply json.dumps_one_line, Hd.
Qed.

(** C2.  [call_tool name arguments] hands [send_request] the method
    [tools/call] and the mapping with the two keys [name] and [arguments];
    since that mapping is not empty it becomes the [params] field as it
    is.  Whatever the call writes to the child is the serialisation of this
    request, and a call that returns has written it. *)
Theorem call_tool_request (self : MCPTestClient) (tool_name : string)
  (arguments : pyval) :
  let params := PDict [("name", PStr tool_name); ("arguments", arguments)] in
  let r := request "tools/call" params (request_id self) in
  let sent := writes (events_by (call_tool tool_name arguments) self) in
  py_getitem r "method" = Val (PStr "tools/call")
  /\ py_getitem r "params" = Val params
  /\ (sent = [] \/ map Some sent = [wire r])
  /\ forall response,
       outcome_of (call_tool tool_name arguments) self = Ret response ->
       map Some sent = [wire r].
Proof.
  intros params r sent. subst sent r. unfold call_tool.
  destruct (send_request_path self "tools/call" params) as [_ X].
  repeat split.
  - destruct (exchange_writes _ _ _ _ _ _ _ X) as [E|(d & Hd & E)];
      [now left|right].
    fold params. rewrite E. unfold wire. now rewrite Hd.
  - intros response Hret. fold params in Hret |- *. rewrite Hret in X.
    destruct (exchange_returns _ _ _ _ _ _ _ X) as (d & rp & Hd & _ & E & _).
    rewrite E. unfold wire. now rewrite Hd.
Qed.

(** C5, as the code has it.  The [params] field of the request is the
    supplied value when that value is true in Python's sense (every
    non-empty mapping is), and the empty mapping for every other value:
    an omitted argument, [None], an empty mapping, an empty list, an empty
    string, zero, [False].  Whatever the call writes is the serialisation
    of that request. *)
Theorem params_field_of_request (self : MCPTestClient) (method : string)
  (params : pyval) :
  let r := request method params (request_id self) in
  let sent := writes (events_by (send_request method params) self) in
  py_getitem r "params" = Val (if truthy params then params else empty_dict)
  /\ (sent = [] \/ map Some sent = [wire r]).
Proof.
  intros r sent. subst sent r. split; [reflexivity|].
  destruct (send_request_path self method params) as [_ X].
  destruct (exchange_writes _ _ _ _ _ _ _ X) as [E|(d & Hd & E)];
    [now left|right].
  rewrite E. unfold wire. now rewrite Hd.
Qed.

(** C8.  When the line read by a call is not empty and the decoder rejects
    it, the call ends with the decoder's exception and returns no value;
    nothing at the call site intercepts it, so whatever was to follow the
    call is skipped. *)
Theorem invalid_response_raises (self : MCPTestClient) (method : string)
  (params : pyval) (line : string) (e : exn) :
  nonempty line = true ->
  json.loads line = Exc e ->
  In (EReadline (Got line)) (events_by (send_request method params) self) ->
  outcome_of (send_request method params) self = Raise e
  /\ forall (B : Type) (k : pyval -> M B),
       outcome_of (bind (send_request method params) k) self = Raise e.
Proof.
  intros Hline Hloads Hin.
  destruct (call_answer _ _ _ _ Hin) as [tail A].
  assert (R : outcome_of (send_request method params) self = Raise e).
  { inversion A as [ | | E | l e' Hl He | l r s Hl Hr Hs ]; subst.
    - discriminate Hline.
    - rewrite Hloads in He. now injection He as <-.
    - rewrite Hloads in Hr. discriminate Hr. }
  split; [exact R|].
  intros B k. unfold outcome_of, bind in *.
  destruct (send_request method params self) as [o self']. simpl in R.
  now subst o.
Qed.

(** C9.  When the line read by a call is not empty and decodes, the call
    returns the decoded value as it is.  Nothing is assumed about the
    value: it need not be an object, it need not have an [id], and an [id]
    it has need not be the one just sent.  So any other call that reads the
    same line, whatever its method, its parameters and the identifier it
    sent, returns the same value. *)
Theorem response_returned_whatever_its_id (self : MCPTestClient)
  (method : string) (params : pyval) (line : string) (response : pyval) :
  nonempty line = true ->
  json.loads line = Val response ->
  In (EReadline (Got line)) (events_by (send_request method params) self) ->
  outcome_of (send_request method params) self = Ret response
  /\ forall self' method' params',
       In (EReadline (Got line))
         (events_by (send_request method' params') self') ->
       outcome_of (send_request method' params') self'
       = outcome_of (send_request method params) self.
Proof.
  intros Hline Hloads Hin.
  assert (R : forall s m p,
             In (EReadline (Got line)) (events_by (send_request m p) s) ->
             outcome_of (send_request m p) s = Ret response).
  { intros s m p H.
    destruct (call_answer _ _ _ _ H) as [tail A].
    inversion A as [ | | E | l e' Hl He | l r sh Hl Hr Hs ]; subst.
    - discriminate Hline.
    - rewrite Hloads in He. discriminate He.
    - rewrite Hloads in Hr. now injection Hr as <-. }
  split; [now apply R|].
  intros self' method' params' H. now rewrite !R.
Qed.

End CallClaims.

(** ** Composition of programs *)

Lemma bind_assoc {A B C : Type} (c : M A) (f : A -> M B) (g : B -> M C)
  (self : MCPTestClient) :
  bind (bind c f) g self = bind c (fun a => bind (f a) g) self.
Proof.
  unfold bind. destruct (c self) as [[a|e|] self']; reflexivity.
Qed.

Lemma bind_ret_l {A B : Type} (a : A) (k : A -> M B) (self : MCPTestClient) :
  bind (ret a) k self = k a self.
Proof. reflexivity. Qed.

Lemma bind_ext {A B : Type} (c : M A) (k1 k2 : A -> M B)
  (self : MCPTestClient) :
  (forall a self', k1 a self' = k2 a self') ->
  bind c k1 self = bind c k2 self.
Proof.
  intros H. unfold bind. destruct (c self) as [[a|e|] self']; auto.
Qed.

Lemma outcome_of_bind {A B : Type} (c : M A) (k : A -> M B)
  (self : MCPTestClient) :
  outcome_of (bind c k) self
  = match outcome_of c self with
    | Ret a => outcome_of (k a) (snd (c self))
    | Raise e => Raise e
    | Hang => Hang
    end.
Proof.
  unfold outcome_of, bind. destruct (c self) as [[a|e|] self']; reflexivity.
Qed.

Lemma after_bind {A B : Type} (c : M A) (k : A -> M B)
  (self : MCPTestClient) :
  snd (bind c k self)
  = match outcome_of c self with
    | Ret a => snd (k a (snd (c self)))
    | _ => snd (c self)
    end.
Proof.
  unfold outcome_of, bind. destruct (c self) as [[a|e|] self']; reflexivity.
Qed.

Lemma events_by_extends {A : Type} (c : M A) (self : MCPTestClient) :
  extends c ->
  trace (snd (c self)) = (trace self ++ events_by c self)%list.
Proof.
  intros H. destruct (H self) as [evs E]. unfold events_by.
  rewrite E at 2. now rewrite skipn_length_app.
Qed.

Lemma events_by_bind {A B : Type} (c : M A) (k : A -> M B)
  (self : MCPTestClient) :
  extends c -> (forall a, extends (k a)) ->
  events_by (bind c k) self
  = (events_by c self
     ++ match outcome_of c self with
        | Ret a => events_by (k a) (snd (c self))
        | _ => []
        end)%list.
Proof.
  intros Hc Hk. unfold events_by at 1. rewrite after_bind.
  pose proof (events_by_extends c self Hc) as Ec.
  destruct (outcome_of c self) as [a|e|].
  - rewrite (events_by_extends (k a) _ (Hk a)), Ec, <- app_assoc.
    now rewrite skipn_length_app.
  - rewrite Ec, skipn_length_app, app_nil_r. reflexivity.
  - rewrite Ec, skipn_length_app, app_nil_r. reflexivity.
Qed.

Lemma extends_bind {A B : Type} (c : M A) (k : A -> M B) :
  extends c -> (forall a, extends (k a)) -> extends (bind c k).
Proof.
  intros Hc Hk self. rewrite after_bind.
  destruct (Hc self) as [evs E].
  destruct (outcome_of c self) as [a|e|]; eauto.
  destruct (Hk a (snd (c self))) as [evs' E'].
  exists (evs ++ evs')%list. now rewrite E', E, app_assoc.
Qed.

Lemma extends_ret {A : Type} (a : A) : extends (ret a).
Proof. intros self. exists []. simpl. now rewrite app_nil_r. Qed.

Lemma extends_lift {A : Type} (r : res A) : extends (lift r).
Proof.
  intros self. exists []. unfold lift.
  destruct r; simpl; now rewrite app_nil_r.
Qed.

Lemma extends_print (text : string) : extends (print text).
Proof. intros self. now exists [EPrint text]. Qed.

Lemma console_only_extends {A : Type} (c : M A) :
  console_only c -> extends c.
Proof.
  intros H self. destruct (H self) as (texts & E & _).
  exists (map EPrint texts). now rewrite E.
Qed.

Lemma console_only_ret {A : Type} (a : A) : console_only (ret a).
Proof.
  intros self. exists []. split; [|discriminate].
  unfold with_prints. destruct self. simpl. now rewrite app_nil_r.
Qed.

Lemma console_only_lift {A : Type} (r : res A) : console_only (lift r).
Proof.
  intros self. exists []. unfold lift, outcome_of, with_prints.
  destruct r; destruct self; simpl; rewrite app_nil_r;
    (split; [reflexivity|discriminate]).
Qed.

Lemma console_only_print (text : string) : console_only (print text).
Proof.
  intros self. exists [text]. split; [reflexivity|discriminate].
Qed.

Lemma console_only_bind {A B : Type} (c : M A) (k : A -> M B) :
  console_only c -> (forall a, console_only (k a)) ->
  console_only (bind c k).
Proof.
  intros Hc Hk self. rewrite after_bind, outcome_of_bind.
  destruct (Hc self) as (texts & E & NH).
  destruct (outcome_of c self) as [a|e|].
  - destruct (Hk a (snd (c self))) as (texts' & E' & NH').
    exists (texts ++ texts')%list. split; [|exact NH'].
    rewrite E', E. unfold with_prints. simpl.
    now rewrite map_app, app_assoc.
  - exists texts. split; [exact E|discriminate].
  - contradiction.
Qed.

Lemma console_only_for_each {A : Type} (body : A -> M unit)
  (items : list A) :
  (forall x, console_only (body x)) -> console_only (for_each items body).
Proof.
  intros Hb. induction items as [|x items IH]; simpl.
  - apply console_only_ret.
  - apply console_only_bind; auto.
Qed.

Ltac console_only :=
  repeat first
    [ apply console_only_bind; [|intros ?]
    | apply console_only_for_each; intros ?
    | apply console_only_lift
    | apply console_only_print
    | apply console_only_ret
    | match goal with |- console_only (if ?b then _ else _) => destruct b end ].

Section RunSteps.
Context {J : json.codec}.

Lemma extends_send_request (method : string) (params : pyval) :
  extends (send_request method params).
Proof.
  intros self. destruct (send_request_path self method params) as [E _].
  rewrite E. simpl. eauto.
Qed.

Lemma console_only_show_tool (tool : pyval) : console_only (show_tool tool).
Proof. unfold show_tool. console_only. Qed.

Lemma console_only_list_tools (response : pyval) :
  console_only (list_tools response).
Proof. unfold list_tools, show_tool. console_only. Qed.

Lemma console_only_header : console_only header.
Proof. unfold header. console_only. Qed.

Lemma console_only_footer : console_only footer.
Proof. unfold footer. console_only. Qed.

Lemma quiet_test_steps : quiet test_steps.
Proof.
  unfold quiet, test_steps.
  repeat constructor; simpl; intros response;
    first [ apply console_only_list_tools | apply console_only_ret ].
Qed.

Lemma extends_run_steps (steps : list step) (finish : M unit) :
  quiet steps -> extends finish -> extends (run_steps steps finish).
Proof.
  intros Q F. induction Q as [|st steps Hst Q IH]; simpl; [exact F|].
  apply extends_bind; [apply extends_print|intros _].
  apply extends_bind; [apply extends_send_request|intros response].
  apply extends_bind; [apply console_only_extends, Hst|intros _].
  exact IH.
Qed.

(** [run_tests] is its header, its seven steps and its footer. *)
Lemma run_tests_as_steps (self : MCPTestClient) :
  run_tests self = bind header (fun _ => run_steps test_steps footer) self.
Proof.
  unfold run_tests, header, test_steps, footer, call_tool, tool_call,
    list_tools, ignore.
  cbn [run_steps banner step_method step_params inspect].
  repeat first
    [ rewrite bind_assoc
    | rewrite bind_ret_l
    | reflexivity
    | apply bind_ext; intros ? ? ].
Qed.

Lemma events_by_print (text : string) (self : MCPTestClient) :
  events_by (print text) self = [EPrint text].
Proof. unfold events_by. simpl. apply skipn_length_app. Qed.

Lemma events_by_console_only {A : Type} (c : M A) (self : MCPTestClient) :
  console_only c ->
  exists texts,
    events_by c self = map EPrint texts
    /\ snd (c self) = with_prints self texts.
Proof.
  intros H. destruct (H self) as (texts & E & _). exists texts.
  split; [|exact E]. unfold events_by. rewrite E. simpl.
  apply skipn_length_app.
Qed.

(** One step, then the others. *)
Lemma run_steps_cons (st : step) (rest : list step) (finish : M unit)
  (self : MCPTestClient) :
  quiet (st :: rest) -> extends finish ->
  let call := send_request (step_method st) (step_params st) in
  let s1 := log (EPrint (banner st)) self in
  let s2 := snd (call s1) in
  events_by (run_steps (st :: rest) finish) self
  = (EPrint (banner st) :: events_by call s1
     ++ match outcome_of call s1 with
        | Ret r =>
            events_by (inspect st r) s2
            ++ match outcome_of (inspect st r) s2 with
               | Ret _ =>
                   events_by (run_steps rest finish) (snd (inspect st r s2))
               | _ => []
               end
        | _ => []
        end)%list
  /\ outcome_of (run_steps (st :: rest) finish) self
     = match outcome_of call s1 with
       | Ret r =>
           match outcome_of (inspect st r) s2 with
           | Ret _ =>
               outcome_of (run_steps rest finish) (snd (inspect st r s2))
           | Raise e => Raise e
           | Hang => Hang
           end
       | Raise e => Raise e
       | Hang => Hang
       end.
Proof.
  intros Q F call s1 s2. inversion Q as [|? ? Hst Q']; subst.
  assert (X : forall r, extends (bind (inspect st r)
                                   (fun _ => run_steps rest finish))).
  { intros r. apply extends_bind;
      [apply console_only_extends, Hst|intros _].
    now apply extends_run_steps. }
  split.
  - cbn [run_steps].
    rewrite events_by_bind;
      [|apply extends_print
       |intros _; apply extends_bind;
        [apply extends_send_request|exact X]].
    rewrite events_by_print. cbn [outcome_of print fst snd app].
    fold s1. f_equal.
    rewrite events_by_bind; [|apply extends_send_request|exact X].
    fold call s2. f_equal.
    destruct (outcome_of call s1) as [r|e|]; try reflexivity.
    rewrite events_by_bind;
      [reflexivity|apply console_only_extends, Hst
      |intros _; now apply extends_run_steps].
  - cbn [run_steps]. rewrite outcome_of_bind.
    cbn [outcome_of print fst snd]. fold s1.
    rewrite outcome_of_bind. fold call s2.
    destruct (outcome_of call s1) as [r|e|]; try reflexivity.
    now rewrite outcome_of_bind.
Qed.

Lemma writes_prints (texts : list string) : writes (map EPrint texts) = [].
Proof. induction texts; simpl; auto. Qed.

Lemma reads_prints (texts : list string) : reads (map EPrint texts) = [].
Proof. induction texts; simpl; auto. Qed.

Lemma console_prints (texts : list string) :
  console (map EPrint texts) = texts.
Proof. induction texts; simpl; congruence. Qed.

Lemma after_send_request (self : MCPTestClient) (method : string)
  (params : pyval) :
  snd (send_request method params self)
  = after_call self (events_by (send_request method params) self).
Proof.
  destruct (send_request_path self method params) as [E _].
  rewrite E at 1. reflexivity.
Qed.

(** The documents a list of steps puts on the wire are the requests of its
    first [k] steps, numbered from the counter; all of them when the run
    completes. *)
Lemma run_steps_writes (steps : list step) (finish : M unit) :
  quiet steps -> console_only finish ->
  forall self,
  exists k,
    (k <= List.length steps)%nat
    /\ map Some (writes (events_by (run_steps steps finish) self))
       = map wire (firstn k (step_requests steps (request_id self)))
    /\ (outcome_of (run_steps steps finish) self = Ret tt ->
        k = List.length steps).
Proof.
  intros Q F. induction Q as [|st rest Hst Q IH]; intros self.
  - exists 0%nat. simpl.
    destruct (events_by_console_only finish self F) as (texts & E & _).
    rewrite E, writes_prints. auto.
  - destruct (run_steps_cons st rest finish self) as [Ev Out];
      [now constructor|now apply console_only_extends|].
    cbv zeta in Ev, Out. rewrite Ev, Out. clear Ev Out.
    set (s1 := log (EPrint (banner st)) self).
    set (call := send_request (step_method st) (step_params st)).
    destruct (send_request_path s1 (step_method st) (step_params st))
      as [_ X].
    fold call in X. change (request_id s1) with (request_id self) in X.
    pose proof (after_send_request s1 (step_method st) (step_params st))
      as S2. fold call in S2.
    cbn [writes step_requests].
    rewrite writes_app.
    destruct (outcome_of call s1) as [r|e|] eqn:O.
    + destruct (exchange_returns _ _ _ _ _ _ _ X) as (d & rp & Hd & _ & W & _).
      destruct (events_by_console_only (inspect st r) (snd (call s1))
                  (Hst r)) as (texts & Ei & Si).
      rewrite W, Ei, writes_app, writes_prints. cbn [app].
      assert (Wd : wire (request (step_method st) (step_params st)
                           (request_id self)) = Some (d ++ chr newline))
        by (unfold wire; now rewrite Hd).
      destruct (outcome_of (inspect st r) (snd (call s1))) as [[]|e|] eqn:Oi.
      * destruct (IH (snd (inspect st r (snd (call s1))))) as (k & Hk & Hw & Hr).
        assert (Rid : request_id (snd (inspect st r (snd (call s1))))
                      = (request_id self + 1)%Z)
          by (rewrite Si, S2; reflexivity).
        rewrite Rid in Hw.
        exists (S k). cbn [firstn map List.length]. rewrite Wd, Hw.
        repeat split; [lia|]. intros R. now rewrite (Hr R).
      * exists 1%nat. cbn [firstn map List.length writes]. rewrite Wd.
        repeat split; [lia|discriminate].
      * destruct (Hst r (snd (call s1))) as (? & _ & NH). contradiction.
    + exists (List.length (writes (events_by call s1))).
      rewrite app_nil_r.
      destruct (exchange_writes _ _ _ _ _ _ _ X) as [W|(d & Hd & W)];
        rewrite W; cbn [firstn map List.length].
      * repeat split; [lia|discriminate].
      * unfold wire. rewrite Hd. repeat split; [lia|discriminate].
    + exists (List.length (writes (events_by call s1))).
      rewrite app_nil_r.
      destruct (exchange_writes _ _ _ _ _ _ _ X) as [W|(d & Hd & W)];
        rewrite W; cbn [firstn map List.length].
      * repeat split; [lia|discriminate].
      * unfold wire. rewrite Hd. repeat split; [lia|discriminate].
Qed.

Lemma step_requests_test_steps (id : Z) :
  step_requests test_steps id = test_requests id.
Proof.
  unfold test_requests. cbn [step_requests test_steps step_method step_params].
  rewrite <- !Z.add_assoc. reflexivity.
Qed.

(** The run is the header's three lines, then the steps. *)
Lemma run_tests_events (self : MCPTestClient) :
  exists texts,
    events_by run_tests self
    = (map EPrint texts
       ++ events_by (run_steps test_steps footer) (with_prints self texts))%list
    /\ outcome_of run_tests self
       = outcome_of (run_steps test_steps footer) (with_prints self texts).
Proof.
  destruct (events_by_console_only header self console_only_header)
    as (texts & E & S).
  assert (O : outcome_of header self = Ret tt) by reflexivity.
  exists texts. split.
  - unfold events_by at 1. rewrite run_tests_as_steps.
    change (skipn (List.length (trace self))
              (trace (snd (bind header
                             (fun _ => run_steps test_steps footer) self))))
      with (events_by (bind header (fun _ => run_steps test_steps footer))
              self).
    rewrite events_by_bind.
    + now rewrite O, E, S.
    + apply console_only_extends, console_only_header.
    + intros _. apply extends_run_steps;
        [apply quiet_test_steps
        |apply console_only_extends, console_only_footer].
  - unfold outcome_of at 1. rewrite run_tests_as_steps.
    change (fst (bind header (fun _ => run_steps test_steps footer) self))
      with (outcome_of (bind header (fun _ => run_steps test_steps footer))
              self).
    now rewrite outcome_of_bind, O, S.
Qed.

(** C6.  The documents [run_tests] writes to the child are the
    serialisations of its seven requests, in this order: [initialize],
    [tools/list], then the tool calls [navigate], [analyze_ui],
    [verify_page], [click_button] and [run_flow], numbered consecutively
    from the counter.  A run that completes has written exactly these
    seven; a run that stops early has written the first few of them, and
    nothing else in either case. *)
Theorem run_tests_seven_requests (self : MCPTestClient) :
  let sent := writes (events_by run_tests self) in
  let planned := test_requests (request_id self) in
  List.length planned = 7%nat
  /\ (exists k, map Some sent = map wire (firstn k planned))
  /\ (outcome_of run_tests self = Ret tt -> map Some sent = map wire planned).
Proof.
  intros sent planned. subst sent planned.
  destruct (run_tests_events self) as (texts & E & O).
  destruct (run_steps_writes test_steps footer quiet_test_steps
              console_only_footer (with_prints self texts))
    as (k & Hk & Hw & Hr).
  rewrite step_requests_test_steps in Hw.
  change (request_id (with_prints self texts)) with (request_id self) in Hw.
  rewrite E, O, writes_app, writes_prints. cbn [app].
  repeat split.
  - now exists k.
  - intros R. rewrite Hw, (Hr R). reflexivity.
Qed.

(** *** End of stream *)

Lemma no_eof_prints (texts : list string) :
  existsb is_eof (map EPrint texts) = false.
Proof. induction texts; simpl; auto. Qed.

(** A call either meets no end of stream, or ends on it and returns the
    empty mapping. *)
Lemma exchange_eof child h id method params evs o :
  exchange child h id method params evs o ->
  existsb is_eof evs = false
  \/ (o = Ret empty_dict
      /\ exists pre, evs = (pre ++ [end_of_stream])%list
                     /\ existsb is_eof pre = false).
Proof.
  intros X. destruct X as [ | | | | r s d H1 H2 H3 H4 H5 t o A ];
    try (left; reflexivity).
  destruct A as [ | e | | line e Hl He | line resp sh Hl Hr Hs ].
  - left. reflexivity.
  - left. reflexivity.
  - right. split; [reflexivity|].
    exists [ESetId (id + 1); ev_sending method; ev_params s;
            EWrite (d ++ chr newline); EFlush].
    split; reflexivity.
  - left. simpl. now rewrite Hl.
  - left. simpl. now rewrite Hl.
Qed.

(** *** The tool listing *)

Lemma tool_line_listable (tool : pyval) :
  listable tool = true -> tool_line tool = Val (listing tool).
Proof.
  destruct tool as [ | | | | |d| ]; try discriminate. simpl.
  unfold tool_line, py_get, and_then, listing.
  destruct (dict_lookup "description" d) as [[ | | |text| | | ]|];
    try discriminate; reflexivity.
Qed.

Lemma events_by_ret {A : Type} (a : A) (self : MCPTestClient) :
  events_by (ret a) self = [].
Proof.
  unfold events_by. simpl. rewrite <- (app_nil_r (trace self)) at 2.
  apply skipn_length_app.
Qed.

Lemma for_each_show_tool (items : list pyval) :
  forall self,
  exists texts,
    events_by (for_each items show_tool) self = map EPrint texts
    /\ (forallb listable items = true ->
        texts = map listing items
        /\ outcome_of (for_each items show_tool) self = Ret tt).
Proof.
  induction items as [|tool items IH]; intros self.
  - exists []. simpl. rewrite events_by_ret. auto.
  - cbn [for_each].
    rewrite events_by_bind, outcome_of_bind;
      [|apply console_only_extends, console_only_show_tool
       |intros _; apply console_only_extends, console_only_for_each;
        intros x; apply console_only_show_tool].
    destruct (listable tool) eqn:L.
    + assert (E : show_tool tool self
                  = (Ret tt, log (EPrint (listing tool)) self)).
      { unfold show_tool, bind, lift.
        now rewrite (tool_line_listable tool L). }
      assert (Ev : events_by (show_tool tool) self = [EPrint (listing tool)]).
      { unfold events_by. rewrite E. simpl. apply skipn_length_app. }
      assert (Ot : outcome_of (show_tool tool) self = Ret tt)
        by (unfold outcome_of; now rewrite E).
      rewrite Ot, Ev, E. cbn [fst snd].
      destruct (IH (log (EPrint (listing tool)) self)) as (texts & E' & H').
      exists (listing tool :: texts). rewrite E'. split; [reflexivity|].
      cbn [forallb]. rewrite L. intros F. destruct (H' F) as [-> O].
      split; [reflexivity|exact O].
    + destruct (events_by_console_only (show_tool tool) self
                  (console_only_show_tool tool)) as (t1 & E1 & _).
      destruct (outcome_of (show_tool tool) self) as [[]|e|].
      * destruct (IH (snd (show_tool tool self))) as (t2 & E2 & _).
        exists (t1 ++ t2)%list. rewrite E1, E2, map_app.
        split; [reflexivity|]. cbn [forallb]. rewrite L. discriminate.
      * exists t1. rewrite E1, app_nil_r.
        split; [reflexivity|]. cbn [forallb]. rewrite L. discriminate.
      * exists t1. rewrite E1, app_nil_r.
        split; [reflexivity|]. cbn [forallb]. rewrite L. discriminate.
Qed.

(** On a response whose [result] is a mapping with a list under [tools],
    the listing prints the count, then one line per entry among the first
    five for as long as the entries are listable. *)
Lemma list_tools_found (fields result_fields : list (string * pyval))
  (tools : list pyval) (self : MCPTestClient) :
  dict_lookup "result" fields = Some (PDict result_fields) ->
  dict_lookup "tools" result_fields = Some (PList tools) ->
  exists texts,
    events_by (list_tools (PDict fields)) self
    = EPrint ("   Found " ++ decimal (Z.of_nat (List.length tools))
                ++ " tools:") :: map EPrint texts
    /\ (forallb listable (firstn 5 tools) = true ->
        texts = map listing (firstn 5 tools)
        /\ outcome_of (list_tools (PDict fields)) self = Ret tt).
Proof.
  intros Hr Ht.
  set (found := "   Found " ++ decimal (Z.of_nat (List.length tools))
                  ++ " tools:").
  assert (E : forall s,
             list_tools (PDict fields) s
             = for_each (firstn 5 tools) show_tool (log (EPrint found) s)).
  { intros s. unfold list_tools, bind, lift, py_in, py_getitem, py_get,
      py_len, py_slice, py_iter, print.
    now rewrite Hr, Ht. }
  destruct (for_each_show_tool (firstn 5 tools) (log (EPrint found) self))
    as (texts & Ev & H).
  exists texts. split.
  - unfold events_by in *. rewrite E.
    cbn [log trace] in Ev.
    pose proof (console_only_extends _
                  (console_only_for_each show_tool (firstn 5 tools)
                     console_only_show_tool) (log (EPrint found) self))
      as [evs X].
    rewrite X in *. cbn [log trace] in *.
    rewrite length_app, <- app_assoc in Ev. cbn [List.length] in Ev.
    rewrite <- app_assoc.
    rewrite skipn_length_app.
    replace (List.length (trace self) + 1)%nat
      with (List.length (trace self ++ [EPrint found])%list) in Ev
      by (rewrite length_app; reflexivity).
    rewrite (app_assoc (trace self)), skipn_length_app in Ev.
    now rewrite Ev.
  - intros F. destruct (H F) as [-> O]. split; [reflexivity|].
    unfold outcome_of in *. now rewrite E.
Qed.

Lemma exchange_reads_or_raises child h id method params evs o :
  exchange child h id method params evs o ->
  (reads evs = [] /\ exists e, o = Raise e)
  \/ exists reply tail, reads evs = [reply] /\ answer reply tail o.
Proof.
  intros X. destruct X as [ | | | | r s d H1 H2 H3 H4 H5 t o A ];
    try (left; split; [reflexivity|eauto]).
  right. exists r, t. split; [|assumption]. destruct A; reflexivity.
Qed.

(** The reads of a run from its first step on: none, or one that made the
    call fail, or one on which the call returned. *)
Lemma run_steps_reads (st : step) (rest : list step) (self : MCPTestClient) :
  quiet (st :: rest) ->
  let call := send_request (step_method st) (step_params st) in
  let s1 := log (EPrint (banner st)) self in
  reads (events_by (run_steps (st :: rest) footer) self) = []
  \/ (exists reply tail o,
        reads (events_by (run_steps (st :: rest) footer) self) = [reply]
        /\ answer reply tail o
        /\ forall r, o <> Ret r)
  \/ (exists reply tail r,
        reads (events_by call s1) = [reply]
        /\ answer reply tail (Ret r)
        /\ outcome_of call s1 = Ret r).
Proof.
  intros Q call s1.
  destruct (run_steps_cons st rest footer self Q
              (console_only_extends _ console_only_footer)) as [Ev _].
  cbv zeta in Ev. fold call s1 in Ev.
  destruct (send_request_path s1 (step_method st) (step_params st))
    as [_ X].
  fold call in X.
  destruct (exchange_reads_or_raises _ _ _ _ _ _ _ X)
    as [[R (e & O)]|(reply & tail & R & A)].
  - left. rewrite Ev, O, app_nil_r. exact R.
  - right. destruct (outcome_of call s1) as [r|e|] eqn:O.
    + right. now exists reply, tail, r.
    + left. exists reply, tail, (Raise e). rewrite Ev, app_nil_r.
      repeat split; [exact R|exact A|discriminate].
    + left. exists reply, tail, Hang. rewrite Ev, app_nil_r.
      repeat split; [exact R|exact A|discriminate].
Qed.

(** C7, as the code has it.  Let the second read of the run, which is the
    response to [tools/list], return a line that decodes to a mapping
    whose [result] is a mapping with a list of N entries under [tools].
    Then the run prints the line [   Found N tools:].  When moreover each of
    the first min(N, 5) entries is a mapping whose description, if it has
    one, is a string, the count is followed by one line per such entry,
    made of the entry's name and the first sixty characters of its
    description. *)
Theorem tools_are_listed (self : MCPTestClient) (line : string)
  (fields result_fields : list (string * pyval)) (tools : list pyval) :
  nth_error (reads (events_by run_tests self)) 1 = Some (Got line) ->
  nonempty line = true ->
  json.loads line = Val (PDict fields) ->
  dict_lookup "result" fields = Some (PDict result_fields) ->
  dict_lookup "tools" result_fields = Some (PList tools) ->
  let found :=
    "   Found " ++ decimal (Z.of_nat (List.length tools)) ++ " tools:" in
  (exists before after,
      console (events_by run_tests self) = (before ++ found :: after)%list)
  /\ (forallb listable (firstn 5 tools) = true ->
      exists before after,
        console (events_by run_tests self)
        = (before ++ found :: map listing (firstn 5 tools) ++ after)%list).
Proof.
  intros Hread Hline Hloads Hresult Htools found.
  destruct (run_tests_events self) as (texts & E & _).
  rewrite E in *. clear E.
  rewrite reads_app, reads_prints in Hread. cbn [app] in Hread.
  set (s0 := with_prints self texts) in *.
  pose proof quiet_test_steps as Q. unfold test_steps in Q |- *.
  unfold test_steps in Hread.
  match type of Q with quiet (?a :: ?b :: ?r) =>
    set (st1 := a) in *; set (st2 := b) in *; set (rest := r) in * end.
  assert (Q2 : quiet (st2 :: rest)) by (now inversion Q).
  pose proof (console_only_extends _ console_only_footer) as F.
  (* the first step must have returned *)
  destruct (run_steps_reads st1 (st2 :: rest) s0 Q)
    as [R|[(reply & tail & o & R & _)|(reply1 & tail1 & r1 & R1 & A1 & O1)]];
    try (rewrite R in Hread; discriminate Hread).
  destruct (run_steps_cons st1 (st2 :: rest) footer s0 Q F) as [Ev1 _].
  cbv zeta in Ev1. rewrite O1 in Ev1.
  change (inspect st1 r1) with (ret (A := unit) tt) in Ev1.
  rewrite events_by_ret in Ev1. cbn [app outcome_of ret fst snd] in Ev1.
  set (s2 := snd (send_request (step_method st1) (step_params st1)
                    (log (EPrint (banner st1)) s0))) in *.
  rewrite Ev1 in Hread |- *.
  cbn [reads] in Hread. rewrite reads_app, R1 in Hread.
  cbn [app nth_error] in Hread.
  (* so must the second, on the line of the hypothesis *)
  destruct (run_steps_reads st2 rest s2 Q2)
    as [R|[(reply & tail & o & R & A & N)
          |(reply2 & tail2 & r2 & R2 & A2 & O2)]].
  - rewrite R in Hread. discriminate Hread.
  - exfalso. rewrite R in Hread. injection Hread as ->.
    inversion A as [ | | E | l e' Hl He | l r s Hl Hr Hs ]; subst.
    + discriminate Hline.
    + rewrite Hloads in He. discriminate He.
    + now apply (N r).
  - destruct (run_steps_cons st2 rest footer s2 Q2 F) as [Ev2 _].
    cbv zeta in Ev2. rewrite O2 in Ev2.
    rewrite Ev2 in Hread |- *. cbn [reads] in Hread.
    rewrite reads_app, R2 in Hread. cbn [app] in Hread.
    injection Hread as ->.
    assert (r2 = PDict fields) as ->.
    { inversion A2 as [ | | E | | l r s Hl Hr Hs ]; subst.
      - discriminate Hline.
      - rewrite Hloads in Hr. now injection Hr. }
    change (inspect st2 (PDict fields)) with (list_tools (PDict fields)).
    set (s3 := snd (send_request (step_method st2) (step_params st2)
                      (log (EPrint (banner st2)) s2))) in *.
    destruct (list_tools_found fields result_fields tools s3
                Hresult Htools) as (shown & El & Hl).
    fold found in El. rewrite El.
    repeat first [ rewrite console_app | rewrite console_prints
                 | progress cbn [console app] ].
    set (c1 := console (events_by (send_request (step_method st1)
                                     (step_params st1)) _)).
    set (c2 := console (events_by (send_request (step_method st2)
                                     (step_params st2)) _)).
    set (z := console (match outcome_of (list_tools (PDict fields)) s3 with
                       | Ret _ => _
                       | _ => []
                       end)).
    split.
    + exists (texts ++ banner st1 :: c1 ++ banner st2 :: c2)%list,
             (shown ++ z)%list.
      repeat (rewrite <- app_assoc; cbn [app]). reflexivity.
    + intros L. destruct (Hl L) as [-> _].
      exists (texts ++ banner st1 :: c1 ++ banner st2 :: c2)%list, z.
      repeat (rewrite <- app_assoc; cbn [app]). reflexivity.
Qed.

End RunSteps.

(** ** A session of calls *)

Section Sessions.
Context {J : json.codec}.

Lemma extends_session (calls : list (string * pyval)) :
  extends (session calls).
Proof.
  induction calls as [|[method params] calls IH]; intros self.
  - exists []. simpl. now rewrite app_nil_r.
  - cbn [session].
    destruct (extends_send_request method params self) as [evs E].
    destruct (send_request method params self) as [[r|e|] s1];
      cbn [snd] in *; try (now exists evs);
      destruct (IH s1) as [evs' E']; exists (evs ++ evs')%list;
      now rewrite E', E, app_assoc.
Qed.

Lemma session_cons (method : string) (params : pyval)
  (rest : list (string * pyval)) (self : MCPTestClient) :
  events_by (session ((method, params) :: rest)) self
  = (events_by (send_request method params) self
     ++ match outcome_of (send_request method params) self with
        | Hang => []
        | _ => events_by (session rest)
                 (snd (send_request method params self))
        end)%list.
Proof.
  pose proof (events_by_extends _ self (extends_send_request method params))
    as E1.
  unfold events_by at 1. cbn [session]. unfold outcome_of.
  destruct (send_request method params self) as [[r|e|] s1];
    cbn [fst snd] in *;
    try (rewrite (events_by_extends _ s1 (extends_session rest)), E1,
           <- app_assoc; apply skipn_length_app).
  rewrite E1, app_nil_r. apply skipn_length_app.
Qed.

Lemma sorted_successors (ks : list nat) :
  StronglySorted lt ks -> StronglySorted lt (map S ks).
Proof.
  induction 1 as [|k ks _ IH H]; simpl; constructor; auto.
  apply Forall_map. revert H. apply Forall_impl. intros. lia.
Qed.

(** A session that runs to its end has spent one identifier per call. *)
Lemma session_counter_exact (calls : list (string * pyval)) :
  forall self,
    outcome_of (session calls) self = Ret tt ->
    request_id (snd (session calls self))
    = (request_id self + Z.of_nat (List.length calls))%Z.
Proof.
  induction calls as [|[method params] calls IH]; intros self.
  - simpl. lia.
  - unfold outcome_of. cbn [session].
    pose proof (after_send_request self method params) as S1.
    destruct (send_request method params self) as [[r|e|] s1];
      cbn [fst snd] in *; try discriminate;
      intros O; rewrite (IH s1 O), S1; cbn [request_id after_call List.length];
      lia.
Qed.

(** The documents of a session are the requests of some of its calls, in
    the order of the calls, the call at position [k] (from 0) carrying the
    identifier [id + k]; of all its calls when none is lost. *)
Lemma session_writes (calls : list (string * pyval)) :
  forall self,
  let docs := writes (events_by (session calls) self) in
  let id := request_id self in
  (List.length docs <= List.length calls)%nat
  /\ exists ks,
       StronglySorted lt ks
       /\ Forall2 (fun doc k =>
                     exists method params,
                       nth_error calls k = Some (method, params)
                       /\ wire (request method params (id + Z.of_nat k))
                          = Some doc)
            docs ks
       /\ (List.length docs = List.length calls ->
           ks = seq 0 (List.length calls)).
Proof.
  induction calls as [|[method params] calls IH]; intros self docs id.
  - subst docs. cbn [session]. rewrite events_by_ret.
    split; [reflexivity|]. exists []. repeat constructor.
  - subst docs id. rewrite session_cons, writes_app.
    destruct (send_request_path self method params) as [_ X].
    pose proof (after_send_request self method params) as S1.
    set (s1 := snd (send_request method params self)) in *.
    assert (Rid : request_id s1 = (request_id self + 1)%Z)
      by (now rewrite S1).
    set (tail := match outcome_of (send_request method params) self with
                 | Hang => []
                 | _ => events_by (session calls) s1
                 end).
    assert (T : (List.length (writes tail) <= List.length calls)%nat
                /\ exists ks,
                     StronglySorted lt ks
                     /\ Forall2 (fun doc k =>
                                   exists m p,
                                     nth_error calls k = Some (m, p)
                                     /\ wire (request m p
                                                (request_id self + 1
                                                 + Z.of_nat k))
                                        = Some doc)
                          (writes tail) ks
                     /\ (List.length (writes tail) = List.length calls ->
                         ks = seq 0 (List.length calls))).
    { destruct (IH s1) as (Hlen & Hks). cbv zeta in Hlen, Hks.
      rewrite Rid in Hks. subst tail.
      destruct (outcome_of (send_request method params) self);
        try (split; assumption).
      cbn [writes List.length]. split; [lia|].
      exists []. repeat constructor.
      intros H. destruct calls; [reflexivity|discriminate H]. }
    destruct T as (Hlen & ks & Hsorted & Hdocs & Hall).
    assert (Hdocs' : Forall2 (fun doc k =>
                       exists m p,
                         nth_error ((method, params) :: calls) k = Some (m, p)
                         /\ wire (request m p (request_id self + Z.of_nat k))
                            = Some doc)
                       (writes tail) (map S ks)).
    { clear - Hdocs. induction Hdocs as [|doc k docs ks H _ IH];
        simpl; constructor; auto.
      destruct H as (m & p & Hn & Hw). exists m, p. split; [exact Hn|].
      rewrite <- Hw. do 2 f_equal. lia. }
    cbn [List.length].
    destruct (exchange_writes _ _ _ _ _ _ _ X) as [W|(d & Hd & W)];
      rewrite W; cbn [app List.length].
    + split; [lia|].
      exists (map S ks). split; [now apply sorted_successors|].
      split; [exact Hdocs'|]. lia.
    + assert (Wd : wire (request method params (request_id self + Z.of_nat 0))
                   = Some (d ++ chr newline))
        by (unfold wire; rewrite Z.add_0_r; now rewrite Hd).
      split; [lia|].
      exists (0%nat :: map S ks). split; [|split].
      * constructor; [now apply sorted_successors|].
        apply Forall_map, Forall_forall. intros. lia.
      * constructor; [|exact Hdocs'].
        exists method, params. split; [reflexivity|exact Wd].
      * intros H. cbn [seq]. rewrite <- seq_shift. f_equal. f_equal.
        apply Hall. lia.
Qed.

(** C1, as the code has it.  In a session, the request built by the n-th
    call carries the identifier n: identifiers start at 1 and go up by one
    per call, whether or not the call gets as far as writing its request.
    So a session that runs to its end leaves the counter at one more than
    the number of its calls; the requests actually transmitted are those of
    calls at positions k1 < k2 < ... (counted from 0), the one of position k
    with identifier k + 1, hence identifiers that are at least 1, strictly
    increasing and never used twice; and when every call of the session
    has transmitted its request, the n-th transmitted request is the
    request of the n-th call, with identifier n. *)
Theorem session_identifiers (child : Popen)
  (calls : list (string * pyval)) :
  let final := snd (session calls (__init__ child)) in
  let docs := writes (trace final) in
  (outcome_of (session calls) (__init__ child) = Ret tt ->
   request_id final = (Z.of_nat (List.length calls) + 1)%Z)
  /\ exists ks,
       StronglySorted lt ks
       /\ Forall2 (fun doc k =>
                     exists method params,
                       nth_error calls k = Some (method, params)
                       /\ wire (request method params (Z.of_nat k + 1))
                          = Some doc)
            docs ks
       /\ (List.length docs = List.length calls ->
           ks = seq 0 (List.length calls)).
Proof.
  intros final docs.
  assert (D : docs = writes (events_by (session calls) (__init__ child))).
  { subst docs final.
    rewrite (events_by_extends _ (__init__ child) (extends_session calls)).
    now rewrite writes_app. }
  split.
  - intros O. subst final. rewrite (session_counter_exact calls _ O).
    cbn [request_id __init__]. lia.
  - destruct (session_writes calls (__init__ child))
      as (_ & ks & Hsorted & Hdocs & Hall).
    cbv zeta in Hdocs, Hall. rewrite <- D in Hdocs, Hall.
    exists ks. split; [exact Hsorted|]. split; [|exact Hall].
    revert Hdocs. apply Forall2_impl.
    intros doc k (m & p & Hn & Hw). exists m, p. split; [exact Hn|].
    rewrite <- Hw. do 2 f_equal. cbn [request_id __init__]. lia.
Qed.

End Sessions.

(** ** The claims at work

    Runs of the client with the reference codec against the sample
    children. *)

Section Scenarios.

(** The wire format: one line, fields in the order of the source.  The
    third request of a session carries the identifier 3. *)
Example navigate_on_the_wire :
  writes (events_by
            (call_tool "navigate"
               (PDict [("url", PStr "http://localhost:8081/test")]))
            (snd (session [("initialize", PDict []); ("tools/list", PDict [])]
                    (__init__ closed_child))))
  = [json_text "{`jsonrpc`: `2.0`, `method`: `tools/call`, `params`: {`name`: `navigate`, `arguments`: {`url`: `http://localhost:8081/test`}}, `id`: 3}"
     ++ chr newline].
Proof. vm_compute. reflexivity. Qed.

(** A broken pipe: the call raises and the identifier is spent. *)
Example broken_pipe_spends_identifier :
  outcome_of (send_request "tools/list" (PDict [])) (__init__ deaf_child)
  = Raise (OSError 32)
  /\ request_id (snd (send_request "tools/list" (PDict [])
                        (__init__ deaf_child))) = 2%Z.
Proof. vm_compute. split; reflexivity. Qed.

(** A server that never answers: the call does not return. *)
Example mute_server_blocks :
  outcome_of (send_request "tools/list" (PDict [])) (__init__ mute_child) = Hang
  /\ outcome_of run_tests (__init__ mute_child) = Hang.
Proof. vm_compute. split; reflexivity. Qed.

(** The script against a broken pipe: the first test raises, [cleanup]
    still runs, the exception leaves the script. *)
Example main_on_broken_pipe :
  fst (main deaf_child) = Raise (OSError 32)
  /\ last (trace (snd (main deaf_child))) EInput = ETerminate.
Proof. vm_compute. split; reflexivity. Qed.

(** The end-to-end scenario of the tool listing. *)
Example echo_scenario :
  let evs := events_by run_tests (__init__ echo_server) in
  outcome_of run_tests (__init__ echo_server) = Ret tt
  /\ nth_error (reads evs) 1 = Some (Got echo_line)
  /\ In "   Found 1 tools:" (console evs)
  /\ In "   - navigate: Navigate to a URL..." (console evs).
Proof. vm_compute. intuition. Qed.

(** C1 (counterexample).  The first call is refused by the encoder, since
    its parameters hold a set, and writes nothing; the caller survives the
    [TypeError]; the second call transmits.  The first request on the wire
    carries the identifier 2. *)
Lemma identifier_skips_rejected_call :
  let calls := [("first", PDict [("tags", PObj "{1, 2}" true)]);
                ("second", PDict [])] in
  outcome_of (send_request "first" (PDict [("tags", PObj "{1, 2}" true)]))
    (__init__ closed_child) = Raise TypeError
  /\ writes (trace (snd (session calls (__init__ closed_child))))
     = [json_text "{`jsonrpc`: `2.0`, `method`: `second`, `params`: {}, `id`: 2}"
        ++ chr newline].
Proof. vm_compute. split; reflexivity. Qed.

(** C5 (counterexample).  An empty list supplied as [params] is not what
    the request carries: the field is the empty mapping, on the wire too.
    The same happens to [0], [False], the empty string and [None]. *)
Lemma falsy_params_are_replaced :
  py_getitem (request "ping" (PList []) 1) "params" = Val (PDict [])
  /\ PDict [] <> PList []
  /\ writes (events_by (send_request "ping" (PList []))
               (__init__ closed_child))
     = [json_text "{`jsonrpc`: `2.0`, `method`: `ping`, `params`: {}, `id`: 1}"
        ++ chr newline]
  /\ py_getitem (request "ping" (PInt 0) 1) "params" = Val (PDict [])
  /\ py_getitem (request "ping" (PBool false) 1) "params" = Val (PDict [])
  /\ py_getitem (request "ping" (PStr "") 1) "params" = Val (PDict []).
Proof. vm_compute. repeat split; try reflexivity. discriminate. Qed.

(** C7 (counterexample).  The response to [tools/list] has a result whose
    tools list has one entry, a tool named [navigate] whose description is
    [null].  The run reports the count and then aborts with a [TypeError]
    on the slice of [None]: no line for the tool is printed. *)
Lemma null_description_aborts_listing :
  let self := __init__ (scripted_child [ack_line; null_description_line]) in
  let evs := events_by run_tests self in
  nth_error (reads evs) 1 = Some (Got null_description_line)
  /\ json.loads null_description_line
     = Val (PDict [("jsonrpc", PStr "2.0");
                   ("id", PInt 2);
                   ("result",
                    PDict [("tools",
                            PList [PDict [("name", PStr "navigate");
                                          ("description", PNone)]])])])
  /\ outcome_of run_tests self = Raise TypeError
  /\ last (console evs) "" = "   Found 1 tools:".
Proof. vm_compute. repeat split; reflexivity. Qed.

(** *** Instances of the theorems *)

(** C1 on a session of two calls that both return: the counter ends
    at 3. *)
Lemma session_identifiers_witness :
  outcome_of (session [("initialize", PDict []); ("tools/list", PDict [])])
    (__init__ closed_child) = Ret tt
  /\ request_id
       (snd (session [("initialize", PDict []); ("tools/list", PDict [])]
               (__init__ closed_child)))
     = (Z.of_nat 2 + 1)%Z.
Proof.
  assert (H : outcome_of
                (session [("initialize", PDict []); ("tools/list", PDict [])])
                (__init__ closed_child) = Ret tt)
    by (vm_compute; reflexivity).
  split; [exact H|].
  exact (proj1 (session_identifiers (J := reference_codec) closed_child
                  [("initialize", PDict []); ("tools/list", PDict [])]) H).
Defined.

(** C2 on the [navigate] call of [run_tests], against a closed stream. *)
Lemma call_tool_request_witness :
  let arguments := PDict [("url", PStr "http://localhost:8081/test")] in
  let self := __init__ closed_child in
  outcome_of (call_tool "navigate" arguments) self = Ret empty_dict
  /\ map Some (writes (events_by (call_tool "navigate" arguments) self))
     = [wire (request "tools/call"
                (PDict [("name", PStr "navigate"); ("arguments", arguments)])
                1)].
Proof.
  split; [vm_compute; reflexivity|].
  apply (proj2 (proj2 (proj2
           (call_tool_request (J := reference_codec) (__init__ closed_child) "navigate"
              (PDict [("url", PStr "http://localhost:8081/test")]))))
           empty_dict).
  vm_compute. reflexivity.
Defined.

(** C4 on a [tools/list] call that returns. *)
Lemma one_line_written_one_line_read_witness :
  let self := __init__ closed_child in
  outcome_of (send_request "tools/list" (PDict [])) self = Ret empty_dict
  /\ exists document reply,
       json.dumps None (request "tools/list" (PDict []) (request_id self))
       = Val document
       /\ newline_free document = true
       /\ pipe (events_by (send_request "tools/list" (PDict [])) self)
          = [EWrite (document ++ chr newline); EFlush; EReadline reply].
Proof.
  split; [vm_compute; reflexivity|].
  apply (proj2 (proj2 (one_line_written_one_line_read
                         (J := reference_codec) (__init__ closed_child) "tools/list" (PDict [])))
           empty_dict).
  vm_compute. reflexivity.
Defined.

(** C5 on a non-empty mapping, which is kept, and on the omitted argument,
    which becomes the empty mapping. *)
Lemma params_field_of_request_witness :
  let self := __init__ closed_child in
  let params := PDict [("url", PStr "http://localhost:8081/test")] in
  truthy params = true
  /\ py_getitem (request "navigate" params (request_id self)) "params"
     = Val params
  /\ py_getitem (request "navigate" params_default (request_id self)) "params"
     = Val empty_dict.
Proof.
  split; [|split].
  - reflexivity.
  - exact (proj1 (params_field_of_request (J := reference_codec)
                    (__init__ closed_child) "navigate"
                    (PDict [("url", PStr "http://localhost:8081/test")]))).
  - exact (proj1 (params_field_of_request (J := reference_codec)
                    (__init__ closed_child) "navigate"
                    params_default)).
Defined.

(** C6 on a run that completes: the seven requests, numbered from 1. *)
Lemma run_tests_seven_requests_witness :
  let self := __init__ closed_child in
  outcome_of run_tests self = Ret tt
  /\ map Some (writes (events_by run_tests self))
     = map wire (test_requests 1).
Proof.
  split; [vm_compute; reflexivity|].
  apply (proj2 (proj2 (run_tests_seven_requests (J := reference_codec)
                         (__init__ closed_child)))).
  vm_compute. reflexivity.
Defined.

(** C7 on the echo scenario: the count and the line of the one tool. *)
Lemma tools_are_listed_witness :
  (nth_error (reads (events_by run_tests (__init__ echo_server))) 1
   = Some (Got echo_line)
   /\ nonempty echo_line = true
   /\ json.loads echo_line = Val (PDict echo_fields))
  /\ exists before after,
       console (events_by run_tests (__init__ echo_server))
       = (before ++ "   Found 1 tools:"
            :: ["   - navigate: Navigate to a URL..."] ++ after)%list.
Proof.
  set (tools := [PDict [("name", PStr "navigate");
                        ("description", PStr "Navigate to a URL")]]).
  set (result_fields := [("tools", PList tools)]).
  assert (H1 : nth_error (reads (events_by run_tests (__init__ echo_server))) 1
               = Some (Got echo_line)) by (vm_compute; reflexivity).
  assert (H2 : nonempty echo_line = true) by (vm_compute; reflexivity).
  assert (H3 : json.loads echo_line = Val (PDict echo_fields))
    by (vm_compute; reflexivity).
  assert (H4 : dict_lookup "result" echo_fields = Some (PDict result_fields))
    by (vm_compute; reflexivity).
  assert (H5 : dict_lookup "tools" result_fields = Some (PList tools))
    by (vm_compute; reflexivity).
  assert (H6 : forallb listable (firstn 5 tools) = true)
    by (vm_compute; reflexivity).
  split; [auto|].
  pose proof (tools_are_listed (J := reference_codec)
                (__init__ echo_server) echo_line echo_fields
                result_fields tools H1 H2 H3 H4 H5) as H.
  cbv zeta in H. destruct H as [_ H].
  destruct (H H6) as (before & after & E).
  exists before, after. rewrite E. vm_compute. reflexivity.
Defined.

(** C8 on a line that is not JSON. *)
Lemma invalid_response_raises_witness :
  (nonempty ("not json" ++ chr newline) = true
   /\ json.loads ("not json" ++ chr newline) = Exc JSONDecodeError
   /\ In (EReadline (Got ("not json" ++ chr newline)))
        (events_by (send_request "tools/list" (PDict []))
           (__init__ (scripted_child ["not json" ++ chr newline]))))
  /\ outcome_of (send_request "tools/list" (PDict []))
       (__init__ (scripted_child ["not json" ++ chr newline]))
     = Raise JSONDecodeError.
Proof.
  assert (H1 : nonempty ("not json" ++ chr newline) = true)
    by reflexivity.
  assert (H2 : json.loads ("not json" ++ chr newline) = Exc JSONDecodeError)
    by (vm_compute; reflexivity).
  assert (H3 : In (EReadline (Got ("not json" ++ chr newline)))
                 (events_by (send_request "tools/list" (PDict []))
                    (__init__ (scripted_child ["not json" ++ chr newline]))))
    by (vm_compute; tauto).
  split; [auto|].
  exact (proj1 (invalid_response_raises (J := reference_codec)
                  (__init__ (scripted_child ["not json" ++ chr newline]))
                  "tools/list" (PDict []) ("not json" ++ chr newline)
                  JSONDecodeError H1 H2 H3)).
Defined.

(** C9: the request with identifier 2 is answered with a response whose
    [id] is 1, and the response is returned. *)
Lemma response_returned_whatever_its_id_witness :
  let self :=
    snd (send_request "initialize" (PDict [])
           (__init__ (scripted_child [ack_line; echo_line]))) in
  request_id self = 2%Z
  /\ py_getitem (PDict echo_fields) "id" = Val (PInt 1)
  /\ (nonempty echo_line = true
      /\ json.loads echo_line = Val (PDict echo_fields)
      /\ In (EReadline (Got echo_line))
           (events_by (send_request "tools/list" (PDict [])) self))
  /\ outcome_of (send_request "tools/list" (PDict [])) self
     = Ret (PDict echo_fields).
Proof.
  intros self.
  assert (H0 : request_id self = 2%Z) by (vm_compute; reflexivity).
  assert (H1 : nonempty echo_line = true) by (vm_compute; reflexivity).
  assert (H2 : json.loads echo_line = Val (PDict echo_fields))
    by (vm_compute; reflexivity).
  assert (H3 : In (EReadline (Got echo_line))
                 (events_by (send_request "tools/list" (PDict [])) self))
    by (vm_compute; tauto).
  split; [exact H0|]. split; [reflexivity|]. split; [auto|].
  exact (proj1 (response_returned_whatever_its_id (J := reference_codec) self
                  "tools/list" (PDict []) echo_line (PDict echo_fields)
                  H1 H2 H3)).
Defined.

(** C10 against a broken pipe: the call raises and the counter has moved. *)
Lemma identifier_consumed_before_io_witness :
  let self := __init__ deaf_child in
  outcome_of (send_request "tools/list" (PDict [])) self = Raise (OSError 32)
  /\ request_id (snd (send_request "tools/list" (PDict []) self)) = 2%Z.
Proof.
  split; [vm_compute; reflexivity|].
  exact (proj1 (identifier_consumed_before_io (J := reference_codec)
                  (__init__ deaf_child)
                  "tools/list" (PDict []))).
Defined.

End Scenarios.

(** * Further properties of the client *)

(** ** The run as a relation *)

Section Runs.
Context {J : json.codec}.

Lemma run_steps_ran (steps : list step) :
  quiet steps ->
  forall self,
    ran steps self
      (events_by (run_steps steps footer) self)
      (outcome_of (run_steps steps footer) self)
      (snd (run_steps steps footer self)).
Proof.
  intros Q. induction Q as [|st rest Hst Q IH]; intros self.
  - cbn [run_steps]. unfold footer. rewrite events_by_print.
    apply ran_footer.
  - destruct (run_steps_cons st rest footer self) as [Ev Out];
      [now constructor|apply console_only_extends, console_only_footer|].
    cbv zeta in Ev, Out. rewrite Ev, Out. clear Ev Out.
    assert (St : snd (run_steps (st :: rest) footer self)
                 = match outcome_of (send_request (step_method st)
                                       (step_params st))
                           (log (EPrint (banner st)) self) with
                   | Ret r =>
                       match outcome_of (inspect st r)
                               (snd (send_request (step_method st)
                                       (step_params st)
                                       (log (EPrint (banner st)) self))) with
                       | Ret _ =>
                           snd (run_steps rest footer
                                  (snd (inspect st r
                                          (snd (send_request (step_method st)
                                                  (step_params st)
                                                  (log (EPrint (banner st))
                                                     self)))))) 
                       | _ =>
                           snd (inspect st r
                                  (snd (send_request (step_method st)
                                          (step_params st)
                                          (log (EPrint (banner st)) self))))
                       end
                   | _ =>
                       snd (send_request (step_method st) (step_params st)
                              (log (EPrint (banner st)) self))
                   end).
    { cbn [run_steps]. rewrite after_bind. cbn [outcome_of print fst snd].
      rewrite after_bind.
      destruct (outcome_of (send_request _ _) _); try reflexivity.
      now rewrite after_bind. }
    rewrite St. clear St.
    set (s1 := log (EPrint (banner st)) self).
    set (call := send_request (step_method st) (step_params st)).
    destruct (send_request_path s1 (step_method st) (step_params st))
      as [_ X].
    pose proof (after_send_request s1 (step_method st) (step_params st))
      as S2.
    fold call in X, S2.
    assert (P : pipe (trace s1) = pipe (trace self)).
    { subst s1. cbn [log trace]. rewrite pipe_app. simpl.
      apply app_nil_r. }
    rewrite P in X.
    change (process s1) with (process self) in X.
    change (request_id s1) with (request_id self) in X.
    rewrite S2.
    destruct (outcome_of call s1) as [r|e|].
    + destruct (Hst r (after_call s1 (events_by call s1)))
        as (texts & Si & NH).
      destruct (events_by_console_only (inspect st r)
                  (after_call s1 (events_by call s1)) (Hst r))
        as (texts' & Ei & Si').
      assert (texts' = texts) as ->.
      { rewrite Si in Si'. unfold with_prints in Si'.
        injection Si' as Si'. apply app_inv_head in Si'.
        clear - Si'. revert texts' Si'.
        induction texts as [|t texts IH]; intros [|t' texts'] H;
          try discriminate; [reflexivity|].
        injection H as -> H. f_equal. now apply IH. }
      rewrite Ei.
      destruct (outcome_of (inspect st r) (after_call s1 (events_by call s1)))
        as [[]|e|] eqn:Oi.
      * assert (I : inspect st r (after_call s1 (events_by call s1))
                    = (Ret tt,
                       with_prints (after_call s1 (events_by call s1)) texts)).
        { unfold outcome_of in Oi.
          destruct (inspect st r (after_call s1 (events_by call s1)))
            as [oi si]. simpl in Oi, Si. now subst. }
        rewrite Si. eapply ran_next; [exact X|exact I|].
        apply IH.
      * assert (I : inspect st r (after_call s1 (events_by call s1))
                    = (Raise e,
                       with_prints (after_call s1 (events_by call s1)) texts)).
        { unfold outcome_of in Oi.
          destruct (inspect st r (after_call s1 (events_by call s1)))
            as [oi si]. simpl in Oi, Si. now subst. }
        rewrite Si, app_nil_r. eapply ran_inspect_raised; [exact X|exact I].
      * contradiction.
    + rewrite app_nil_r. now apply ran_call_raised.
    + rewrite app_nil_r. now apply ran_call_blocked.
Qed.

Lemma with_prints_nil (self : MCPTestClient) : with_prints self [] = self.
Proof. destruct self. unfold with_prints. simpl. now rewrite app_nil_r. Qed.

Lemma with_prints_app (self : MCPTestClient) (a b : list string) :
  with_prints (with_prints self a) b = with_prints self (a ++ b).
Proof.
  unfold with_prints. simpl. now rewrite map_app, app_assoc.
Qed.

Lemma with_prints_inj (self : MCPTestClient) (a b : list string) :
  with_prints self a = with_prints self b -> a = b.
Proof.
  unfold with_prints. intros H. injection H as H. apply app_inv_head in H.
  revert b H. induction a as [|t a IH]; intros [|t' b] H;
    try discriminate; [reflexivity|].
  injection H as -> H. f_equal. now apply IH.
Qed.

Lemma pipe_prints (texts : list string) : pipe (map EPrint texts) = [].
Proof. induction texts; simpl; auto. Qed.

Lemma header_runs (self : MCPTestClient) :
  header self = (Ret tt, with_prints self header_texts).
Proof.
  unfold header, bind, print, log, with_prints, header_texts. simpl.
  now rewrite <- !app_assoc.
Qed.

(** The run is the three lines of the header, then the run of the seven
    steps. *)
Lemma run_tests_ran (self : MCPTestClient) :
  exists evs,
    events_by run_tests self = (map EPrint header_texts ++ evs)%list
    /\ ran test_steps (with_prints self header_texts) evs
         (outcome_of run_tests self) (snd (run_tests self)).
Proof.
  set (s0 := with_prints self header_texts).
  assert (E : run_tests self = run_steps test_steps footer s0).
  { rewrite run_tests_as_steps. unfold bind. now rewrite header_runs. }
  exists (events_by (run_steps test_steps footer) s0). split.
  - unfold events_by at 1. rewrite E.
    rewrite (events_by_extends (run_steps test_steps footer) s0)
      by (apply extends_run_steps;
          [apply quiet_test_steps
          |apply console_only_extends, console_only_footer]).
    subst s0. cbn [with_prints trace]. rewrite <- app_assoc.
    apply skipn_length_app.
  - unfold outcome_of at 1. rewrite E.
    apply (run_steps_ran test_steps quiet_test_steps s0).
Qed.

(** *** What every run keeps *)

Lemma ran_counter steps self evs o self' :
  ran steps self evs o self' ->
  (request_id self <= request_id self'
   <= request_id self + Z.of_nat (List.length steps))%Z
  /\ (Z.of_nat (List.length (writes evs))
      <= request_id self' - request_id self)%Z
  /\ (o = Ret tt ->
      request_id self'
      = (request_id self + Z.of_nat (List.length steps))%Z).
Proof.
  induction 1 as [ self
                 | st rest self evs e X
                 | st rest self evs X
                 | st rest self evs response texts e X I
                 | st rest self evs response texts evs' o self' X I R IH ].
  - simpl. repeat split; lia.
  - cbn [writes request_id after_call log List.length].
    destruct (exchange_writes _ _ _ _ _ _ _ X) as [W|(d & _ & W)];
      rewrite W; simpl; repeat split; try lia; discriminate.
  - cbn [writes request_id after_call log List.length].
    destruct (exchange_writes _ _ _ _ _ _ _ X) as [W|(d & _ & W)];
      rewrite W; simpl; repeat split; try lia; discriminate.
  - cbn [writes request_id after_call with_prints log List.length].
    rewrite writes_app, writes_prints, app_nil_r.
    destruct (exchange_writes _ _ _ _ _ _ _ X) as [W|(d & _ & W)];
      rewrite W; simpl; repeat split; try lia; discriminate.
  - cbn [writes List.length].
    rewrite !writes_app, writes_prints, length_app.
    cbn [request_id with_prints after_call log app] in IH.
    destruct (exchange_returns _ _ _ _ _ _ _ X) as (d & rp & _ & _ & W & _).
    rewrite W. cbn [List.length app].
    destruct IH as (B & Wr & C). repeat split; try lia.
    intros O. rewrite (C O). lia.
Qed.

Lemma exchange_lockstep child h id method params evs o :
  exchange child h id method params evs o ->
  lockstep 0 (pipe evs) = true
  /\ forall response, o = Ret response ->
       forall ops, lockstep 0 (pipe evs ++ ops) = lockstep 0 ops.
Proof.
  intros X. destruct X as [ | | | | r s d H1 H2 H3 H4 H5 t o A ];
    try (split; [reflexivity|intros ? [=]]).
  destruct A; (split; [reflexivity|]); intros ? [=]; reflexivity.
Qed.

Lemma ran_lockstep steps self evs o self' :
  ran steps self evs o self' -> lockstep 0 (pipe evs) = true.
Proof.
  induction 1 as [ self
                 | st rest self evs e X
                 | st rest self evs X
                 | st rest self evs response texts e X I
                 | st rest self evs response texts evs' o self' X I R IH ].
  - reflexivity.
  - cbn [pipe filter on_pipe]. apply (exchange_lockstep _ _ _ _ _ _ _ X).
  - cbn [pipe filter on_pipe]. apply (exchange_lockstep _ _ _ _ _ _ _ X).
  - cbn [pipe filter on_pipe]. fold (pipe (evs ++ map EPrint texts)).
    rewrite pipe_app, pipe_prints, app_nil_r.
    apply (exchange_lockstep _ _ _ _ _ _ _ X).
  - cbn [pipe filter on_pipe].
    fold (pipe (evs ++ map EPrint texts ++ evs')).
    rewrite !pipe_app, pipe_prints. cbn [app].
    rewrite (proj2 (exchange_lockstep _ _ _ _ _ _ _ X) response eq_refl).
    exact IH.
Qed.

Lemma lockstep_no_terminate (ops : list event) :
  forall phase, lockstep phase ops = true -> ~ In ETerminate ops.
Proof.
  induction ops as [|op ops IH]; intros phase H; [intros []|].
  intros [E|Hin]; simpl in *.
  - subst op. destruct phase as [|[|[|]]]; discriminate H.
  - destruct phase as [|[|[|]]]; destruct op; try discriminate H;
      eapply IH; eauto.
Qed.

Lemma ran_never_terminates steps self evs o self' :
  ran steps self evs o self' -> ~ In ETerminate evs.
Proof.
  intros R Hin.
  apply (lockstep_no_terminate (pipe evs) 0 (ran_lockstep _ _ _ _ _ R)).
  apply filter_In. split; [exact Hin|reflexivity].
Qed.

Lemma exchange_no_footer child h id method params evs o :
  exchange child h id method params evs o ->
  existsb is_footer evs = false.
Proof.
  intros X. destruct X as [ | | | | r s d H1 H2 H3 H4 H5 t o A ];
    try (vm_compute; reflexivity).
  destruct A; vm_compute; reflexivity.
Qed.

Lemma inspect_events (st : step) (response : pyval) (self : MCPTestClient)
  (o : outcome unit) (texts : list string) :
  inspect st response self = (o, with_prints self texts) ->
  events_by (inspect st response) self = map EPrint texts.
Proof.
  intros I. unfold events_by. rewrite I. cbn [snd with_prints trace].
  apply skipn_length_app.
Qed.

(** The closing line is printed by the runs that return, as their last
    effect, and by no other. *)
Lemma ran_footer_line steps self evs o self' :
  discreet steps ->
  ran steps self evs o self' ->
  (o = Ret tt
   /\ exists pre, evs = (pre ++ [EPrint footer_text])%list
                  /\ existsb is_footer pre = false)
  \/ (o <> Ret tt /\ existsb is_footer evs = false).
Proof.
  intros D R. revert D.
  induction R as [ self
                 | st rest self evs e X
                 | st rest self evs X
                 | st rest self evs response texts e X I
                 | st rest self evs response texts evs' o self' X I R IH ];
    intros D.
  - left. split; [reflexivity|]. exists []. split; reflexivity.
  - right. split; [discriminate|]. inversion D as [|? ? [Hb _] _]; subst.
    cbn [existsb]. rewrite Hb. apply (exchange_no_footer _ _ _ _ _ _ _ X).
  - right. split; [discriminate|]. inversion D as [|? ? [Hb _] _]; subst.
    cbn [existsb]. rewrite Hb. apply (exchange_no_footer _ _ _ _ _ _ _ X).
  - right. split; [discriminate|]. inversion D as [|? ? [Hb Hi] _]; subst.
    cbn [existsb]. rewrite Hb, existsb_app.
    rewrite (exchange_no_footer _ _ _ _ _ _ _ X).
    rewrite <- (inspect_events _ _ _ _ _ I). apply Hi.
  - inversion D as [|? ? [Hb Hi] D']; subst.
    assert (P : existsb is_footer
                  (EPrint (banner st) :: evs ++ map EPrint texts) = false).
    { cbn [existsb]. rewrite Hb, existsb_app.
      rewrite (exchange_no_footer _ _ _ _ _ _ _ X).
      rewrite <- (inspect_events _ _ _ _ _ I). apply Hi. }
    destruct (IH D') as [(-> & pre & -> & F)|[N F]].
    + left. split; [reflexivity|].
      exists ((EPrint (banner st) :: evs ++ map EPrint texts) ++ pre)%list.
      split.
      * cbn [app]. now rewrite <- !app_assoc.
      * now rewrite existsb_app, P, F.
    + right. split; [exact N|].
      replace (EPrint (banner st) :: evs ++ map EPrint texts ++ evs')%list
        with ((EPrint (banner st) :: evs ++ map EPrint texts) ++ evs')%list
        by (cbn [app]; now rewrite <- app_assoc).
      now rewrite existsb_app, P, F.
Qed.

(** *** The listing of the tools *)

Lemma substring_length_le (n : nat) :
  forall s, String.length (substring 0 n s) <= n.
Proof.
  induction n as [|n IH]; intros [|c s]; simpl; try lia.
  specialize (IH s). lia.
Qed.

Lemma substring_split (n : nat) :
  forall s, exists rest,
    s = substring 0 n s ++ rest
    /\ String.length (substring 0 n s) = Nat.min n (String.length s).
Proof.
  induction n as [|n IH]; intros [|c s]; simpl.
  - exists "". auto.
  - exists (String c s). auto.
  - exists "". auto.
  - destruct (IH s) as (rest & E & L). exists rest. split.
    + now rewrite <- E.
    + now rewrite L.
Qed.

Lemma first_five_items (tools first_five : pyval) (items : list pyval) :
  py_slice 5 tools = Val first_five ->
  py_iter first_five = Val items ->
  List.length items <= 5.
Proof.
  destruct tools; try discriminate; intros [= <-] [= <-].
  - rewrite length_map. unfold str_prefix.
    rewrite <- (substring_length_le 5 s) at 2.
    clear. induction (substring 0 5 s); simpl; lia.
  - apply (firstn_le_length 5).
Qed.

Lemma tool_line_indented (tool : pyval) (line : string) :
  tool_line tool = Val line -> indented line.
Proof.
  unfold tool_line, and_then.
  destruct (py_get tool "name" PNone); [|discriminate].
  destruct (py_get tool "description" (PStr "")); [|discriminate].
  destruct (py_slice 60 _); [|discriminate].
  intros [= <-]. eexists. reflexivity.
Qed.

Lemma show_tool_prints (tool : pyval) (self : MCPTestClient) :
  exists texts,
    show_tool tool self
    = (outcome_of (show_tool tool) self, with_prints self texts)
    /\ List.length texts <= 1
    /\ Forall indented texts.
Proof.
  unfold outcome_of, show_tool, bind, lift, print.
  destruct (tool_line tool) as [line|e] eqn:T.
  - exists [line]. split; [reflexivity|]. split; [simpl; lia|].
    constructor; [|constructor]. apply (tool_line_indented _ _ T).
  - exists []. rewrite with_prints_nil. split; [reflexivity|].
    split; [simpl; lia|constructor].
Qed.

Lemma for_each_prints (items : list pyval) :
  forall self, exists texts,
    for_each items show_tool self
    = (outcome_of (for_each items show_tool) self, with_prints self texts)
    /\ List.length texts <= List.length items
    /\ Forall indented texts.
Proof.
  induction items as [|tool items IH]; intros self.
  - exists []. rewrite with_prints_nil. split; [reflexivity|].
    split; [simpl; lia|constructor].
  - destruct (show_tool_prints tool self) as (t1 & E1 & L1 & F1).
    unfold outcome_of in *. cbn [for_each]. unfold bind.
    rewrite E1. destruct (fst (show_tool tool self)) as [[]|e|].
    + destruct (IH (with_prints self t1)) as (t2 & E2 & L2 & F2).
      exists (t1 ++ t2)%list. rewrite E2, with_prints_app.
      split; [reflexivity|]. split.
      * rewrite length_app. simpl. lia.
      * apply Forall_app; auto.
    + exists t1. split; [reflexivity|]. split; [simpl; lia|exact F1].
    + exists t1. split; [reflexivity|]. split; [simpl; lia|exact F1].
Qed.

Lemma list_tools_prints (response : pyval) (self : MCPTestClient) :
  exists texts,
    list_tools response self
    = (outcome_of (list_tools response) self, with_prints self texts)
    /\ List.length texts <= 6
    /\ Forall indented texts.
Proof.
  assert (Z0 : exists texts : list string,
             self = with_prints self texts
             /\ List.length texts <= 6 /\ Forall indented texts).
  { exists []. rewrite with_prints_nil. split; [reflexivity|].
    split; [simpl; lia|constructor]. }
  unfold outcome_of, list_tools, bind, lift, print, ret.
  destruct (py_in "result" response) as [[|]|e];
    [| |]; cbn [fst];
    try (destruct Z0 as (t & E & H); exists t; split;
         [now rewrite <- E|exact H]).
  destruct (py_getitem response "result") as [result|e]; cbn [fst];
    try (destruct Z0 as (t & E & H); exists t; split;
         [now rewrite <- E|exact H]).
  destruct (py_get result "tools" (PList [])) as [tools|e]; cbn [fst];
    try (destruct Z0 as (t & E & H); exists t; split;
         [now rewrite <- E|exact H]).
  destruct (py_len tools) as [count|e]; cbn [fst];
    try (destruct Z0 as (t & E & H); exists t; split;
         [now rewrite <- E|exact H]).
  set (found := "   Found " ++ py_str (PInt count) ++ " tools:").
  assert (Fi : indented found) by (eexists; reflexivity).
  change (log (EPrint found) self) with (with_prints self [found]).
  destruct (py_slice 5 tools) as [first_five|e] eqn:S5; cbn [fst];
    [|exists [found]; split; [reflexivity|];
      split; [simpl; lia|constructor; [exact Fi|constructor]]].
  destruct (py_iter first_five) as [items|e] eqn:It; cbn [fst];
    [|exists [found]; split; [reflexivity|];
      split; [simpl; lia|constructor; [exact Fi|constructor]]].
  destruct (for_each_prints items (with_prints self [found]))
    as (t & E & L & F).
  exists (found :: t). unfold outcome_of in E. rewrite E, with_prints_app.
  split; [reflexivity|]. split.
  - pose proof (first_five_items _ _ _ S5 It). simpl. lia.
  - constructor; assumption.
Qed.

Lemma indented_no_footer (texts : list string) :
  Forall indented texts -> existsb is_footer (map EPrint texts) = false.
Proof.
  induction 1 as [|t texts [rest ->] _ IH]; [reflexivity|].
  cbn [map existsb]. rewrite IH. reflexivity.
Qed.

Lemma discreet_test_steps : discreet test_steps.
Proof.
  assert (Ig : forall response self,
             existsb is_footer (events_by (ignore response) self) = false).
  { intros response self. unfold ignore. now rewrite events_by_ret. }
  assert (Li : forall response self,
             existsb is_footer (events_by (list_tools response) self) = false).
  { intros response self.
    destruct (list_tools_prints response self) as (texts & E & _ & F).
    unfold events_by. rewrite E. cbn [snd with_prints trace].
    rewrite skipn_length_app. now apply indented_no_footer. }
  unfold discreet, test_steps.
  repeat (apply Forall_cons; [split; [vm_compute; reflexivity|assumption]|]).
  apply Forall_nil.
Qed.

Lemma ran_process steps self evs o self' :
  ran steps self evs o self' -> process self' = process self.
Proof.
  induction 1 as [ self
                 | st rest self evs e X
                 | st rest self evs X
                 | st rest self evs response texts e X I
                 | st rest self evs response texts evs' o self' X I R IH ];
    try reflexivity.
  exact IH.
Qed.

Lemma ran_starts st rest self evs o self' :
  ran (st :: rest) self evs o self' ->
  exists tl, evs = EPrint (banner st) :: tl.
Proof. intros R. inversion R; subst; eauto. Qed.

Lemma run_tests_trace (self : MCPTestClient) :
  trace (snd (run_tests self))
  = (trace self ++ events_by run_tests self)%list.
Proof.
  apply events_by_extends. intros s. rewrite run_tests_as_steps.
  apply extends_bind;
    [apply console_only_extends, console_only_header|intros _].
  apply extends_run_steps;
    [apply quiet_test_steps|apply console_only_extends, console_only_footer].
Qed.

Lemma run_tests_never_terminates (self : MCPTestClient) :
  ~ In ETerminate (events_by run_tests self).
Proof.
  destruct (run_tests_ran self) as (evs & -> & R). intros H.
  apply in_app_or in H. destruct H as [H|H].
  - apply in_map_iff in H. destruct H as (t & [=] & _).
  - exact (ran_never_terminates _ _ _ _ _ R H).
Qed.

Lemma exchange_got child h id method params evs o line response :
  exchange child h id method params evs o ->
  nth_error (reads evs) 0 = Some (Got line) ->
  nonempty line = true ->
  json.loads line = Val response ->
  exists pre shown,
    json.dumps (Some 2) response = Val shown
    /\ evs = (pre ++ [EReadline (Got line); ev_response shown])%list
    /\ List.length (writes pre) = 1
    /\ o = Ret response.
Proof.
  intros X Hread Hline Hloads.
  destruct X as [ | | | | r s d H1 H2 H3 H4 H5 t o A ];
    try discriminate Hread.
  destruct A as [ | e | | l e Hl He | l resp sh Hl Hr Hs ];
    cbn in Hread; injection Hread as Hread; try discriminate Hread.
  - subst line. discriminate Hline.
  - subst l. congruence.
  - subst l. rewrite Hloads in Hr. injection Hr as <-.
    exists [ESetId (id + 1); ev_sending method; ev_params s;
            EWrite (d ++ chr newline); EFlush], sh.
    repeat split; assumption.
Qed.

(** The second read of a run of two steps or more, when it returns a line
    that decodes: two requests have been written, the response is shown
    and handed to the second step's inspection, and the run goes on as
    that inspection ends. *)
Lemma ran_second_response st1 st2 rest self evs o self' line response :
  ran (st1 :: st2 :: rest) self evs o self' ->
  nth_error (reads evs) 1 = Some (Got line) ->
  nonempty line = true ->
  json.loads line = Val response ->
  exists before shown s2 after,
    json.dumps (Some 2) response = Val shown
    /\ List.length (writes before) = 2
    /\ evs = (before ++ EReadline (Got line) :: ev_response shown :: after)%list
    /\ ((exists texts e,
            inspect st2 response s2 = (Raise e, with_prints s2 texts)
            /\ after = map EPrint texts /\ o = Raise e)
        \/ (exists texts evs',
               inspect st2 response s2 = (Ret tt, with_prints s2 texts)
               /\ after = (map EPrint texts ++ evs')%list
               /\ ran rest (with_prints s2 texts) evs' o self')).
Proof.
  intros R Hread Hline Hloads.
  assert (One : forall child h id m p evs o,
             exchange child h id m p evs o ->
             nth_error (reads evs) 1 = None).
  { intros child h id m p evs0 o0 X.
    destruct (exchange_reads _ _ _ _ _ _ _ X) as [->|(rp & tl & -> & _)];
      reflexivity. }
  inversion R as [ | ? ? ? evs1 e X1 | ? ? ? evs1 X1
                   | ? ? ? evs1 r1 t1 e X1 I1
                   | ? ? ? evs1 r1 t1 evs2 ? ? X1 I1 R2 ]; subst;
    cbn [reads filter] in Hread;
    try (fold (reads evs1) in Hread; rewrite (One _ _ _ _ _ _ _ X1) in Hread;
         discriminate Hread).
  - fold (reads (evs1 ++ map EPrint t1)) in Hread.
    rewrite reads_app, reads_prints, app_nil_r in Hread.
    rewrite (One _ _ _ _ _ _ _ X1) in Hread. discriminate Hread.
  - fold (reads (evs1 ++ map EPrint t1 ++ evs2)) in Hread.
    rewrite !reads_app, reads_prints in Hread. cbn [app] in Hread.
    destruct (exchange_returns _ _ _ _ _ _ _ X1) as (d1 & rp1 & _ & _ & W1 & R1).
    rewrite R1 in Hread. cbn [app nth_error] in Hread.
    set (s1 := with_prints
                 (after_call (log (EPrint (banner st1)) self) evs1) t1) in *.
    set (head := (EPrint (banner st1) :: evs1 ++ map EPrint t1)%list).
    assert (Wh : List.length (writes head) = 1).
    { subst head. cbn [writes filter]. fold (writes (evs1 ++ map EPrint t1)).
      now rewrite writes_app, writes_prints, app_nil_r, W1. }
    inversion R2 as [ | ? ? ? evs3 e X2 | ? ? ? evs3 X2
                      | ? ? ? evs3 r2 t2 e X2 I2
                      | ? ? ? evs3 r2 t2 evs4 ? ? X2 I2 R3 ]; subst;
      cbn [reads filter] in Hread.
    + fold (reads evs3) in Hread.
      destruct (exchange_got _ _ _ _ _ _ _ _ _ X2 Hread Hline Hloads)
        as (_ & _ & _ & _ & _ & [=]).
    + fold (reads evs3) in Hread.
      destruct (exchange_got _ _ _ _ _ _ _ _ _ X2 Hread Hline Hloads)
        as (_ & _ & _ & _ & _ & [=]).
    + fold (reads (evs3 ++ map EPrint t2)) in Hread.
      rewrite reads_app, reads_prints, app_nil_r in Hread.
      destruct (exchange_got _ _ _ _ _ _ _ _ _ X2 Hread Hline Hloads)
        as (pre & shown & Hs & -> & Wp & [= ->]).
      exists (head ++ EPrint (banner st2) :: pre)%list, shown.
      eexists. exists (map EPrint t2). split; [exact Hs|]. split.
      { rewrite writes_app, length_app, Wh. cbn [writes filter].
        fold (writes pre). now rewrite Wp. }
      split.
      { subst head. cbn [app]. rewrite <- !app_assoc. reflexivity. }
      left. exists t2, e. split; [exact I2|]. split; reflexivity.
    + fold (reads (evs3 ++ map EPrint t2 ++ evs4)) in Hread.
      destruct (exchange_returns _ _ _ _ _ _ _ X2) as (d2 & rp2 & _ & _ & _ & R2').
      assert (Hread' : nth_error (reads evs3) 0 = Some (Got line)).
      { rewrite reads_app, R2' in Hread. rewrite R2'. exact Hread. }
      destruct (exchange_got _ _ _ _ _ _ _ _ _ X2 Hread' Hline Hloads)
        as (pre & shown & Hs & -> & Wp & [= ->]).
      exists (head ++ EPrint (banner st2) :: pre)%list, shown.
      eexists. exists (map EPrint t2 ++ evs4)%list.
      split; [exact Hs|]. split.
      { rewrite writes_app, length_app, Wh. cbn [writes filter].
        fold (writes pre). now rewrite Wp. }
      split.
      { subst head. cbn [app]. rewrite <- !app_assoc. reflexivity. }
      right. exists t2, evs4. split; [exact I2|]. split; [reflexivity|].
      exact R3.
Qed.

Lemma request_plain (method : string) (params : pyval) (id : Z) :
  plain params = true -> plain (request method params id) = true.
Proof.
  intros H. unfold request, py_or. cbn [plain forallb].
  destruct (truthy params); [rewrite H|]; reflexivity.
Qed.

(** A call whose parameters are JSON values gets as far as its write. *)
Lemma exchange_writes_plain child h id method params evs o :
  plain params = true ->
  exchange child h id method params evs o ->
  List.length (writes evs) = 1.
Proof.
  intros H X.
  destruct X as [ e H1 | s e H1 H2 | s d e H1 H2 H3
                | s d e H1 H2 H3 H4 | r s d H1 H2 H3 H4 H5 t o A ];
    try reflexivity.
  - destruct (json.dumps_plain (Some 2) params H) as [t E]. congruence.
  - destruct (json.dumps_plain None _ (request_plain method params id H))
      as [t E]. congruence.
  - destruct A; reflexivity.
Qed.

Lemma ran_writes_exact steps self evs o self' :
  serialisable steps ->
  ran steps self evs o self' ->
  Z.of_nat (List.length (writes evs))
  = (request_id self' - request_id self)%Z.
Proof.
  intros S R. revert S.
  induction R as [ self
                 | st rest self evs e X
                 | st rest self evs X
                 | st rest self evs response texts e X I
                 | st rest self evs response texts evs' o self' X I R IH ];
    intros S.
  - cbn. lia.
  - inversion S as [|? ? P _]; subst.
    cbn [writes filter]. fold (writes evs).
    rewrite (exchange_writes_plain _ _ _ _ _ _ _ P X).
    cbn [request_id after_call log]. lia.
  - inversion S as [|? ? P _]; subst.
    cbn [writes filter]. fold (writes evs).
    rewrite (exchange_writes_plain _ _ _ _ _ _ _ P X).
    cbn [request_id after_call log]. lia.
  - inversion S as [|? ? P _]; subst.
    cbn [writes filter]. fold (writes (evs ++ map EPrint texts)).
    rewrite writes_app, writes_prints, app_nil_r.
    rewrite (exchange_writes_plain _ _ _ _ _ _ _ P X).
    cbn [request_id after_call with_prints log]. lia.
  - inversion S as [|? ? P S']; subst.
    cbn [writes filter]. fold (writes (evs ++ map EPrint texts ++ evs')).
    rewrite !writes_app, writes_prints, length_app.
    rewrite (exchange_writes_plain _ _ _ _ _ _ _ P X).
    specialize (IH S').
    cbn [request_id after_call with_prints log app] in IH.
    cbn [app]. lia.
Qed.

Lemma flushes_app (a b : list event) :
  flushes (a ++ b) = (flushes a ++ flushes b)%list.
Proof. apply filter_app. Qed.

Lemma flushes_prints (texts : list string) : flushes (map EPrint texts) = [].
Proof. induction texts; simpl; auto. Qed.

(** A call flushes at most once, and once when it returns. *)
Lemma exchange_flushes child h id method params evs o :
  exchange child h id method params evs o ->
  List.length (flushes evs) <= 1
  /\ forall response, o = Ret response -> List.length (flushes evs) = 1.
Proof.
  intros X.
  destruct X as [ e H1 | s e H1 H2 | s d e H1 H2 H3
                | s d e H1 H2 H3 H4 | r s d H1 H2 H3 H4 H5 t o A ];
    try (split; [cbn; lia|intros ? [=]]).
  destruct A; (split; [cbn; lia|intros ? [=]; reflexivity]).
Qed.

(** In a run whose parameters are JSON values every write but the last
    has been followed by its flush, and the last one too when the run
    returns. *)
Lemma ran_flushes steps self evs o self' :
  serialisable steps ->
  ran steps self evs o self' ->
  List.length (flushes evs) <= List.length (writes evs)
                            <= S (List.length (flushes evs))
  /\ (o = Ret tt -> List.length (flushes evs) = List.length (writes evs)).
Proof.
  intros Hs R. revert Hs.
  induction R as [ self
                 | st rest self evs e X
                 | st rest self evs X
                 | st rest self evs response texts e X I
                 | st rest self evs response texts evs' o self' X I R IH ];
    intros Hs.
  - cbn. split; [lia|reflexivity].
  - inversion Hs as [|? ? P _]; subst.
    cbn [writes flushes filter is_flush on_pipe].
    fold (writes evs). fold (flushes evs).
    rewrite (exchange_writes_plain _ _ _ _ _ _ _ P X).
    destruct (exchange_flushes _ _ _ _ _ _ _ X) as [F _].
    split; [lia|discriminate].
  - inversion Hs as [|? ? P _]; subst.
    cbn [writes flushes filter is_flush on_pipe].
    fold (writes evs). fold (flushes evs).
    rewrite (exchange_writes_plain _ _ _ _ _ _ _ P X).
    destruct (exchange_flushes _ _ _ _ _ _ _ X) as [F _].
    split; [lia|discriminate].
  - inversion Hs as [|? ? P _]; subst.
    cbn [writes flushes filter is_flush on_pipe].
    fold (writes (evs ++ map EPrint texts)).
    fold (flushes (evs ++ map EPrint texts)).
    rewrite writes_app, writes_prints, flushes_app, flushes_prints, !app_nil_r.
    rewrite (exchange_writes_plain _ _ _ _ _ _ _ P X).
    destruct (exchange_flushes _ _ _ _ _ _ _ X) as [F _].
    split; [lia|discriminate].
  - inversion Hs as [|? ? P Hs']; subst.
    cbn [writes flushes filter is_flush on_pipe].
    fold (writes (evs ++ map EPrint texts ++ evs')).
    fold (flushes (evs ++ map EPrint texts ++ evs')).
    rewrite !writes_app, writes_prints, !flushes_app, flushes_prints.
    rewrite !length_app. cbn [app List.length].
    rewrite (exchange_writes_plain _ _ _ _ _ _ _ P X).
    destruct (exchange_flushes _ _ _ _ _ _ _ X) as [_ F].
    rewrite (F response eq_refl).
    destruct (IH Hs') as [B C]. split; [lia|].
    intros O. rewrite (C O). reflexivity.
Qed.

Lemma serialisable_test_steps : serialisable test_steps.
Proof. repeat constructor. Qed.

Lemma ran_moves_counter st rest self evs o self' :
  ran (st :: rest) self evs o self' ->
  (request_id self + 1 <= request_id self')%Z.
Proof.
  intros R.
  inversion R as [ | | | | ? ? ? evs1 r1 t1 evs2 ? ? X1 I1 R2 ]; subst;
    cbn [request_id after_call with_prints log]; try lia.
  apply ran_counter in R2. cbn [request_id after_call with_prints log] in R2.
  lia.
Qed.

Lemma in_footer (evs : list event) :
  In (EPrint footer_text) evs <-> existsb is_footer evs = true.
Proof.
  rewrite existsb_exists. split.
  - intros H. exists (EPrint footer_text). split; [exact H|].
    apply String.eqb_refl.
  - intros (e & H & B). destruct e; try discriminate B.
    apply String.eqb_eq in B. now subst.
Qed.

(** ** End of stream within the run *)

Lemma split_skip (P : event -> bool) (e : event) (head rest : list event) :
  forall pre post,
    existsb P head = false -> P e = true ->
    (head ++ rest)%list = (pre ++ e :: post)%list ->
    exists pre', pre = (head ++ pre')%list
                 /\ rest = (pre' ++ e :: post)%list.
Proof.
  induction head as [|x head IH]; intros pre post N Pe E.
  - exists pre. auto.
  - cbn [existsb] in N. apply orb_false_iff in N as [Nx Nh].
    destruct pre as [|y pre]; cbn [app] in E; injection E as -> E.
    + congruence.
    + destruct (IH pre post Nh Pe E) as (pre' & -> & ->).
      exists pre'. auto.
Qed.

Lemma split_first (P : event -> bool) (e x : event)
  (head rest pre post : list event) :
  existsb P head = false -> P e = true ->
  (head ++ x :: rest)%list = (pre ++ e :: post)%list ->
  (pre = head /\ e = x /\ post = rest)
  \/ exists pre', pre = (head ++ x :: pre')%list
                  /\ rest = (pre' ++ e :: post)%list.
Proof.
  intros N Pe E.
  destruct (split_skip P e head (x :: rest) pre post N Pe E)
    as (pre' & -> & E').
  destruct pre' as [|y pre']; cbn [app] in E'; injection E' as -> ->.
  - left. now rewrite app_nil_r.
  - right. exists pre'. auto.
Qed.

Lemma eof_in (pre post : list event) :
  existsb is_eof (pre ++ end_of_stream :: post) = true.
Proof. rewrite existsb_app. cbn. apply orb_true_r. Qed.

(** A call whose parameters are JSON values begins with the assignment of
    the counter, the two lines of the display and the write of the
    request. *)
Lemma exchange_begins child h id method params evs o :
  plain params = true ->
  exchange child h id method params evs o ->
  exists shown document tl,
    json.dumps (Some 2) params = Val shown
    /\ json.dumps None (request method params id) = Val document
    /\ evs = ESetId (id + 1) :: ev_sending method :: ev_params shown
             :: EWrite (document ++ chr newline) :: tl.
Proof.
  intros H X.
  destruct X as [ e H1 | s e H1 H2 | s d e H1 H2 H3
                | s d e H1 H2 H3 H4 | r s d H1 H2 H3 H4 H5 t o A ].
  - destruct (json.dumps_plain (Some 2) params H) as [t E]. congruence.
  - destruct (json.dumps_plain None _ (request_plain method params id H))
      as [t E]. congruence.
  - exists s, d, []. auto.
  - exists s, d, [EFlush]. auto.
  - exists s, d, (EFlush :: EReadline r :: t). auto.
Qed.

Lemma ran_begins st rest self evs o self' :
  plain (step_params st) = true ->
  ran (st :: rest) self evs o self' ->
  exists shown document tl,
    json.dumps (Some 2) (step_params st) = Val shown
    /\ json.dumps None
         (request (step_method st) (step_params st) (request_id self))
       = Val document
    /\ evs = EPrint (banner st) :: ESetId (request_id self + 1)
             :: ev_sending (step_method st) :: ev_params shown
             :: EWrite (document ++ chr newline) :: tl.
Proof.
  intros P R.
  inversion R as [ | ? ? ? evs1 e X1 | ? ? ? evs1 X1
                   | ? ? ? evs1 r1 t1 e X1 I1
                   | ? ? ? evs1 r1 t1 evs2 ? ? X1 I1 R2 ]; subst;
    destruct (exchange_begins _ _ _ _ _ _ _ P X1)
      as (shown & d & tl & D1 & D & ->).
  - exists shown, d, tl. auto.
  - exists shown, d, tl. auto.
  - exists shown, d, (tl ++ map EPrint t1)%list. auto.
  - exists shown, d, (tl ++ map EPrint t1 ++ evs2)%list. auto.
Qed.

Lemma accepting_test_steps : accepting test_steps.
Proof. repeat constructor. Qed.

(** What follows a read that met the end of the stream, in a run of steps
    that take the empty mapping in silence: when the read was that of the
    last step, the closing line and the return of the run; otherwise the
    banner of the next step and the call of that step, as far as the write
    of its request.  The steps before the read have each read once, so
    that the number of reads before it is the position of its step. *)
Lemma ran_eof steps self evs o self' :
  serialisable steps -> accepting steps ->
  ran steps self evs o self' ->
  forall pre post,
    evs = (pre ++ end_of_stream :: post)%list ->
    match nth_error steps (S (List.length (reads pre))) with
    | Some next =>
        exists shown document post',
          json.dumps (Some 2) (step_params next) = Val shown
          /\ json.dumps None
               (request (step_method next) (step_params next)
                  (request_id self + Z.of_nat (List.length (reads pre)) + 1))
             = Val document
          /\ post
             = EPrint (banner next)
               :: ESetId (request_id self
                          + Z.of_nat (List.length (reads pre)) + 2)
               :: ev_sending (step_method next) :: ev_params shown
               :: EWrite (document ++ chr newline) :: post'
    | None => post = [EPrint footer_text] /\ o = Ret tt
    end.
Proof.
  intros Hs A R. revert Hs A.
  induction R as [ self
                 | st rest self evs e X
                 | st rest self evs X
                 | st rest self evs response texts e X I
                 | st rest self evs response texts evs' o self' X I R IH ];
    intros Hs A pre post E.
  - pose proof (eof_in pre post) as F. rewrite <- E in F. discriminate F.
  - pose proof (eof_in pre post) as F. rewrite <- E in F.
    destruct (exchange_eof _ _ _ _ _ _ _ X) as [N|([=] & _)].
    cbn [existsb is_eof orb] in F. congruence.
  - pose proof (eof_in pre post) as F. rewrite <- E in F.
    destruct (exchange_eof _ _ _ _ _ _ _ X) as [N|([=] & _)].
    cbn [existsb is_eof orb] in F. congruence.
  - pose proof (eof_in pre post) as F. rewrite <- E in F.
    inversion A as [|? ? Ast _]; subst.
    destruct (exchange_eof _ _ _ _ _ _ _ X) as [N|([= ->] & _)].
    + cbn [existsb is_eof orb] in F.
      rewrite existsb_app, N, no_eof_prints in F. discriminate F.
    + rewrite Ast in I. discriminate I.
  - inversion Hs as [|? ? Pst Hs']; subst.
    inversion A as [|? ? Ast A']; subst.
    set (s1 := with_prints
                 (after_call (log (EPrint (banner st)) self) evs) texts)
      in *.
    destruct (exchange_returns _ _ _ _ _ _ _ X) as (d & rp & _ & _ & _ & Rd).
    (* the read is one of the later steps *)
    assert (Later : forall pre',
               List.length (reads pre) = S (List.length (reads pre')) ->
               evs' = (pre' ++ end_of_stream :: post)%list ->
               match nth_error (st :: rest)
                       (S (List.length (reads pre))) with
               | Some next =>
                   exists shown document post',
                     json.dumps (Some 2) (step_params next) = Val shown
                     /\ json.dumps None
                          (request (step_method next) (step_params next)
                             (request_id self
                              + Z.of_nat (List.length (reads pre)) + 1))
                        = Val document
                     /\ post
                        = EPrint (banner next)
                          :: ESetId (request_id self
                                     + Z.of_nat (List.length (reads pre)) + 2)
                          :: ev_sending (step_method next) :: ev_params shown
                          :: EWrite (document ++ chr newline) :: post'
               | None => post = [EPrint footer_text] /\ o = Ret tt
               end).
    { intros pre' L E'. specialize (IH Hs' A' pre' post E').
      rewrite L. cbn [nth_error].
      replace (request_id self
               + Z.of_nat (S (List.length (reads pre'))) + 1)%Z
        with (request_id s1 + Z.of_nat (List.length (reads pre')) + 1)%Z
        by (subst s1; cbn [request_id with_prints after_call log]; lia).
      replace (request_id self
               + Z.of_nat (S (List.length (reads pre'))) + 2)%Z
        with (request_id s1 + Z.of_nat (List.length (reads pre')) + 2)%Z
        by (subst s1; cbn [request_id with_prints after_call log]; lia).
      exact IH. }
    destruct (exchange_eof _ _ _ _ _ _ _ X) as [N|([= ->] & p1 & -> & N)].
    + (* the call of this step met no end of stream *)
      assert (Nh : existsb is_eof
                     (EPrint (banner st) :: evs ++ map EPrint texts) = false).
      { cbn [existsb is_eof orb]. now rewrite existsb_app, N, no_eof_prints. }
      assert (E2 : ((EPrint (banner st) :: evs ++ map EPrint texts) ++ evs')%list
                   = (pre ++ end_of_stream :: post)%list).
      { rewrite <- E. cbn [app]. now rewrite <- app_assoc. }
      destruct (split_skip is_eof end_of_stream _ _ _ _ Nh eq_refl E2) as (pre' & -> & E').
      apply (Later pre'); [|exact E'].
      rewrite reads_app. cbn [reads filter on_pipe].
      fold (reads (evs ++ map EPrint texts)).
      rewrite reads_app, reads_prints, app_nil_r, Rd, length_app.
      reflexivity.
    + (* the call of this step ended on it *)
      assert (T : texts = []).
      { rewrite Ast in I. unfold s1 in I.
        apply (with_prints_inj
                 (after_call (log (EPrint (banner st)) self)
                    (p1 ++ [end_of_stream]))).
        rewrite with_prints_nil. congruence. }
      subst texts.
      assert (Rp : reads p1 = []).
      { rewrite reads_app in Rd. destruct (reads p1); [reflexivity|].
        destruct l; discriminate Rd. }
      assert (Nh : existsb is_eof (EPrint (banner st) :: p1) = false)
        by (cbn [existsb is_eof orb]; exact N).
      assert (E2 : ((EPrint (banner st) :: p1) ++ end_of_stream :: evs')%list
                   = (pre ++ end_of_stream :: post)%list).
      { rewrite <- E. cbn [app map]. now rewrite <- app_assoc. }
      destruct (split_first is_eof end_of_stream _ _ _ _ _ Nh eq_refl E2)
        as [(-> & _ & ->)|(pre' & -> & E')].
      * cbn [reads filter on_pipe]. fold (reads p1). rewrite Rp.
        cbn [List.length nth_error].
        destruct rest as [|next rest].
        -- inversion R; subst. auto.
        -- inversion Hs' as [|? ? Pn _]; subst.
           destruct (ran_begins _ _ _ _ _ _ Pn R)
             as (shown & d2 & tl & D1 & D & ->).
           exists shown, d2, tl.
           replace (request_id self + Z.of_nat 0 + 1)%Z with (request_id s1)
             by (subst s1; cbn [request_id with_prints after_call log]; lia).
           replace (request_id self + Z.of_nat 0 + 2)%Z
             with (request_id s1 + 1)%Z
             by (subst s1; cbn [request_id with_prints after_call log]; lia).
           auto.
      * apply (Later pre'); [|exact E'].
        rewrite reads_app. cbn [reads filter on_pipe]. fold (reads p1).
        rewrite Rp. reflexivity.
Qed.

(** C3.  A call whose read meets the end of the stream returns the empty
    mapping: it neither raises nor blocks.  Inside [run_tests] the run goes
    on to the next step.  Take any read of the run that met the end of the
    stream, and let k be the number of reads before it, so that the read
    is that of step k + 1.  When that step is not the last, the effects
    that follow the read are the banner of step k + 2 and the call of that
    step, with the next identifier, up to the write of its request on the
    child's input.  When it is the seventh, what follows is the closing
    line, and the run returns. *)
Theorem end_of_stream_is_not_an_error (self : MCPTestClient) :
  (forall method params,
      In end_of_stream (events_by (send_request method params) self) ->
      outcome_of (send_request method params) self = Ret empty_dict)
  /\ (forall pre post,
        events_by run_tests self = (pre ++ end_of_stream :: post)%list ->
        let k := List.length (reads pre) in
        match nth_error test_steps (S k) with
        | Some next =>
            exists shown document post',
              json.dumps (Some 2) (step_params next) = Val shown
              /\ json.dumps None
                   (request (step_method next) (step_params next)
                      (request_id self + Z.of_nat k + 1))
                 = Val document
              /\ post
                 = EPrint (banner next)
                   :: ESetId (request_id self + Z.of_nat k + 2)
                   :: ev_sending (step_method next) :: ev_params shown
                   :: EWrite (document ++ chr newline) :: post'
        | None =>
            post = [EPrint footer_text]
            /\ outcome_of run_tests self = Ret tt
        end).
Proof.
  split.
  - intros method params Hin.
    destruct (call_answer _ _ _ _ Hin) as [tail A].
    inversion A as [ | | E | l e' Hl He | l r s Hl Hr Hs ]; subst;
      try discriminate; reflexivity.
  - intros pre post E k. subst k.
    destruct (run_tests_ran self) as (evs & Ev & R). rewrite Ev in E.
    destruct (split_skip is_eof end_of_stream _ _ _ _ (no_eof_prints header_texts)
                eq_refl E) as (pre' & -> & E').
    rewrite reads_app, reads_prints. cbn [app].
    exact (ran_eof _ _ _ _ _ serialisable_test_steps accepting_test_steps
             R pre' post E').
Qed.

Lemma run_tests_process (self : MCPTestClient) :
  process (snd (run_tests self)) = process self.
Proof.
  destruct (run_tests_ran self) as (evs & _ & R).
  exact (ran_process _ _ _ _ _ R).
Qed.

(** ** The run as a whole *)

(** X2.  [run_tests], lines 56-108.  The run leaves the process handle alone
    and moves the request counter forward by at least one and at most
    seven.  Its parameters being JSON values, every call of the run gets
    as far as attempting its write: the counter has advanced by exactly
    the number of writes attempted.  An attempt that raises hands nothing
    to the child, and the identifier of that request is spent all the
    same; this happens to at most one request of the run, the last: every
    write but possibly the last has returned and been flushed.  When the
    run returns, the counter has advanced by seven and all seven writes
    have been flushed. *)
Theorem run_tests_counter (self : MCPTestClient) :
  let self' := snd (run_tests self) in
  let evs := events_by run_tests self in
  process self' = process self
  /\ (request_id self + 1 <= request_id self' <= request_id self + 7)%Z
  /\ Z.of_nat (List.length (writes evs))
     = (request_id self' - request_id self)%Z
  /\ List.length (flushes evs) <= List.length (writes evs)
                               <= S (List.length (flushes evs))
  /\ (outcome_of run_tests self = Ret tt ->
      request_id self' = (request_id self + 7)%Z
      /\ List.length (flushes evs) = 7).
Proof.
  intros self' evs0. subst self' evs0.
  destruct (run_tests_ran self) as (evs & -> & R).
  pose proof (ran_process _ _ _ _ _ R) as P.
  pose proof (ran_moves_counter _ _ _ _ _ _ R) as L.
  pose proof (ran_writes_exact _ _ _ _ _ serialisable_test_steps R) as Wx.
  destruct (ran_flushes _ _ _ _ _ serialisable_test_steps R) as (Fb & Fr).
  destruct (ran_counter _ _ _ _ _ R) as (B & W & C).
  cbn [request_id process with_prints] in *.
  change (Z.of_nat (List.length test_steps)) with 7%Z in *.
  rewrite writes_app, writes_prints, flushes_app, flushes_prints.
  cbn [app].
  split; [exact P|]. split; [lia|]. split; [exact Wx|]. split; [exact Fb|].
  intros O. specialize (C O). specialize (Fr O). split; [exact C|]. lia.
Qed.

(** X3.  [run_tests] over [send_request], lines 36-42.  On the pipes the run
    is a strict alternation: a write, its flush, one read, and only then
    the next write.  No request is sent before the previous one has been
    answered, and nothing is read that was not asked for. *)
Theorem run_tests_lockstep (self : MCPTestClient) :
  lockstep 0 (pipe (events_by run_tests self)) = true.
Proof.
  destruct (run_tests_ran self) as (evs & -> & R).
  rewrite pipe_app, pipe_prints. exact (ran_lockstep _ _ _ _ _ R).
Qed.

(** X5.  [run_tests] line 108.  The line announcing that all tests completed
    is printed exactly by the runs that return; it is then the last thing
    the run did, and it is printed once. *)
Theorem completion_line_iff_returned (self : MCPTestClient) :
  let evs := events_by run_tests self in
  (outcome_of run_tests self = Ret tt <-> In (EPrint footer_text) evs)
  /\ (outcome_of run_tests self = Ret tt ->
      exists pre, evs = (pre ++ [EPrint footer_text])%list
                  /\ ~ In (EPrint footer_text) pre).
Proof.
  intros evs. subst evs.
  destruct (run_tests_ran self) as (evs & -> & R).
  assert (Hd : existsb is_footer (map EPrint header_texts) = false)
    by (vm_compute; reflexivity).
  destruct (ran_footer_line _ _ _ _ _ discreet_test_steps R)
    as [(O & pre & -> & F)|[N F]].
  - split; [split; intros _|intros _].
    + apply in_or_app. right. apply in_or_app. right. now left.
    + exact O.
    + exists (map EPrint header_texts ++ pre)%list. split.
      * now rewrite app_assoc.
      * rewrite in_footer, existsb_app, Hd, F. discriminate.
  - split; [split|]; intros H; try contradiction.
    rewrite in_footer, existsb_app, Hd, F in H. discriminate H.
Qed.

(** X1.  The main block with [cleanup], lines 110-126.  The run itself never
    terminates the child.  When the run ends, by returning or by raising,
    the script prints the farewell and terminates the child, exactly
    once and as its last act, and ends as the run did.  When the run
    blocks, the script blocks with it and the child is never
    terminated. *)
Theorem main_always_cleans_up (child : Popen) :
  let run := run_tests (at_start child) in
  let farewell := [EPrint (chr newline ++ "Stopping server..."); ETerminate] in
  ~ In ETerminate (trace (snd run))
  /\ (fst run <> Hang ->
      fst (main child) = fst run
      /\ process (snd (main child)) = child
      /\ trace (snd (main child)) = (trace (snd run) ++ farewell)%list)
  /\ (fst run = Hang -> main child = run).
Proof.
  intros run farewell.
  assert (M : main child = try_finally run_tests cleanup (at_start child))
    by reflexivity.
  assert (C : forall s, cleanup s
                        = (Ret tt,
                           log ETerminate
                             (log (EPrint (chr newline
                                           ++ "Stopping server...")) s)))
    by reflexivity.
  assert (P : process (snd run) = child).
  { subst run. exact (run_tests_process (at_start child)). }
  split; [|split].
  - subst run. rewrite run_tests_trace. intros H.
    apply in_app_or in H. destruct H as [H|H].
    + cbn in H. repeat (destruct H as [H|H]; [discriminate H|]). exact H.
    + exact (run_tests_never_terminates _ H).
  - intros N. rewrite M. unfold try_finally. fold run.
    destruct run as [o s'] eqn:E. cbn [fst snd] in *.
    destruct o as [[]|e|]; [| |now destruct N];
      rewrite C; cbn [fst snd trace log process];
      (split; [reflexivity|]); (split; [exact P|]);
      now rewrite <- app_assoc.
  - intros H. rewrite M. unfold try_finally. fold run.
    destruct run as [o s'] eqn:E. cbn [fst] in H. now subst o.
Qed.

(** ** The response to [tools/list] *)

(** What the run does around its second read, when the line read decodes:
    two requests have been written, the response is shown, and the
    listing block decides how the run goes on. *)
Lemma tools_list_response (self : MCPTestClient) (line : string)
  (response : pyval) :
  nth_error (reads (events_by run_tests self)) 1 = Some (Got line) ->
  nonempty line = true ->
  json.loads line = Val response ->
  exists before shown s2 after,
    json.dumps (Some 2) response = Val shown
    /\ List.length (writes before) = 2
    /\ events_by run_tests self
       = (before ++ EReadline (Got line) :: ev_response shown :: after)%list
    /\ ((exists texts e,
            list_tools response s2 = (Raise e, with_prints s2 texts)
            /\ after = map EPrint texts
            /\ outcome_of run_tests self = Raise e)
        \/ (exists texts tl,
               list_tools response s2 = (Ret tt, with_prints s2 texts)
               /\ after
                  = (map EPrint texts
                     ++ EPrint (chr newline ++ keycap "3"
                                ++ "  NAVIGATE TO TEST PAGE") :: tl)%list)).
Proof.
  intros Hread Hline Hloads.
  destruct (run_tests_ran self) as (evs & E & R). rewrite E in *.
  rewrite reads_app, reads_prints in Hread. cbn [app] in Hread.
  destruct (ran_second_response _ _ _ _ _ _ _ _ _ R Hread Hline Hloads)
    as (before & shown & s2 & after & Hs & W & -> & H).
  exists (map EPrint header_texts ++ before)%list, shown, s2, after.
  split; [exact Hs|]. split.
  { now rewrite writes_app, writes_prints. }
  split; [now rewrite <- app_assoc|].
  destruct H as [(texts & e & I & -> & O)|(texts & evs' & I & -> & R')].
  - left. exists texts, e. repeat split; assumption.
  - right. destruct (ran_starts _ _ _ _ _ _ R') as [tl ->].
    exists texts, tl. split; [exact I|reflexivity].
Qed.

(** X6.  [run_tests] line 72.  A response to [tools/list] that is a mapping
    without a [result] key, such as a JSON-RPC error, is displayed and
    otherwise ignored: the run prints nothing about tools and goes
    straight to its third step. *)
Theorem error_response_is_skipped (self : MCPTestClient) (line : string)
  (fields : list (string * pyval)) :
  nth_error (reads (events_by run_tests self)) 1 = Some (Got line) ->
  nonempty line = true ->
  json.loads line = Val (PDict fields) ->
  dict_lookup "result" fields = None ->
  exists before shown after,
    json.dumps (Some 2) (PDict fields) = Val shown
    /\ List.length (writes before) = 2
    /\ events_by run_tests self
       = (before ++ EReadline (Got line) :: ev_response shown
            :: EPrint (chr newline ++ keycap "3" ++ "  NAVIGATE TO TEST PAGE")
            :: after)%list.
Proof.
  intros Hread Hline Hloads Hresult.
  destruct (tools_list_response self line _ Hread Hline Hloads)
    as (before & shown & s2 & after & Hs & W & E & H).
  assert (L : list_tools (PDict fields) s2 = (Ret tt, s2)).
  { unfold list_tools, bind, lift, py_in. now rewrite Hresult. }
  rewrite L in H.
  destruct H as [(texts & e & [=] & _)|(texts & tl & [= I] & ->)].
  rewrite <- (with_prints_nil s2) in I at 1.
  apply with_prints_inj in I. subst texts.
  exists before, shown, tl. repeat split; assumption.
Qed.

(** X7.  [run_tests] lines 73-74.  When the [result] of the response is a
    mapping without a [tools] key, the default list is used: the run
    reports zero tools, lists none, and goes on to its third step. *)
Theorem missing_tools_count_zero (self : MCPTestClient) (line : string)
  (fields result_fields : list (string * pyval)) :
  nth_error (reads (events_by run_tests self)) 1 = Some (Got line) ->
  nonempty line = true ->
  json.loads line = Val (PDict fields) ->
  dict_lookup "result" fields = Some (PDict result_fields) ->
  dict_lookup "tools" result_fields = None ->
  exists before shown after,
    events_by run_tests self
    = (before ++ EReadline (Got line) :: ev_response shown
         :: EPrint "   Found 0 tools:"
         :: EPrint (chr newline ++ keycap "3" ++ "  NAVIGATE TO TEST PAGE")
         :: after)%list.
Proof.
  intros Hread Hline Hloads Hresult Htools.
  destruct (tools_list_response self line _ Hread Hline Hloads)
    as (before & shown & s2 & after & Hs & W & E & H).
  assert (L : list_tools (PDict fields) s2
              = (Ret tt, with_prints s2 ["   Found 0 tools:"])).
  { unfold list_tools, bind, lift, py_in, py_getitem, py_get.
    rewrite Hresult, Htools. reflexivity. }
  rewrite L in H.
  destruct H as [(texts & e & [=] & _)|(texts & tl & I & ->)].
  assert (I' : with_prints s2 ["   Found 0 tools:"] = with_prints s2 texts)
    by congruence.
  apply with_prints_inj in I'. subst texts.
  exists before, shown, tl. exact E.
Qed.

(** X8.  [run_tests] line 72.  A response to [tools/list] that decodes to
    [null], a boolean or a number makes the membership test raise
    [TypeError]: the run ends there, after two requests, its last act
    being the display of the response. *)
Theorem scalar_response_aborts_run (self : MCPTestClient) (line : string)
  (response : pyval) :
  nth_error (reads (events_by run_tests self)) 1 = Some (Got line) ->
  nonempty line = true ->
  json.loads line = Val response ->
  is_scalar response = true ->
  outcome_of run_tests self = Raise TypeError
  /\ List.length (writes (events_by run_tests self)) = 2
  /\ exists before shown,
       json.dumps (Some 2) response = Val shown
       /\ events_by run_tests self
          = (before ++ [EReadline (Got line); ev_response shown])%list.
Proof.
  intros Hread Hline Hloads Hscalar.
  destruct (tools_list_response self line _ Hread Hline Hloads)
    as (before & shown & s2 & after & Hs & W & E & H).
  assert (L : list_tools response s2 = (Raise TypeError, s2))
    by (destruct response; try discriminate Hscalar; reflexivity).
  rewrite L in H.
  destruct H as [(texts & e & [= <- I] & -> & O)|(texts & tl & [=] & _)].
  rewrite <- (with_prints_nil s2) in I at 1.
  apply with_prints_inj in I. subst texts.
  split; [exact O|]. split.
  - rewrite E, writes_app. cbn [map writes filter on_pipe app].
    rewrite app_nil_r. exact W.
  - exists before, shown. split; [exact Hs|exact E].
Qed.

(** X9.  [run_tests] line 73.  When the [result] of the response is not a
    mapping, a list or a string for instance, it has no [get]: the run
    ends there with [AttributeError], after two requests, without a word
    about tools. *)
Theorem non_mapping_result_aborts_run (self : MCPTestClient) (line : string)
  (fields : list (string * pyval)) (result : pyval) :
  nth_error (reads (events_by run_tests self)) 1 = Some (Got line) ->
  nonempty line = true ->
  json.loads line = Val (PDict fields) ->
  dict_lookup "result" fields = Some result ->
  is_mapping result = false ->
  outcome_of run_tests self = Raise AttributeError
  /\ List.length (writes (events_by run_tests self)) = 2
  /\ exists before shown,
       json.dumps (Some 2) (PDict fields) = Val shown
       /\ events_by run_tests self
          = (before ++ [EReadline (Got line); ev_response shown])%list.
Proof.
  intros Hread Hline Hloads Hresult Hmap.
  destruct (tools_list_response self line _ Hread Hline Hloads)
    as (before & shown & s2 & after & Hs & W & E & H).
  assert (L : list_tools (PDict fields) s2 = (Raise AttributeError, s2)).
  { unfold list_tools, bind, lift, py_in, py_getitem. rewrite Hresult.
    destruct result; try discriminate Hmap; reflexivity. }
  rewrite L in H.
  destruct H as [(texts & e & [= <- I] & -> & O)|(texts & tl & [=] & _)].
  rewrite <- (with_prints_nil s2) in I at 1.
  apply with_prints_inj in I. subst texts.
  split; [exact O|]. split.
  - rewrite E, writes_app. cbn [map writes filter on_pipe app].
    rewrite app_nil_r. exact W.
  - exists before, shown. split; [exact Hs|exact E].
Qed.

(** X10.  [run_tests] lines 72-76.  Whatever the response, the listing block
    only prints: it prints at most six lines, the count and five tools,
    touches neither the pipes nor the counter, and does not block. *)
Theorem listing_prints_at_most_six_lines (response : pyval)
  (self : MCPTestClient) :
  exists texts,
    snd (list_tools response self) = with_prints self texts
    /\ List.length texts <= 6
    /\ outcome_of (list_tools response) self <> Hang.
Proof.
  destruct (list_tools_prints response self) as (texts & E & L & _).
  exists texts. rewrite E. split; [reflexivity|]. split; [exact L|].
  destruct (console_only_list_tools response self) as (t & _ & N).
  exact N.
Qed.

(** X11.  [run_tests] lines 75-76.  The loop over the tools stops at the
    first entry whose line cannot be formatted: the entries before it have
    their line printed, the exception of the failing entry leaves the
    loop, and nothing is printed for it or for the entries after it. *)
Theorem listing_stops_at_first_bad_entry (good : list pyval)
  (texts : list string) (bad : pyval) (rest : list pyval) (e : exn)
  (self : MCPTestClient) :
  Forall2 (fun tool line => tool_line tool = Val line) good texts ->
  tool_line bad = Exc e ->
  for_each (good ++ bad :: rest)%list show_tool self
  = (Raise e, with_prints self texts).
Proof.
  intros G B. revert self.
  induction G as [|tool line good texts T G IH]; intros self.
  - cbn [app for_each]. unfold bind, show_tool, lift. rewrite B.
    now rewrite with_prints_nil.
  - cbn [app for_each]. unfold bind at 1. unfold show_tool at 1.
    unfold bind, lift, print. rewrite T.
    change (log (EPrint line) self) with (with_prints self [line]).
    rewrite IH, with_prints_app. reflexivity.
Qed.

(** X12.  [run_tests] line 76.  The description of a tool is shown up to its
    sixtieth character, and the ellipsis is appended whether or not
    anything was cut. *)
Theorem description_is_cut_at_sixty (fields : list (string * pyval))
  (description : string) :
  dict_lookup "description" fields = Some (PStr description) ->
  exists summary rest,
    description = summary ++ rest
    /\ String.length summary = Nat.min 60 (String.length description)
    /\ tool_line (PDict fields)
       = Val ("   - "
              ++ py_str (match dict_lookup "name" fields with
                         | Some name => name
                         | None => PNone
                         end)
              ++ ": " ++ summary ++ "...").
Proof.
  intros H. destruct (substring_split 60 description) as (rest & E & L).
  exists (substring 0 60 description), rest.
  split; [exact E|]. split; [exact L|].
  unfold tool_line, and_then, py_get. rewrite H. reflexivity.
Qed.

(** ** One call *)

(** X13.  [send_request] line 34.  The dump of the parameters serves the
    display only, yet when it raises the call ends there: the counter has
    moved, the method name has been printed, and nothing has been written
    to the server. *)
Theorem unserialisable_params_abort_call (self : MCPTestClient)
  (method : string) (params : pyval) (e : exn) :
  json.dumps (Some 2) params = Exc e ->
  send_request method params self
  = (Raise e,
     after_call self [ESetId (request_id self + 1); ev_sending method]).
Proof.
  intros H.
  destruct (send_request_exchange self method params) as (evs & o & E & X).
  rewrite E.
  destruct X as [ e' H1 | s e' H1 H2 | s d e' H1 H2 H3
                | s d e' H1 H2 H3 H4 | r s d H1 H2 H3 H4 H5 t o A ];
    congruence.
Qed.

(** X14.  [send_request] lines 38-42.  A write that raises ends the call before
    the flush, and a flush that raises ends it before the read: the
    exception leaves the call and the server's answer is never read. *)
Theorem failed_write_or_flush_ends_call (self : MCPTestClient)
  (method : string) (params : pyval) (shown document : string) :
  json.dumps (Some 2) params = Val shown ->
  json.dumps None (request method params (request_id self)) = Val document ->
  let call := send_request method params in
  let data := document ++ chr newline in
  (forall e,
      write_reply (process self) (pipe (trace self)) data = Some e ->
      outcome_of call self = Raise e
      /\ pipe (events_by call self) = [EWrite data])
  /\ (forall e,
        write_reply (process self) (pipe (trace self)) data = None ->
        flush_reply (process self) (pipe (trace self) ++ [EWrite data])%list
        = Some e ->
        outcome_of call self = Raise e
        /\ pipe (events_by call self) = [EWrite data; EFlush]).
Proof.
  intros Hs Hd call data. subst call data.
  destruct (send_request_path self method params) as [_ X].
  split; intros e.
  - intros Hw.
    destruct X as [ e' H1 | s e' H1 H2 | s d e' H1 H2 H3
                  | s d e' H1 H2 H3 H4 | r s d H1 H2 H3 H4 H5 t o A ];
      try congruence.
    split; [congruence|]. replace d with document by congruence.
    reflexivity.
  - intros Hw Hf.
    destruct X as [ e' H1 | s e' H1 H2 | s d e' H1 H2 H3
                  | s d e' H1 H2 H3 H4 | r s d H1 H2 H3 H4 H5 t o A ];
      try congruence.
    split; [congruence|]. replace d with document by congruence.
    reflexivity.
Qed.

(** X15.  [send_request] line 45.  The response is displayed up to the five
    hundredth character of its indented dump, and the ellipsis is
    appended whether or not anything was cut; the value returned is the
    whole response. *)
Theorem response_preview_is_cut (self : MCPTestClient) (method : string)
  (params : pyval) (line : string) (response : pyval) (shown : string) :
  reads (events_by (send_request method params) self) = [Got line] ->
  nonempty line = true ->
  json.loads line = Val response ->
  json.dumps (Some 2) response = Val shown ->
  exists before preview rest,
    shown = preview ++ rest
    /\ String.length preview = Nat.min 500 (String.length shown)
    /\ events_by (send_request method params) self
       = (before ++ [EReadline (Got line);
                     EPrint (inbox ++ " Response: " ++ preview ++ "...")])%list
    /\ outcome_of (send_request method params) self = Ret response.
Proof.
  intros Hread Hline Hloads Hshown.
  destruct (send_request_path self method params) as [_ X].
  assert (Hr : nth_error
                 (reads (events_by (send_request method params) self)) 0
               = Some (Got line)) by (now rewrite Hread).
  destruct (exchange_got _ _ _ _ _ _ _ _ _ X Hr Hline Hloads)
    as (pre & shown' & Hs & E & _ & O).
  assert (shown' = shown) by congruence. subst shown'.
  destruct (substring_split 500 shown) as (rest & Es & L).
  exists pre, (substring 0 500 shown), rest.
  split; [exact Es|]. split; [exact L|]. split; [exact E|exact O].
Qed.

End Runs.

(** ** The properties on concrete servers *)

Section FurtherScenarios.

(** A JSON-RPC error in answer to [tools/list]: the run goes on. *)
Lemma error_response_is_skipped_witness :
  let self := __init__ (scripted_child [ack_line; error_line]) in
  (nth_error (reads (events_by run_tests self)) 1 = Some (Got error_line)
   /\ nonempty error_line = true
   /\ json.loads error_line = Val (PDict error_fields)
   /\ dict_lookup "result" error_fields = None)
  /\ exists before shown after,
       json.dumps (Some 2) (PDict error_fields) = Val shown
       /\ List.length (writes before) = 2
       /\ events_by run_tests self
          = (before ++ EReadline (Got error_line) :: ev_response shown
               :: EPrint (chr newline ++ keycap "3"
                          ++ "  NAVIGATE TO TEST PAGE")
               :: after)%list.
Proof.
  intros self.
  assert (H1 : nth_error (reads (events_by run_tests self)) 1
               = Some (Got error_line)) by (vm_compute; reflexivity).
  assert (H2 : nonempty error_line = true) by (vm_compute; reflexivity).
  assert (H3 : json.loads error_line = Val (PDict error_fields))
    by (vm_compute; reflexivity).
  assert (H4 : dict_lookup "result" error_fields = None)
    by (vm_compute; reflexivity).
  split; [auto|].
  exact (error_response_is_skipped (J := reference_codec)
           self error_line error_fields H1 H2 H3 H4).
Defined.

(** An empty [result] in answer to [tools/list]: zero tools. *)
Lemma missing_tools_count_zero_witness :
  let self := __init__ (scripted_child [ack_line; ack_line]) in
  (nth_error (reads (events_by run_tests self)) 1 = Some (Got ack_line)
   /\ nonempty ack_line = true
   /\ json.loads ack_line = Val (PDict ack_fields)
   /\ dict_lookup "result" ack_fields = Some (PDict [])
   /\ dict_lookup "tools" [] = None)
  /\ exists before shown after,
       events_by run_tests self
       = (before ++ EReadline (Got ack_line) :: ev_response shown
            :: EPrint "   Found 0 tools:"
            :: EPrint (chr newline ++ keycap "3" ++ "  NAVIGATE TO TEST PAGE")
            :: after)%list.
Proof.
  intros self.
  assert (H1 : nth_error (reads (events_by run_tests self)) 1
               = Some (Got ack_line)) by (vm_compute; reflexivity).
  assert (H2 : nonempty ack_line = true) by (vm_compute; reflexivity).
  assert (H3 : json.loads ack_line = Val (PDict ack_fields))
    by (vm_compute; reflexivity).
  assert (H4 : dict_lookup "result" ack_fields = Some (PDict []))
    by (vm_compute; reflexivity).
  assert (H5 : dict_lookup "tools" [] = None) by reflexivity.
  split; [auto|].
  exact (missing_tools_count_zero (J := reference_codec)
           self ack_line ack_fields [] H1 H2 H3 H4 H5).
Defined.

(** [null] in answer to [tools/list]: the run raises. *)
Lemma scalar_response_aborts_run_witness :
  let self := __init__ (scripted_child [ack_line; null_line]) in
  (nth_error (reads (events_by run_tests self)) 1 = Some (Got null_line)
   /\ nonempty null_line = true
   /\ json.loads null_line = Val PNone
   /\ is_scalar PNone = true)
  /\ outcome_of run_tests self = Raise TypeError
  /\ List.length (writes (events_by run_tests self)) = 2.
Proof.
  intros self.
  assert (H1 : nth_error (reads (events_by run_tests self)) 1
               = Some (Got null_line)) by (vm_compute; reflexivity).
  assert (H2 : nonempty null_line = true) by (vm_compute; reflexivity).
  assert (H3 : json.loads null_line = Val PNone)
    by (vm_compute; reflexivity).
  assert (H4 : is_scalar PNone = true) by reflexivity.
  split; [auto|].
  destruct (scalar_response_aborts_run (J := reference_codec)
              self null_line PNone H1 H2 H3 H4) as (O & W & _).
  split; [exact O|exact W].
Defined.

(** A list as [result] in answer to [tools/list]: the run raises. *)
Lemma non_mapping_result_aborts_run_witness :
  let self := __init__ (scripted_child [ack_line; list_result_line]) in
  (nth_error (reads (events_by run_tests self)) 1 = Some (Got list_result_line)
   /\ nonempty list_result_line = true
   /\ json.loads list_result_line = Val (PDict list_result_fields)
   /\ dict_lookup "result" list_result_fields = Some (PList [])
   /\ is_mapping (PList []) = false)
  /\ outcome_of run_tests self = Raise AttributeError
  /\ List.length (writes (events_by run_tests self)) = 2.
Proof.
  intros self.
  assert (H1 : nth_error (reads (events_by run_tests self)) 1
               = Some (Got list_result_line)) by (vm_compute; reflexivity).
  assert (H2 : nonempty list_result_line = true) by (vm_compute; reflexivity).
  assert (H3 : json.loads list_result_line = Val (PDict list_result_fields))
    by (vm_compute; reflexivity).
  assert (H4 : dict_lookup "result" list_result_fields = Some (PList []))
    by (vm_compute; reflexivity).
  assert (H5 : is_mapping (PList []) = false) by reflexivity.
  split; [auto|].
  destruct (non_mapping_result_aborts_run (J := reference_codec)
              self list_result_line list_result_fields (PList [])
              H1 H2 H3 H4 H5) as (O & W & _).
  split; [exact O|exact W].
Defined.

(** A description of seventy characters is shown up to the sixtieth. *)
Lemma description_is_cut_at_sixty_witness :
  let description := repeat_string "abcdefghij" 7 in
  let fields := [("name", PStr "fill"); ("description", PStr description)] in
  dict_lookup "description" fields = Some (PStr description)
  /\ exists summary rest,
       description = summary ++ rest
       /\ String.length summary = 60
       /\ tool_line (PDict fields)
          = Val ("   - fill: " ++ summary ++ "...").
Proof.
  intros description fields.
  assert (H : dict_lookup "description" fields = Some (PStr description))
    by (vm_compute; reflexivity).
  split; [exact H|].
  destruct (description_is_cut_at_sixty fields description H)
    as (summary & rest & E & L & T).
  exists summary, rest. split; [exact E|]. split; [exact L|exact T].
Defined.

(** Parameters that hold a set do not encode: nothing is sent. *)
Lemma unserialisable_params_abort_call_witness :
  let params := PDict [("tags", PObj "{1, 2}" true)] in
  let self := __init__ closed_child in
  json.dumps (Some 2) params = Exc TypeError
  /\ send_request "tools/list" params self
     = (Raise TypeError,
        after_call self [ESetId 2; ev_sending "tools/list"]).
Proof.
  intros params self.
  assert (H : json.dumps (Some 2) params = Exc TypeError)
    by (vm_compute; reflexivity).
  split; [exact H|].
  exact (unserialisable_params_abort_call (J := reference_codec)
           self "tools/list" params TypeError H).
Defined.

(** Against a broken pipe the call ends at the write. *)
Lemma failed_write_or_flush_ends_call_witness :
  let self := __init__ deaf_child in
  let shown := "{}" in
  let document :=
    json_text "{`jsonrpc`: `2.0`, `method`: `tools/list`, `params`: {}, `id`: 1}" in
  (json.dumps (Some 2) (PDict []) = Val shown
   /\ json.dumps None (request "tools/list" (PDict []) (request_id self))
      = Val document
   /\ write_reply (process self) (pipe (trace self)) (document ++ chr newline)
      = Some (OSError 32))
  /\ outcome_of (send_request "tools/list" (PDict [])) self
     = Raise (OSError 32)
  /\ pipe (events_by (send_request "tools/list" (PDict [])) self)
     = [EWrite (document ++ chr newline)].
Proof.
  intros self shown document.
  assert (H1 : json.dumps (Some 2) (PDict []) = Val shown)
    by (vm_compute; reflexivity).
  assert (H2 : json.dumps None
                 (request "tools/list" (PDict []) (request_id self))
               = Val document) by (vm_compute; reflexivity).
  assert (H3 : write_reply (process self) (pipe (trace self))
                 (document ++ chr newline) = Some (OSError 32))
    by reflexivity.
  split; [auto|].
  exact (proj1 (failed_write_or_flush_ends_call (J := reference_codec)
                  self "tools/list" (PDict []) shown document H1 H2)
           (OSError 32) H3).
Defined.

(** The echo server's answer is displayed and returned. *)
Lemma response_preview_is_cut_witness :
  let self := __init__ echo_server in
  let call := send_request "tools/list" (PDict []) in
  let shown := match json.dumps (Some 2) (PDict echo_fields) with
               | Val text => text
               | Exc _ => ""
               end in
  (reads (events_by call self) = [Got echo_line]
   /\ nonempty echo_line = true
   /\ json.loads echo_line = Val (PDict echo_fields)
   /\ json.dumps (Some 2) (PDict echo_fields) = Val shown)
  /\ exists before preview rest,
       shown = preview ++ rest
       /\ String.length preview = Nat.min 500 (String.length shown)
       /\ events_by call self
          = (before ++ [EReadline (Got echo_line);
                        EPrint (inbox ++ " Response: " ++ preview
                                ++ "...")])%list
       /\ outcome_of call self = Ret (PDict echo_fields).
Proof.
  intros self call shown.
  assert (H1 : reads (events_by call self) = [Got echo_line])
    by (vm_compute; reflexivity).
  assert (H2 : nonempty echo_line = true) by (vm_compute; reflexivity).
  assert (H3 : json.loads echo_line = Val (PDict echo_fields))
    by (vm_compute; reflexivity).
  assert (H4 : json.dumps (Some 2) (PDict echo_fields) = Val shown)
    by (vm_compute; reflexivity).
  split; [auto|].
  exact (response_preview_is_cut (J := reference_codec)
           self "tools/list" (PDict []) echo_line (PDict echo_fields) shown
           H1 H2 H3 H4).
Defined.

(** The listing stops at an entry that is a string, not a mapping. *)
Lemma listing_stops_at_first_bad_entry_witness :
  let good := [PDict [("name", PStr "navigate")]] in
  let texts := ["   - navigate: ..."] in
  let self := __init__ closed_child in
  (Forall2 (fun tool line => tool_line tool = Val line) good texts
   /\ tool_line (PStr "click") = Exc AttributeError)
  /\ for_each (good ++ [PStr "click"; PDict [("name", PStr "fill")]])%list
       show_tool self
     = (Raise AttributeError, with_prints self texts).
Proof.
  intros good texts self.
  assert (H1 : Forall2 (fun tool line => tool_line tool = Val line) good texts)
    by (constructor; [vm_compute; reflexivity|constructor]).
  assert (H2 : tool_line (PStr "click") = Exc AttributeError) by reflexivity.
  split; [auto|].
  exact (listing_stops_at_first_bad_entry
           good texts (PStr "click") [PDict [("name", PStr "fill")]]
           AttributeError self H1 H2).
Defined.

(** Against the echo server the run completes: the counter stands at 8
    and seven writes were flushed.  Against a broken pipe the one write
    attempted was not flushed, and the identifier 1 is spent. *)
Lemma run_tests_counter_witness :
  let self := __init__ echo_server in
  let deaf := __init__ deaf_child in
  outcome_of run_tests self = Ret tt
  /\ (request_id (snd (run_tests self)) = 8%Z
      /\ List.length (flushes (events_by run_tests self)) = 7)
  /\ (Z.of_nat (List.length (writes (events_by run_tests deaf)))
      = (request_id (snd (run_tests deaf)) - request_id deaf)%Z
      /\ request_id (snd (run_tests deaf)) = 2%Z
      /\ List.length (flushes (events_by run_tests deaf)) = 0).
Proof.
  intros self deaf.
  assert (H : outcome_of run_tests self = Ret tt) by (vm_compute; reflexivity).
  pose proof (run_tests_counter (J := reference_codec) self) as E.
  pose proof (run_tests_counter (J := reference_codec) deaf) as D.
  cbv zeta in E, D.
  destruct E as (_ & _ & _ & _ & E). destruct D as (_ & _ & D & _).
  split; [exact H|]. split; [exact (E H)|].
  split; [exact D|]. split; vm_compute; reflexivity.
Defined.

(** C3 against a closed stream.  The call returns the empty mapping.  In
    the run the first read, the tenth effect, is followed by the banner of
    the second test and the write of the request numbered 2; the seventh
    read, the fifty-second effect, by the closing line. *)
Lemma end_of_stream_is_not_an_error_witness :
  let self := __init__ closed_child in
  let evs := events_by run_tests self in
  let document :=
    json_text "{`jsonrpc`: `2.0`, `method`: `tools/list`, `params`: {}, `id`: 2}" in
  (In end_of_stream (events_by (send_request "tools/list" (PDict [])) self)
   /\ evs = (firstn 9 evs ++ end_of_stream :: skipn 10 evs)%list
   /\ evs = (firstn 51 evs ++ end_of_stream :: skipn 52 evs)%list)
  /\ outcome_of (send_request "tools/list" (PDict [])) self = Ret empty_dict
  /\ (exists post',
        skipn 10 evs
        = EPrint (chr newline ++ keycap "2" ++ "  LIST AVAILABLE TOOLS")
          :: ESetId 3 :: ev_sending "tools/list" :: ev_params "{}"
          :: EWrite (document ++ chr newline) :: post')
  /\ skipn 52 evs = [EPrint footer_text]
  /\ outcome_of run_tests self = Ret tt.
Proof.
  intros self evs document.
  assert (H1 : In end_of_stream
                 (events_by (send_request "tools/list" (PDict [])) self))
    by (vm_compute; tauto).
  assert (H2 : evs = (firstn 9 evs ++ end_of_stream :: skipn 10 evs)%list)
    by (vm_compute; reflexivity).
  assert (H3 : evs = (firstn 51 evs ++ end_of_stream :: skipn 52 evs)%list)
    by (vm_compute; reflexivity).
  assert (K1 : nth_error test_steps (S (List.length (reads (firstn 9 evs))))
               = nth_error test_steps 1) by (vm_compute; reflexivity).
  assert (K2 : nth_error test_steps (S (List.length (reads (firstn 51 evs))))
               = None) by (vm_compute; reflexivity).
  pose proof (end_of_stream_is_not_an_error (J := reference_codec) self)
    as [C W].
  pose proof (W (firstn 9 evs) (skipn 10 evs) H2) as W1.
  pose proof (W (firstn 51 evs) (skipn 52 evs) H3) as W2.
  cbv zeta in W1, W2. rewrite K1 in W1. rewrite K2 in W2.
  cbn [nth_error test_steps] in W1.
  destruct W1 as (shown & doc & post' & D1 & D2 & P).
  vm_compute in D1. injection D1 as <-.
  vm_compute in D2. injection D2 as <-.
  split; [auto|]. split; [exact (C "tools/list" (PDict []) H1)|].
  split; [|exact W2].
  exists post'. rewrite P. vm_compute. reflexivity.
Defined.

(** Against the echo server the run ends on the completion line. *)
Lemma completion_line_iff_returned_witness :
  let self := __init__ echo_server in
  outcome_of run_tests self = Ret tt
  /\ exists pre,
       events_by run_tests self = (pre ++ [EPrint footer_text])%list
       /\ ~ In (EPrint footer_text) pre.
Proof.
  intros self.
  assert (H : outcome_of run_tests self = Ret tt) by (vm_compute; reflexivity).
  split; [exact H|].
  exact (proj2 (completion_line_iff_returned (J := reference_codec) self) H).
Defined.

(** Against a broken pipe the script raises and the child is terminated;
    against a server that never answers it is not. *)
Lemma main_always_cleans_up_witness :
  (fst (run_tests (at_start deaf_child)) <> Hang
   /\ fst (main deaf_child) = Raise (OSError 32)
   /\ trace (snd (main deaf_child))
      = (trace (snd (run_tests (at_start deaf_child)))
         ++ [EPrint (chr newline ++ "Stopping server..."); ETerminate])%list)
  /\ (fst (run_tests (at_start mute_child)) = Hang
      /\ ~ In ETerminate (trace (snd (main mute_child)))).
Proof.
  assert (H1 : fst (run_tests (at_start deaf_child)) = Raise (OSError 32))
    by (vm_compute; reflexivity).
  assert (N : fst (run_tests (at_start deaf_child)) <> Hang)
    by (rewrite H1; discriminate).
  assert (H2 : fst (run_tests (at_start mute_child)) = Hang)
    by (vm_compute; reflexivity).
  pose proof (main_always_cleans_up (J := reference_codec) deaf_child) as D.
  pose proof (main_always_cleans_up (J := reference_codec) mute_child) as U.
  cbv zeta in D, U.
  destruct D as (_ & D & _). destruct (D N) as (O & _ & T).
  destruct U as (U & _ & E).
  split; [split; [exact N|split; [now rewrite O|exact T]]|].
  split; [exact H2|]. rewrite (E H2). exact U.
Defined.

End FurtherScenarios.
